(** * The forecast pipeline of [backend/main.py]

    A shallow embedding of the forecast service: the historical data
    source ([generate_energy_market_data], [generate_synthetic_data_fallback]),
    the orchestrator ([generate_forecast]), the synthetic forecaster
    ([generate_synthetic_forecast_all_types]), the arbitrage heuristic
    ([detect_arbitrage_opportunities]), the anomaly operation
    ([detect_anomalies]) and the single-series generators
    ([generate_synthetic_data], [generate_synthetic_forecast]).

    Conventions of the model.
    - A Python [float] is an exact rational ([Q]): rounding, infinities
      and NaN values of prices are outside the model.  Only the statistics
      of the response, where pandas and numpy return NaN on an empty or
      one-element series, carry an explicit [NaNf].
    - A timestamp is a number of seconds ([Z]); [strftime] and
      [isoformat] are the identity on it.  The range of the timestamps of
      pandas is outside the model: a date range that would leave it is
      computed here, so that the theorems about the dates of a result
      speak of the runs that return one.
    - Code that can raise returns a [result]; code that reads the clock or
      the global numpy generator runs in the monad [M] over a [world].
    - numpy's transcendental functions and its random generator, and the
      date parser of pandas, are parameters gathered in [Lib].
    - The CSV file, the forecasting client and the market-data API are
      parameters of the section [Backend]. *)

From Stdlib Require Import ZArith QArith Qround List String Bool Lia Lqa.
From Stdlib Require Import DecimalString DecimalZ Sorted.
Import ListNotations.

Local Open Scope string_scope.
Local Open Scope list_scope.
Local Open Scope Z_scope.

(** ** Python values and exceptions *)

Inductive exn : Type :=
| KeyError
| IndexError
| ValueError
| TypeError
| ZeroDivisionError
| AttributeError
| FileNotFoundError
| ProviderError
| ConnectionError
| HTTPException (status : Z).

Inductive result (A : Type) : Type :=
| Ok (a : A)
| Raise (e : exn).

Arguments Ok {A} a.
Arguments Raise {A} e.

Definition rbind {A B : Type} (r : result A) (f : A -> result B) : result B :=
  match r with
  | Ok a => f a
  | Raise e => Raise e
  end.

Notation "x <-? r ;; k" := (rbind r (fun x => k))
  (at level 61, r at next level, right associativity).

Fixpoint rmap {A B : Type} (f : A -> result B) (l : list A) : result (list B) :=
  match l with
  | [] => Ok []
  | a :: l' => b <-? f a ;; bs <-? rmap f l' ;; Ok (b :: bs)
  end.

(** [a // b] *)
Definition py_floordiv (a b : Z) : result Z :=
  if b =? 0 then Raise ZeroDivisionError else Ok (a / b).

(** [l[:n]] *)
Definition py_slice_to {A : Type} (n : Z) (l : list A) : list A :=
  if 0 <=? n then firstn (Z.to_nat n) l
  else firstn (List.length l - Z.to_nat (- n)) l.

(** [l[i]], with Python's negative indices *)
Definition py_index {A : Type} (i : Z) (l : list A) : result A :=
  let j := if 0 <=? i then i else Z.of_nat (List.length l) + i in
  if j <? 0 then Raise IndexError
  else match nth_error l (Z.to_nat j) with
       | Some a => Ok a
       | None => Raise IndexError
       end.

(** [l[i] = v] on a numpy array, for an index the caller has checked *)
Fixpoint list_update {A : Type} (i : nat) (f : A -> A) (l : list A) : list A :=
  match l, i with
  | [], _ => []
  | a :: l', O => f a :: l'
  | a :: l', S i' => a :: list_update i' f l'
  end.

Definition Qlt_bool (x y : Q) : bool := negb (Qle_bool y x).

(** [max(a, b)]: the first argument unless the second is greater *)
Definition py_max (a b : Q) : Q := if Qlt_bool a b then b else a.

(** [min(a, b)] on integers *)
Definition py_min_int (a b : Z) : Z := if b <? a then b else a.

(** [max(a, b)] on integers *)
Definition py_max_int (a b : Z) : Z := if a <? b then b else a.

(** [str(n)] for an integer, and [str(float(n))] *)
Definition str_of_int (n : Z) : string := NilZero.string_of_int (Z.to_int n).
Definition str_of_float_of_int (n : Z) : string := (str_of_int n ++ ".0")%string.

(** A float of the statistics dictionary *)
Inductive pyfloat : Type :=
| F (q : Q)
| NaNf.

(** ** Dictionaries and data frames *)

Inductive cell : Type :=
| Num (q : Q)
| Time (t : Z)
| Str (s : string)
| NaN.

Section Dict.
Context {V : Type}.

Definition dict := list (string * V).

Fixpoint dict_get (k : string) (d : dict) : option V :=
  match d with
  | [] => None
  | (k', v) :: d' => if String.eqb k k' then Some v else dict_get k d'
  end.

(** [d[k] = v]: overwrite in place, or append a new key *)
Fixpoint dict_set (k : string) (v : V) (d : dict) : dict :=
  match d with
  | [] => [(k, v)]
  | (k', v') :: d' =>
      if String.eqb k k' then (k, v) :: d' else (k', v') :: dict_set k v d'
  end.

Definition dict_keys (d : dict) : list string := map fst d.
End Dict.

Arguments dict V : clear implicits.

Definition record := dict cell.

Record DataFrame : Type := mkDataFrame {
  columns : list string;
  rows : list record
}.

Definition mem (c : string) (l : list string) : bool := existsb (String.eqb c) l.

(** [c in df.columns] *)
Definition has_col (c : string) (df : DataFrame) : bool := mem c (columns df).

(** [len(df)] *)
Definition len (df : DataFrame) : Z := Z.of_nat (List.length (rows df)).

Definition add_keys (seen : list string) (ks : list string) : list string :=
  fold_left (fun acc k => if mem k acc then acc else acc ++ [k]) ks seen.

(** [pd.DataFrame(records)]: the columns are the keys in order of first
    appearance; an empty list gives a frame with no column *)
Definition pd_DataFrame (records : list record) : DataFrame :=
  {| columns := fold_left (fun acc r => add_keys acc (dict_keys r)) records [];
     rows := records |}.

(** the cell of a row; a key the row lacks reads as NaN *)
Definition row_get (c : string) (r : record) : cell :=
  match dict_get c r with
  | Some v => v
  | None => NaN
  end.

(** [df[c]] *)
Definition column (c : string) (df : DataFrame) : result (list cell) :=
  if has_col c df then Ok (map (row_get c) (rows df)) else Raise KeyError.

(** [df[c].iloc[i]] *)
Definition col_iloc (c : string) (i : Z) (df : DataFrame) : result cell :=
  col <-? column c df ;; py_index i col.

(** [df.iloc[i][c]] *)
Definition iloc_col (i : Z) (c : string) (df : DataFrame) : result cell :=
  r <-? py_index i (rows df) ;;
  if has_col c df then Ok (row_get c r) else Raise KeyError.

(** [float(x)] of a cell *)
Definition as_float (x : cell) : result Q :=
  match x with
  | Num q => Ok q
  | Time _ => Raise TypeError
  | Str _ => Raise ValueError
  | NaN => Raise ValueError
  end.

(** [df[c] = v] for a scalar [v] *)
Definition set_col_const (c : string) (v : cell) (df : DataFrame) : DataFrame :=
  {| columns := if has_col c df then columns df else columns df ++ [c];
     rows := map (dict_set c v) (rows df) |}.

(** [df.rename(columns={a: b})] *)
Definition rename_col (a b : string) (df : DataFrame) : DataFrame :=
  let rn := fun k : string => if String.eqb k a then b else k in
  {| columns := map rn (columns df);
     rows := map (map (fun kv : string * cell => (rn (fst kv), snd kv))) (rows df) |}.

Definition cell_eqb (x y : cell) : bool :=
  match x, y with
  | Num p, Num q => Qeq_bool p q
  | Time s, Time t => s =? t
  | Str s, Str t => String.eqb s t
  | NaN, NaN => true
  | _, _ => false
  end.

(** [df.drop_duplicates(subset=[c], keep='last')]: a row is kept when no
    later row has the same value in column [c] *)
Fixpoint keep_last (c : string) (rs : list record) : list record :=
  match rs with
  | [] => []
  | r :: rs' =>
      if existsb (fun r' => cell_eqb (row_get c r) (row_get c r')) rs'
      then keep_last c rs'
      else r :: keep_last c rs'
  end.

Definition drop_duplicates (c : string) (df : DataFrame) : result DataFrame :=
  if has_col c df
  then Ok {| columns := columns df; rows := keep_last c (rows df) |}
  else Raise KeyError.

(** [df.tail(n)] for [0 <= n <= len(df)] *)
Definition tail (n : Z) (df : DataFrame) : list record :=
  skipn (List.length (rows df) - Z.to_nat n) (rows df).

(** ordering of a datetime column: NaT sorts last *)
Definition time_le (x y : cell) : bool :=
  match x, y with
  | Time s, Time t => s <=? t
  | Time _, _ => true
  | _, Time _ => false
  | _, _ => true
  end.

Fixpoint insert_sorted (c : string) (r : record) (rs : list record) : list record :=
  match rs with
  | [] => [r]
  | r' :: rs' =>
      if time_le (row_get c r') (row_get c r)
      then r' :: insert_sorted c r rs'
      else r :: rs
  end.

(** [df.sort_values(c)] on a datetime column, as a stable sort *)
Definition sort_values (c : string) (df : DataFrame) : DataFrame :=
  {| columns := columns df;
     rows := fold_left (fun acc r => insert_sorted c r acc) (rows df) [] |}.

(** ** The request and the response *)

Module MarketDataPoint.
Record t : Type := mk {
    timestamp : string;
    energy_price : Q;
    hash_price : option Q;
    token_price : option Q
}.
End MarketDataPoint.

Module ForecastRequest.
Record t : Type := mk {
    market_data : list MarketDataPoint.t;
    horizon : Z;
    interval_minutes : Z;
    confidence_levels : list Z
}.
End ForecastRequest.

(** One entry of [forecasts].  The keys [<quantity>_lo_<level>] and
    [<quantity>_hi_<level>] of the Python dictionary are kept in [bounds],
    in insertion order; a historical point of the provider path maps them
    to [None]. *)
Record ForecastPoint : Type := mkForecastPoint {
  timestamp : Z;
  energy_price : Q;
  hash_price : Q;
  token_price : Q;
  is_historical : bool;
  bounds : dict (option Q)
}.

(** [ForecastResponse]; the [analysis] sentence, a formatting of the
    statistics, is left out. *)
Record ForecastResponse : Type := mkForecastResponse {
  forecasts : list ForecastPoint;
  arbitrage_opportunities : Z;
  generated_at : Z;
  model : string;
  statistics : dict pyfloat;
  interval_minutes : Z
}.

(** ** numpy, pandas and the world *)

(** What the model takes from numpy and pandas without defining it: the
    generator behind [np.random], the functions [np.sin], [np.exp],
    [np.sqrt], the constant [np.pi] and the parser behind
    [pd.to_datetime] on strings. *)
Record Lib : Type := mkLib {
  rng : Type;
  seed : Z -> rng;
  random : rng -> Q * rng;
  normal : Q -> Q -> rng -> Q * rng;
  uniform : Q -> Q -> rng -> Q * rng;
  randn : rng -> Q * rng;
  sin : Q -> Q;
  exp : Q -> Q;
  sqrt : Q -> Q;
  pi : Q;
  parse_datetime : string -> option Z
}.

Section Backend.

Variable np : Lib.

(** The state a request runs in: the global numpy generator and the
    clock, given as the sequence of its successive readings. *)
Record world : Type := mkWorld {
  w_rng : rng np;
  w_clock : nat -> Z;
  w_tick : nat
}.

Definition M (A : Type) : Type := world -> result A * world.

Definition ret {A : Type} (a : A) : M A := fun w => (Ok a, w).

Definition raise {A : Type} (e : exn) : M A := fun w => (Raise e, w).

Definition lift {A : Type} (r : result A) : M A := fun w => (r, w).

Definition bind {A B : Type} (m : M A) (f : A -> M B) : M B :=
  fun w =>
    match m w with
    | (Ok a, w') => f a w'
    | (Raise e, w') => (Raise e, w')
    end.

(** [try: m except Exception as e: h e] *)
Definition try_except {A : Type} (m : M A) (h : exn -> M A) : M A :=
  fun w =>
    match m w with
    | (Ok a, w') => (Ok a, w')
    | (Raise e, w') => h e w'
    end.

Notation "x <- m ;; k" := (bind m (fun x => k))
  (at level 61, m at next level, right associativity).
Notation "m ;;; k" := (bind m (fun _ => k))
  (at level 61, right associativity).

Fixpoint foldM {A B : Type} (f : A -> B -> M A) (l : list B) (a : A) : M A :=
  match l with
  | [] => ret a
  | b :: l' => a' <- f a b ;; foldM f l' a'
  end.

Fixpoint mapM {A B : Type} (f : A -> M B) (l : list A) : M (list B) :=
  match l with
  | [] => ret []
  | a :: l' => b <- f a ;; bs <- mapM f l' ;; ret (b :: bs)
  end.

(** [datetime.now()] *)
Definition datetime_now : M Z :=
  fun w => (Ok (w_clock w (w_tick w)),
            {| w_rng := w_rng w; w_clock := w_clock w; w_tick := S (w_tick w) |}).

Definition draw (sampler : rng np -> Q * rng np) : M Q :=
  fun w => let (x, g) := sampler (w_rng w) in
           (Ok x, {| w_rng := g; w_clock := w_clock w; w_tick := w_tick w |}).

(** [np.random.seed(k)] *)
Definition np_random_seed (k : Z) : M unit :=
  fun w => (Ok tt, {| w_rng := seed np k; w_clock := w_clock w; w_tick := w_tick w |}).

(** [np.random.random()], [np.random.randn()], [np.random.uniform(a, b)] *)
Definition np_random_random : M Q := draw (random np).
Definition np_random_randn : M Q := draw (randn np).
Definition np_random_uniform (a b : Q) : M Q := draw (uniform np a b).

(** the array forms: [n] successive draws *)
Definition draws (n : nat) (sampler : rng np -> Q * rng np) : M (list Q) :=
  mapM (fun _ : nat => draw sampler) (seq 0 n).

Definition np_random_normal_n (mu sigma : Q) (n : nat) : M (list Q) :=
  draws n (normal np mu sigma).
Definition np_random_random_n (n : nat) : M (list Q) := draws n (random np).
Definition np_random_uniform_n (a b : Q) (n : nat) : M (list Q) :=
  draws n (uniform np a b).

(** [pd.to_datetime] on one value: a number counts nanoseconds, a missing
    value becomes NaT *)
Definition pd_to_datetime (x : cell) : result cell :=
  match x with
  | Time t => Ok (Time t)
  | Str s => match parse_datetime np s with
             | Some t => Ok (Time t)
             | None => Raise ValueError
             end
  | Num q => Ok (Time (Qfloor (q / 1000000000)))
  | NaN => Ok NaN
  end.

(** [df[c] = pd.to_datetime(df[c])] *)
Definition to_datetime_col (c : string) (df : DataFrame) : result DataFrame :=
  if has_col c df then
    rs <-? rmap (fun r => t <-? pd_to_datetime (row_get c r) ;; Ok (dict_set c t r))
                (rows df) ;;
    Ok {| columns := columns df; rows := rs |}
  else Raise KeyError.

(** [ts.hour + ts.minute / 60] *)
Definition hour_of_day (t : Z) : Q :=
  (inject_Z ((t mod 86400) / 3600) + inject_Z ((t mod 3600) / 60) / 60)%Q.

(** [pd.date_range(start=s, end=e, freq=f'{k}min')] *)
Definition pd_date_range (s e k : Z) : result (list Z) :=
  if k =? 0 then Raise ValueError
  else if k <? 0 then
    Ok (if s <? e then []
        else map (fun i => s + Z.of_nat i * (k * 60))
                 (seq 0 (Z.to_nat ((s - e) / (- k * 60)) + 1)))
  else if e <? s then Ok []
  else Ok (map (fun i => s + Z.of_nat i * (k * 60))
               (seq 0 (Z.to_nat ((e - s) / (k * 60)) + 1))).

(** [pd.date_range(start=s, periods=n, freq=f'{k}min')] *)
Definition pd_date_range_periods (s n k : Z) : result (list Z) :=
  if n <? 0 then Raise ValueError
  else if k =? 0 then Raise ValueError
  else Ok (map (fun i => s + Z.of_nat i * (k * 60)) (seq 0 (Z.to_nat n))).

(** ** The historical data source *)

Fixpoint zipWith {A B C : Type} (f : A -> B -> C) (l1 : list A) (l2 : list B)
  : list C :=
  match l1, l2 with
  | a :: l1', b :: l2' => f a b :: zipWith f l1' l2'
  | _, _ => []
  end.

Notation "a +v b" := (zipWith Qplus a b) (at level 50, left associativity).

(** [np.arange(n)] *)
Definition np_arange (n : nat) : list Q :=
  map (fun i => inject_Z (Z.of_nat i)) (seq 0 n).

(** [int(x)] of a float *)
Definition py_int (x : Q) : Z := if Qlt_bool x 0 then Qceiling x else Qfloor x.

Definition two_pi : Q := (2 * pi np)%Q.

(** One step [i] of the decay loop of a market event: the three arrays are
    updated in place at [event_idx + i]. *)
Definition shock_step (shock_magnitude : Q) (event_idx n : Z)
    (prices : list Q * list Q * list Q) (i : Z) : M (list Q * list Q * list Q) :=
  let '(energy_prices, hash_prices, token_prices) := prices in
  if event_idx + i <? n then
    let decay := exp np (- inject_Z i / 5)%Q in
    let k := Z.to_nat (event_idx + i) in
    r1 <- np_random_randn ;;
    let energy_prices :=
      list_update k (fun x => x + shock_magnitude * decay * (1 + 0.3 * r1))%Q
                  energy_prices in
    r2 <- np_random_randn ;;
    let hash_prices :=
      list_update k (fun x => x + shock_magnitude * decay * 1.5 * (1 + 0.3 * r2))%Q
                  hash_prices in
    r3 <- np_random_randn ;;
    let token_prices :=
      list_update k (fun x => x + - shock_magnitude * decay * 0.8 * (1 + 0.3 * r3))%Q
                  token_prices in
    ret (energy_prices, hash_prices, token_prices)
  else ret prices.

Definition market_event (n : Z) (prices : list Q * list Q * list Q) (et : Q)
  : M (list Q * list Q * list Q) :=
  let event_idx := py_int (et * inject_Z n)%Q in
  if event_idx <? n - 20 then
    shock_magnitude <- np_random_uniform (-1.5)%Q 1.5%Q ;;
    foldM (shock_step shock_magnitude event_idx n) (map Z.of_nat (seq 0 20)) prices
  else ret prices.

Definition data_point (ts : Z) (e h t : Q) : record :=
  [("timestamp", Time ts); ("energy_price", Num e);
   ("hash_price", Num h); ("token_price", Num t)].

Fixpoint data_points (dates : list Z) (e h t : list Q) : list record :=
  match dates, e, h, t with
  | d :: dates', x :: e', y :: h', z :: t' =>
      data_point d x y z :: data_points dates' e' h' t'
  | _, _, _, _ => []
  end.

Definition generate_synthetic_data_fallback (days interval_minutes : Z)
  : M (list record) :=
  intervals_per_day <- lift (py_floordiv (24 * 60) interval_minutes) ;;
  let total_intervals := days * intervals_per_day in
  end_date <- datetime_now ;;
  let start_date := end_date - days * 86400 in
  all_dates <- lift (pd_date_range start_date end_date interval_minutes) ;;
  let dates := py_slice_to total_intervals all_dates in
  np_random_seed 42 ;;;
  let n := List.length dates in
  let ipd := inject_Z intervals_per_day in
  let t := np_arange n in
  let hours := map hour_of_day dates in
  let days_elapsed := map (fun x => x / ipd)%Q t in
  let base_price :=
    map (fun d => 2.5 + 0.5 * sin np (two_pi * d / 3))%Q days_elapsed in
  let energy_daily :=
    map (fun h => 0.8 * sin np (two_pi * (h - 6) / 24))%Q hours in
  let energy_hourly := map (fun h => 0.3 * sin np (two_pi * h / 6))%Q hours in
  let energy_rapid :=
    map (fun x => 0.2 * sin np (two_pi * x / (ipd * 0.25)))%Q t in
  let energy_trend := map (fun d => 0.1 * d)%Q days_elapsed in
  energy_volatility <- np_random_normal_n 0 0.15%Q n ;;
  spike_draws <- np_random_random_n n ;;
  let spike_mask := map (fun x => Qlt_bool x 0.02%Q) spike_draws in
  energy_amounts <- np_random_uniform_n 0.5%Q 2.0%Q n ;;
  let energy_spikes :=
    zipWith (fun (m : bool) x => if m then x else 0%Q) spike_mask energy_amounts in
  let energy_prices :=
    base_price +v energy_daily +v energy_hourly +v energy_rapid
               +v energy_trend +v energy_volatility +v energy_spikes in
  let hash_base :=
    map (fun d => 3.0 + 0.7 * sin np (two_pi * d / 2.5 + pi np / 3))%Q
        days_elapsed in
  let hash_oscillation :=
    map (fun x => 1.0 * sin np (two_pi * x / (ipd * 0.4)))%Q t in
  let hash_daily :=
    map (fun h => 0.6 * sin np (two_pi * (h - 10) / 24))%Q hours in
  let hash_rapid :=
    map (fun x => 0.4 * sin np (two_pi * x / (ipd * 0.15) + pi np / 4))%Q t in
  hash_volatility <- np_random_normal_n 0 0.2%Q n ;;
  hash_amounts <- np_random_uniform_n (-1.0)%Q 3.0%Q n ;;
  let hash_spikes :=
    zipWith (fun (m : bool) x => if m then x else 0%Q) spike_mask hash_amounts in
  let hash_prices :=
    hash_base +v hash_oscillation +v hash_daily +v hash_rapid
              +v hash_volatility +v hash_spikes in
  let token_base :=
    map (fun d => 2.0 + 1.2 * sin np (two_pi * d / 1.5 + pi np / 2))%Q
        days_elapsed in
  let token_chaos :=
    map (fun x => 0.5 * sin np (two_pi * x / (ipd * 0.3))
                      * sin np (two_pi * x / (ipd * 0.7)))%Q t in
  let token_daily :=
    map (fun h => -0.7 * sin np (two_pi * (h - 6) / 24))%Q hours in
  let token_trend :=
    map (fun d => -0.05 * d + 0.3 * sin np (two_pi * d))%Q days_elapsed in
  token_volatility <- np_random_normal_n 0 0.25%Q n ;;
  jump_draws <- np_random_random_n n ;;
  jump_amounts <- np_random_uniform_n (-2.0)%Q 4.0%Q n ;;
  let token_jumps :=
    zipWith (fun x y => if Qlt_bool x 0.03%Q then y else 0%Q)
            jump_draws jump_amounts in
  let token_prices :=
    token_base +v token_chaos +v token_daily +v token_trend
               +v token_volatility +v token_jumps in
  let event_times := [0.15; 0.35; 0.55; 0.75; 0.9]%Q in
  prices <- foldM (market_event (Z.of_nat n)) event_times
                  (energy_prices, hash_prices, token_prices) ;;
  let '(energy_prices, hash_prices, token_prices) := prices in
  let energy_prices := map (fun x => py_max x 0.1%Q) energy_prices in
  let hash_prices := map (fun x => py_max x 0.1%Q) hash_prices in
  let token_prices := map (fun x => py_max x 0.1%Q) token_prices in
  ret (data_points dates energy_prices hash_prices token_prices).

(** The outcome of [pd.read_csv] on the market-data file; the file does
    not change while a request is served. *)
Variable read_csv : result DataFrame.

Definition in_window (start_date end_date : Z) (r : record) : bool :=
  match row_get "timestamp" r with
  | Time t => (start_date <=? t) && (t <=? end_date)
  | _ => false
  end.

Definition row_field (df : DataFrame) (c : string) (r : record) : result cell :=
  if has_col c df then Ok (row_get c r) else Raise KeyError.

Definition csv_data_point (df : DataFrame) (r : record) : result record :=
  ts <-? row_field df "timestamp" r ;;
  ts <-? pd_to_datetime ts ;;
  ts <-? match ts with Time t => Ok t | _ => Raise ValueError end ;;
  e <-? (x <-? row_field df "energy_price" r ;; as_float x) ;;
  h <-? (x <-? row_field df "hash_price" r ;; as_float x) ;;
  t <-? (x <-? row_field df "token_price" r ;; as_float x) ;;
  Ok (data_point ts e h t).

Definition read_market_data (days : Z) : M (list record) :=
  df <- lift read_csv ;;
  df <- lift (to_datetime_col "timestamp" df) ;;
  let df := sort_values "timestamp" df in
  end_date <- datetime_now ;;
  let start_date := end_date - days * 86400 in
  let df := {| columns := columns df;
               rows := filter (in_window start_date end_date) (rows df) |} in
  lift (rmap (csv_data_point df) (rows df)).

Definition generate_energy_market_data (days interval_minutes : Z)
  : M (list record) :=
  try_except (read_market_data days)
             (fun _ => generate_synthetic_data_fallback days interval_minutes).

(** ** Statistics *)

Definition q_sum (l : list Q) : Q := fold_left Qplus l 0%Q.

Definition q_len (l : list Q) : Q := inject_Z (Z.of_nat (List.length l)).

(** [np.mean] and [np.std] (population form) on a non-empty array *)
Definition mean_of (l : list Q) : Q := (q_sum l / q_len l)%Q.

Definition std_of (l : list Q) : Q :=
  let m := mean_of l in
  sqrt np (mean_of (map (fun x => (x - m) * (x - m))%Q l)).

Definition np_mean (l : list Q) : pyfloat :=
  match l with
  | [] => NaNf
  | _ => F (mean_of l)
  end.

Definition np_std (l : list Q) : pyfloat :=
  match l with
  | [] => NaNf
  | _ => F (std_of l)
  end.

(** [np.min], [np.max]: an empty array raises *)
Definition np_min (l : list Q) : result Q :=
  match l with
  | [] => Raise ValueError
  | x :: l' => Ok (fold_left (fun a b => if Qlt_bool b a then b else a) l' x)
  end.

Definition np_max (l : list Q) : result Q :=
  match l with
  | [] => Raise ValueError
  | x :: l' => Ok (fold_left (fun a b => if Qlt_bool a b then b else a) l' x)
  end.

(** [Series.mean()], [Series.std()] (sample form), [Series.min()],
    [Series.max()] of pandas: NaN where the series is too short *)
Definition pd_mean (l : list Q) : pyfloat := np_mean l.

Definition pd_std (l : list Q) : pyfloat :=
  match l with
  | [] | [_] => NaNf
  | _ =>
      let m := mean_of l in
      F (sqrt np (q_sum (map (fun x => (x - m) * (x - m))%Q l) / (q_len l - 1))%Q)
  end.

Definition pd_min (l : list Q) : pyfloat :=
  match np_min l with Ok x => F x | Raise _ => NaNf end.

Definition pd_max (l : list Q) : pyfloat :=
  match np_max l with Ok x => F x | Raise _ => NaNf end.

(** [sum(1 for p in values if test p)] *)
Definition count_if (test : Q -> bool) (values : list Q) : Z :=
  fold_left (fun acc p => if test p then acc + 1 else acc) values 0.

Definition detect_arbitrage_opportunities (forecast_values : list Q) : Z :=
  if Z.of_nat (List.length forecast_values) <? 2 then 0
  else
    let mean_price := mean_of forecast_values in
    let std_price := std_of forecast_values in
    let high_prices :=
      count_if (fun p => Qlt_bool (mean_price + 1.5 * std_price) p)%Q
               forecast_values in
    let low_prices :=
      count_if (fun p => Qlt_bool p (mean_price - 1.5 * std_price))%Q
               forecast_values in
    high_prices + low_prices.

(** ** The synthetic forecaster *)

(** [(df[c].iloc[-1] - df[c].iloc[-12]) / 12 if c in df.columns else 0],
    under [if len(df) > 12: ... else: 0] *)
Definition recent_trend (c : string) (df : DataFrame) : result Q :=
  if 12 <? len df then
    if has_col c df then
      a <-? (x <-? col_iloc c (-1) df ;; as_float x) ;;
      b <-? (x <-? col_iloc c (-12) df ;; as_float x) ;;
      Ok ((a - b) / 12)%Q
    else Ok 0%Q
  else Ok 0%Q.

(** the trend of [generate_synthetic_forecast], the single-series
    forecaster: [(df['y'].iloc[-1] - df['y'].iloc[-12]) / 12] under
    [if len(df) > 12: ... else: 0] *)
Definition recent_trend_single (df : DataFrame) : result Q :=
  if 12 <? len df then
    a <-? (x <-? col_iloc "y" (-1) df ;; as_float x) ;;
    b <-? (x <-? col_iloc "y" (-12) df ;; as_float x) ;;
    Ok ((a - b) / 12)%Q
  else Ok 0%Q.

(** [df[c].iloc[-1] if c in df.columns else default] *)
Definition last_value (c : string) (default : Q) (df : DataFrame) : result Q :=
  if has_col c df then x <-? col_iloc c (-1) df ;; as_float x else Ok default.

Definition times_of (cells : list cell) : list Z :=
  flat_map (fun x => match x with Time t => [t] | _ => [] end) cells.

(** [pd.to_datetime(df[c].max())]; [None] is NaT *)
Definition last_timestamp (c : string) (df : DataFrame) : result (option Z) :=
  col <-? column c df ;;
  ts <-? rmap pd_to_datetime col ;;
  match times_of ts with
  | [] => Ok None
  | t :: ts' => Ok (Some (fold_left Z.max ts' t))
  end.

Definition column_names (df : DataFrame) : string * string * string * string :=
  if has_col "timestamp" df
  then ("timestamp", "energy_price", "hash_price", "token_price")
  else if has_col "energyPrice" df
  then ("timestamp", "energyPrice", "hashPrice", "tokenPrice")
  else ("ds", "y", "y", "y").

Definition historical_point (time_col energy_col hash_col token_col : string)
    (row : record) : result ForecastPoint :=
  ts <-? pd_to_datetime (row_get time_col row) ;;
  ts <-? match ts with Time t => Ok t | _ => Raise ValueError end ;;
  e <-? as_float (row_get energy_col row) ;;
  h <-? as_float (row_get hash_col row) ;;
  t <-? as_float (row_get token_col row) ;;
  Ok {| timestamp := ts; energy_price := e; hash_price := h; token_price := t;
        is_historical := true; bounds := [] |}.

Definition bound_key (quantity side : string) (level : Z) : string :=
  (quantity ++ side ++ str_of_int level)%string.

Definition set_bound (k : string) (v : option Q) (p : ForecastPoint)
  : ForecastPoint :=
  {| timestamp := timestamp p; energy_price := energy_price p;
     hash_price := hash_price p; token_price := token_price p;
     is_historical := is_historical p; bounds := dict_set k v (bounds p) |}.

(** the body of [for level in confidence_levels] *)
Definition synthetic_bounds (energy_forecast hash_forecast token_forecast : Q)
    (forecast_point : ForecastPoint) (level : Z) : ForecastPoint :=
  let uncertainty := (inject_Z (100 - level) / 100 * 0.5)%Q in
  let p := forecast_point in
  let p := set_bound (bound_key "energy_price" "_lo_" level)
                     (Some (energy_forecast * (1 - uncertainty))%Q) p in
  let p := set_bound (bound_key "energy_price" "_hi_" level)
                     (Some (energy_forecast * (1 + uncertainty))%Q) p in
  let p := set_bound (bound_key "hash_price" "_lo_" level)
                     (Some (hash_forecast * (1 - uncertainty))%Q) p in
  let p := set_bound (bound_key "hash_price" "_hi_" level)
                     (Some (hash_forecast * (1 + uncertainty))%Q) p in
  let p := set_bound (bound_key "token_price" "_lo_" level)
                     (Some (token_forecast * (1 - uncertainty))%Q) p in
  let p := set_bound (bound_key "token_price" "_hi_" level)
                     (Some (token_forecast * (1 + uncertainty))%Q) p in
  p.

(** the body of [for i, timestamp in enumerate(forecast_dates)] *)
Definition forecast_step (last_energy last_hash last_token : Q)
    (energy_trend hash_trend token_trend : Q) (confidence_levels : list Z)
    (it : nat * Z) : M ForecastPoint :=
  let (n, ts) := it in
  let i := inject_Z (Z.of_nat n) in
  let hour := hour_of_day ts in
  let daily_multiplier := (1 + 0.15 * sin np (two_pi * (hour - 6) / 24))%Q in
  u1 <- np_random_random ;;
  let energy_noise := ((u1 - 0.5) * 0.01)%Q in
  u2 <- np_random_random ;;
  let hash_noise := ((u2 - 0.5) * 0.1)%Q in
  u3 <- np_random_random ;;
  let token_noise := ((u3 - 0.5) * 0.05)%Q in
  let energy_forecast :=
    py_max 0.01%Q (last_energy * daily_multiplier
                   + energy_trend * i * 0.1 + energy_noise)%Q in
  let hash_forecast :=
    py_max 0.1%Q (last_hash * daily_multiplier
                  + hash_trend * i * 0.1 + hash_noise)%Q in
  let token_forecast :=
    py_max 0.01%Q (last_token * daily_multiplier
                   + token_trend * i * 0.1 + token_noise)%Q in
  let forecast_point :=
    {| timestamp := ts; energy_price := energy_forecast;
       hash_price := hash_forecast; token_price := token_forecast;
       is_historical := false; bounds := [] |} in
  ret (fold_left (synthetic_bounds energy_forecast hash_forecast token_forecast)
                 confidence_levels forecast_point).

Definition enumerate {A : Type} (l : list A) : list (nat * A) :=
  combine (seq 0 (List.length l)) l.

Definition generate_synthetic_forecast_all_types (df : DataFrame)
    (horizon interval_minutes : Z) (confidence_levels : list Z)
  : M ForecastResponse :=
  let '(time_col, energy_col, hash_col, token_col) := column_names df in
  last_date <- (if has_col time_col df
                then lift (last_timestamp time_col df)
                else now <- datetime_now ;; ret (Some now)) ;;
  last_energy <- lift (last_value energy_col 0.1%Q df) ;;
  last_hash <- lift (last_value hash_col 4.0%Q df) ;;
  last_token <- lift (last_value token_col 0.5%Q df) ;;
  energy_trend <- lift (recent_trend energy_col df) ;;
  hash_trend <- lift (recent_trend hash_col df) ;;
  token_trend <- lift (recent_trend token_col df) ;;
  historical <-
    lift (if forallb (fun c => has_col c df)
                     [time_col; energy_col; hash_col; token_col]
          then let historical_points := py_min_int 50 (len df) in
               rmap (historical_point time_col energy_col hash_col token_col)
                    (tail historical_points df)
          else Ok []) ;;
  forecast_dates <-
    lift (match last_date with
          | Some d => pd_date_range_periods (d + interval_minutes * 60)
                                            horizon interval_minutes
          | None => Raise ValueError
          end) ;;
  future <- mapM (forecast_step last_energy last_hash last_token
                                energy_trend hash_trend token_trend
                                confidence_levels)
                 (enumerate forecast_dates) ;;
  let forecast_data := historical ++ future in
  let forecast_only := filter (fun f => negb (is_historical f)) forecast_data in
  let energy_values := map energy_price forecast_only in
  let hash_values := map hash_price forecast_only in
  let token_values := map token_price forecast_only in
  let opportunities := detect_arbitrage_opportunities energy_values in
  energy_min <- lift (np_min energy_values) ;;
  energy_max <- lift (np_max energy_values) ;;
  let stats :=
    [("mean", np_mean energy_values); ("std", np_std energy_values);
     ("min", F energy_min); ("max", F energy_max); ("trend", F energy_trend);
     ("hash_mean", np_mean hash_values); ("token_mean", np_mean token_values)] in
  now <- datetime_now ;;
  ret {| forecasts := forecast_data;
         arbitrage_opportunities := opportunities;
         generated_at := now;
         model := "synthetic";
         statistics := stats;
         interval_minutes := interval_minutes |}.

(** ** The forecasting client *)

(** The client of the forecasting service: [forecast(df, h, freq, level)]
    and [detect_anomalies(df)] return a frame or raise. *)
Record NixtlaClient : Type := mkNixtlaClient {
  forecast : DataFrame -> Z -> string -> list Q -> result DataFrame;
  client_detect_anomalies : DataFrame -> result DataFrame
}.

(** The module-level [nixtla_client]; [None] when no API key is configured
    or the client failed to start. *)
Variable nixtla_client : option NixtlaClient.

(** The outcome of [GET /prices] on the market-data API: the status code
    and the decoded JSON body. *)
Variable mara_prices : result (Z * result (list record)).

(** [x.isoformat()] of a timestamp cell *)
Definition isoformat (x : cell) : result Z :=
  match x with
  | Time t => Ok t
  | _ => Raise AttributeError
  end.

(** [float(df.iloc[i][c])] *)
Definition float_at (df : DataFrame) (i : Z) (c : string) : result Q :=
  x <-? iloc_col i c df ;; as_float x.

(** the [for col_name in names: ... break / else: ...] search for the
    bound column of one level *)
Definition provider_bound (fc : DataFrame) (i : Z) (names : list string)
    (proxy : Q) : result Q :=
  match find (fun c => has_col c fc) names with
  | Some c => float_at fc i c
  | None => p <-? float_at fc i "TimeGPT" ;; Ok (p * proxy)%Q
  end.

(** the column names tried for the bounds of one level *)
Definition lo_col_names (level : Z) : list string :=
  [("TimeGPT-lo-" ++ str_of_int level)%string;
   ("TimeGPT-lo-" ++ str_of_float_of_int level)%string;
   ("lo-" ++ str_of_int level)%string].

Definition hi_col_names (level : Z) : list string :=
  [("TimeGPT-hi-" ++ str_of_int level)%string;
   ("TimeGPT-hi-" ++ str_of_float_of_int level)%string;
   ("hi-" ++ str_of_int level)%string].

Definition provider_bounds (energy_forecast hash_forecast token_forecast : DataFrame)
    (i : Z) (acc : result ForecastPoint) (level : Z) : result ForecastPoint :=
  p <-? acc ;;
  let lo_col_names := lo_col_names level in
  let hi_col_names := hi_col_names level in
  lo <-? provider_bound energy_forecast i lo_col_names 0.9%Q ;;
  let p := set_bound (bound_key "energy_price" "_lo_" level) (Some lo) p in
  hi <-? provider_bound energy_forecast i hi_col_names 1.1%Q ;;
  let p := set_bound (bound_key "energy_price" "_hi_" level) (Some hi) p in
  lo <-? provider_bound hash_forecast i lo_col_names 0.9%Q ;;
  let p := set_bound (bound_key "hash_price" "_lo_" level) (Some lo) p in
  hi <-? provider_bound hash_forecast i hi_col_names 1.1%Q ;;
  let p := set_bound (bound_key "hash_price" "_hi_" level) (Some hi) p in
  lo <-? provider_bound token_forecast i lo_col_names 0.9%Q ;;
  let p := set_bound (bound_key "token_price" "_lo_" level) (Some lo) p in
  hi <-? provider_bound token_forecast i hi_col_names 1.1%Q ;;
  let p := set_bound (bound_key "token_price" "_hi_" level) (Some hi) p in
  Ok p.

(** the body of [for i in range(len(energy_forecast))] *)
Definition provider_point (energy_forecast hash_forecast token_forecast : DataFrame)
    (confidence_levels : list Z) (i : Z) : result ForecastPoint :=
  ts <-? (x <-? iloc_col i "ds" energy_forecast ;; isoformat x) ;;
  e <-? float_at energy_forecast i "TimeGPT" ;;
  h <-? float_at hash_forecast i "TimeGPT" ;;
  t <-? float_at token_forecast i "TimeGPT" ;;
  let forecast_point :=
    {| timestamp := ts; energy_price := e; hash_price := h; token_price := t;
       is_historical := false; bounds := [] |} in
  fold_left (provider_bounds energy_forecast hash_forecast token_forecast i)
            confidence_levels (Ok forecast_point).

Definition empty_bounds (hist_point : ForecastPoint) (level : Z) : ForecastPoint :=
  let p := hist_point in
  let p := set_bound (bound_key "energy_price" "_lo_" level) None p in
  let p := set_bound (bound_key "energy_price" "_hi_" level) None p in
  let p := set_bound (bound_key "hash_price" "_lo_" level) None p in
  let p := set_bound (bound_key "hash_price" "_hi_" level) None p in
  let p := set_bound (bound_key "token_price" "_lo_" level) None p in
  let p := set_bound (bound_key "token_price" "_hi_" level) None p in
  p.

(** the body of [for i in range(len(energy_df) - historical_points, len(energy_df))] *)
Definition provider_hist_point (energy_df hash_df token_df : DataFrame)
    (confidence_levels : list Z) (i : Z) : result ForecastPoint :=
  ts <-? (x <-? iloc_col i "ds" energy_df ;; isoformat x) ;;
  e <-? float_at energy_df i "y" ;;
  h <-? float_at hash_df i "y" ;;
  t <-? float_at token_df i "y" ;;
  let hist_point :=
    {| timestamp := ts; energy_price := e; hash_price := h; token_price := t;
       is_historical := true; bounds := [] |} in
  Ok (fold_left empty_bounds confidence_levels hist_point).

(** [range(a, b)] *)
Definition py_range (a b : Z) : list Z :=
  map (fun k => a + Z.of_nat k) (seq 0 (Z.to_nat (b - a))).

(** The [try] block around the three provider calls. *)
Definition provider_forecast (client : NixtlaClient)
    (energy_df hash_df token_df : DataFrame) (request : ForecastRequest.t)
  : M ForecastResponse :=
  let horizon := ForecastRequest.horizon request in
  let interval_minutes := ForecastRequest.interval_minutes request in
  let confidence_levels := ForecastRequest.confidence_levels request in
  let energy_df := set_col_const "unique_id" (Str "energy_price") energy_df in
  let hash_df := set_col_const "unique_id" (Str "hash_price") hash_df in
  let token_df := set_col_const "unique_id" (Str "token_price") token_df in
  energy_df <- lift (to_datetime_col "ds" energy_df) ;;
  hash_df <- lift (to_datetime_col "ds" hash_df) ;;
  token_df <- lift (to_datetime_col "ds" token_df) ;;
  let freq := (str_of_int interval_minutes ++ "min")%string in
  let level := map inject_Z confidence_levels in
  energy_forecast <- lift (forecast client energy_df horizon freq level) ;;
  hash_forecast <- lift (forecast client hash_df horizon freq level) ;;
  token_forecast <- lift (forecast client token_df horizon freq level) ;;
  let historical_points := py_min_int 50 (len energy_df) in
  historical <-
    lift (rmap (provider_hist_point energy_df hash_df token_df confidence_levels)
               (py_range (len energy_df - historical_points) (len energy_df))) ;;
  future <-
    lift (rmap (provider_point energy_forecast hash_forecast token_forecast
                               confidence_levels)
               (py_range 0 (len energy_forecast))) ;;
  let forecasts := historical ++ future in
  timegpt <- lift (col <-? column "TimeGPT" energy_forecast ;; rmap as_float col) ;;
  let energy_mean := pd_mean timegpt in
  let energy_std := pd_std timegpt in
  let energy_min := pd_min timegpt in
  let energy_max := pd_max timegpt in
  let arbitrage_opportunities := detect_arbitrage_opportunities timegpt in
  now <- datetime_now ;;
  ret {| forecasts := forecasts;
         arbitrage_opportunities := arbitrage_opportunities;
         generated_at := now;
         model := "timegpt-1";
         statistics := [("mean", energy_mean); ("std", energy_std);
                        ("min", energy_min); ("max", energy_max)];
         interval_minutes := interval_minutes |}.

(** ** The orchestrator *)

(** [{'ds': point['timestamp'], 'y': point[field]}] *)
Definition ds_y (field : string) (point : record) : record :=
  [("ds", row_get "timestamp" point); ("y", row_get field point)].

(** [for point in additional_data: data.insert(0, {...})] *)
Definition prepend_all (field : string) (additional_data data : list record)
  : list record :=
  fold_left (fun acc point => ds_y field point :: acc) additional_data data.

Definition unique_frame (data : list record) : result DataFrame :=
  drop_duplicates "ds" (pd_DataFrame data).

(** The frames of the three series, extended once when the energy frame
    has fewer than 100 rows. *)
Definition prepare_series (historical_data : list record) (interval_minutes : Z)
  : M (DataFrame * DataFrame * DataFrame) :=
  let energy_data := map (ds_y "energy_price") historical_data in
  let hash_data := map (ds_y "hash_price") historical_data in
  let token_data := map (ds_y "token_price") historical_data in
  energy_df <- lift (unique_frame energy_data) ;;
  hash_df <- lift (unique_frame hash_data) ;;
  token_df <- lift (unique_frame token_data) ;;
  if len energy_df <? 100 then
    per_day <- lift (py_floordiv (24 * 60) interval_minutes) ;;
    q <- lift (py_floordiv (100 - len energy_df) per_day) ;;
    let additional_days := py_max_int 1 q in
    additional_data <- generate_energy_market_data additional_days interval_minutes ;;
    let energy_data := prepend_all "energy_price" additional_data energy_data in
    let hash_data := prepend_all "hash_price" additional_data hash_data in
    let token_data := prepend_all "token_price" additional_data token_data in
    energy_df <- lift (unique_frame energy_data) ;;
    hash_df <- lift (unique_frame hash_data) ;;
    token_df <- lift (unique_frame token_data) ;;
    ret (energy_df, hash_df, token_df)
  else ret (energy_df, hash_df, token_df).

(** [pd.DataFrame([{'ds': pd.to_datetime(p.timestamp), 'y': p.energy_price}
    for p in request.market_data])] *)
Definition request_frame (request : ForecastRequest.t) : result DataFrame :=
  rs <-? rmap (fun p => t <-? pd_to_datetime (Str (MarketDataPoint.timestamp p)) ;;
                        Ok [("ds", t); ("y", Num (MarketDataPoint.energy_price p))])
              (ForecastRequest.market_data request) ;;
  Ok (pd_DataFrame rs).

(** The frame of the outer fallback: the market-data API when it answers
    200, else the request itself. *)
Definition fallback_frame (request : ForecastRequest.t) : result DataFrame :=
  let attempt :=
    resp <-? mara_prices ;;
    let (status_code, body) := resp in
    if status_code =? 200 then
      mara_data <-? body ;;
      df <-? to_datetime_col "timestamp" (pd_DataFrame mara_data) ;;
      let df := sort_values "timestamp" df in
      Ok (rename_col "energy_price" "y" (rename_col "timestamp" "ds" df))
    else request_frame request in
  match attempt with
  | Ok df => Ok df
  | Raise _ => request_frame request
  end.

Definition generate_forecast (request : ForecastRequest.t) : M ForecastResponse :=
  let horizon := ForecastRequest.horizon request in
  let interval_minutes := ForecastRequest.interval_minutes request in
  let confidence_levels := ForecastRequest.confidence_levels request in
  try_except
    (historical_data <- generate_energy_market_data 7 interval_minutes ;;
     frames <- prepare_series historical_data interval_minutes ;;
     let '(energy_df, hash_df, token_df) := frames in
     match nixtla_client with
     | Some client =>
         if 0 <? len energy_df then
           try_except
             (provider_forecast client energy_df hash_df token_df request)
             (fun _ =>
                generate_synthetic_forecast_all_types
                  (pd_DataFrame historical_data)
                  horizon interval_minutes confidence_levels)
         else
           generate_synthetic_forecast_all_types
             (pd_DataFrame historical_data)
             horizon interval_minutes confidence_levels
     | None =>
         generate_synthetic_forecast_all_types
           (pd_DataFrame historical_data)
           horizon interval_minutes confidence_levels
     end)
    (fun _ =>
       df <- lift (fallback_frame request) ;;
       generate_synthetic_forecast_all_types
         df horizon interval_minutes confidence_levels).

(** ** The anomaly operation *)

Record Anomaly : Type := mkAnomaly {
  a_timestamp : Z;
  a_value : Q;
  anomaly_score : Q
}.

Record AnomalyResponse : Type := mkAnomalyResponse {
  anomalies : list Anomaly;
  total_anomalies : Z;
  anomaly_rate : Q
}.

Definition no_anomalies : AnomalyResponse :=
  {| anomalies := []; total_anomalies := 0; anomaly_rate := 0 |}.

(** [row.get('anomaly', 0) == 1] *)
Definition flagged (anomalies_df : DataFrame) (row : record) : bool :=
  if has_col "anomaly" anomalies_df then
    match row_get "anomaly" row with
    | Num q => Qeq_bool q 1
    | _ => false
    end
  else false.

Definition anomaly_of (anomalies_df : DataFrame) (row : record) : result Anomaly :=
  ts <-? (x <-? row_field anomalies_df "ds" row ;; isoformat x) ;;
  v <-? (x <-? row_field anomalies_df "y" row ;; as_float x) ;;
  Ok {| a_timestamp := ts; a_value := v; anomaly_score := 1.0 |}.

(** the "prepare data" step: the frame built from the request *)
Definition anomaly_frame (request : ForecastRequest.t) : result DataFrame :=
  df_data <-? rmap (fun item =>
                      t <-? pd_to_datetime (Str (MarketDataPoint.timestamp item)) ;;
                      Ok [("ds", t);
                          ("y", Num (MarketDataPoint.energy_price item));
                          ("unique_id", Str "energy_price")])
                   (ForecastRequest.market_data request) ;;
  Ok (pd_DataFrame df_data).

Definition detect_anomalies (request : ForecastRequest.t) : result AnomalyResponse :=
  let body :=
    df <-? anomaly_frame request ;;
    match nixtla_client with
    | Some client =>
        let attempt :=
          anomalies_df <-? client_detect_anomalies client df ;;
          found <-? rmap (anomaly_of anomalies_df)
                         (filter (flagged anomalies_df) (rows anomalies_df)) ;;
          let n := Z.of_nat (List.length found) in
          Ok {| anomalies := found;
                total_anomalies := n;
                anomaly_rate := if 0 <? len df then (inject_Z n / inject_Z (len df))%Q
                                else 0%Q |} in
        match attempt with
        | Ok r => Ok r
        | Raise _ => Ok no_anomalies
        end
    | None => Ok no_anomalies
    end in
  match body with
  | Ok r => Ok r
  | Raise _ => Raise (HTTPException 500)
  end.

(** ** The single-series generators *)

(** [ts.weekday()]: Monday is 0; the first day of the epoch was a Thursday *)
Definition weekday (t : Z) : Z := (t / 86400 + 3) mod 7.

Definition generate_synthetic_data (hours interval_minutes : Z) : M DataFrame :=
  points_per_hour <- lift (py_floordiv 60 interval_minutes) ;;
  let total_points := hours * points_per_hour in
  now <- datetime_now ;;
  all_dates <- lift (pd_date_range (now - hours * 3600) now interval_minutes) ;;
  let dates := py_slice_to total_points all_dates in
  let hours_of_day := map hour_of_day dates in
  let daily_pattern :=
    map (fun h => 0.08 + 0.03 * sin np (two_pi * (h - 6) / 24))%Q hours_of_day in
  let weekdays := map weekday dates in
  let weekly_pattern :=
    map (fun d => 0.01 * (if d <? 5 then 1 else 0))%Q weekdays in
  noise <- np_random_normal_n 0 0.005%Q (List.length dates) ;;
  let prices := daily_pattern +v weekly_pattern +v noise in
  let prices := map (fun x => py_max x 0.01%Q) prices in
  ret {| columns := ["ds"; "y"; "unique_id"];
         rows := zipWith (fun d y => [("ds", Time d); ("y", Num y);
                                      ("unique_id", Str "energy_price")])
                         dates prices |}.

(** [df[c].max()] on a column of timestamps; [None] is NaT, and a cell that
    is not a timestamp cannot take the [timedelta] added next *)
Definition max_timestamp (c : string) (df : DataFrame) : result (option Z) :=
  col <-? column c df ;;
  ts <-? rmap (fun x => match x with
                        | Time t => Ok [t]
                        | NaN => Ok []
                        | _ => Raise TypeError
                        end) col ;;
  match List.concat ts with
  | [] => Ok None
  | t :: ts' => Ok (Some (fold_left Z.max ts' t))
  end.

(** [df[c] = values] for a column of values *)
Definition set_col (c : string) (values : list cell) (df : DataFrame) : DataFrame :=
  {| columns := if has_col c df then columns df else columns df ++ [c];
     rows := zipWith (fun r v => dict_set c v r) (rows df) values |}.

(** the body of [for level in confidence_levels] of the single-series
    forecaster *)
Definition add_interval (forecast_values : list Q) (forecast_df : DataFrame)
    (level : Z) : DataFrame :=
  let uncertainty :=
    map (fun v => v * (1 - inject_Z level / 100) * 0.5)%Q forecast_values in
  let forecast_df :=
    set_col ("forecast-lo-" ++ str_of_int level)%string
            (map Num (zipWith Qminus forecast_values uncertainty)) forecast_df in
  set_col ("forecast-hi-" ++ str_of_int level)%string
          (map Num (zipWith Qplus forecast_values uncertainty)) forecast_df.

Definition generate_synthetic_forecast (df : DataFrame)
    (horizon interval_minutes : Z) (confidence_levels : list Z) : M DataFrame :=
  last_date <- lift (max_timestamp "ds" df) ;;
  last_price <- lift (col_iloc "y" (-1) df) ;;
  forecast_dates <-
    lift (match last_date with
          | Some d => pd_date_range_periods (d + interval_minutes * 60)
                                            horizon interval_minutes
          | None => Raise ValueError
          end) ;;
  let hours_of_day := map hour_of_day forecast_dates in
  let daily_pattern :=
    map (fun h => 0.08 + 0.03 * sin np (two_pi * (h - 6) / 24))%Q hours_of_day in
  recent_trend <- lift (recent_trend_single df) ;;
  let trend_component :=
    map (fun k => recent_trend * inject_Z (Z.of_nat k) * 0.1)%Q
        (seq 1 (Z.to_nat horizon)) in
  noise <- np_random_normal_n 0 0.005%Q (Z.to_nat horizon) ;;
  let forecast_values := daily_pattern +v trend_component +v noise in
  let forecast_values := map (fun x => py_max x 0.01%Q) forecast_values in
  let forecast_df :=
    {| columns := ["ds"; "forecast"];
       rows := zipWith (fun d v => [("ds", Time d); ("forecast", Num v)])
                       forecast_dates forecast_values |} in
  ret (fold_left (add_interval forecast_values) confidence_levels forecast_df).

End Backend.

Arguments ret {np A} a.
Arguments raise {np A} e.
Arguments lift {np A} r.
Arguments bind {np A B} m f.
Arguments try_except {np A} m h.
Arguments foldM {np A B} f l a.
Arguments mapM {np A B} f l.
Arguments datetime_now {np}.

Set Warnings "-notation-for-abbreviation".

(** ** Sample inputs

    A stand-in for numpy and pandas, used to run the model on concrete
    inputs: a linear congruential generator, a flat [sin] and [exp], the
    integer square root, and a parser that reads a timestamp written as a
    number of seconds. *)

Definition lcg_next (g : Z) : Z := (g * 1103515245 + 12345) mod 2147483648.

Definition lcg_unit (g : Z) : Q := inject_Z (g mod 1000) / 1000.

Definition sample_lib : Lib :=
  {| rng := Z;
     seed := fun k => k;
     random := fun g => (lcg_unit g, lcg_next g);
     normal := fun mu sigma g => ((mu + sigma * (lcg_unit g - 0.5))%Q, lcg_next g);
     uniform := fun a b g => ((a + (b - a) * lcg_unit g)%Q, lcg_next g);
     randn := fun g => ((lcg_unit g - 0.5)%Q, lcg_next g);
     sin := fun _ => 0%Q;
     exp := fun _ => 1%Q;
     sqrt := fun q => (inject_Z (Z.sqrt (Qnum q * Zpos (Qden q))) / inject_Z (Zpos (Qden q)))%Q;
     pi := 3.14159%Q;
     parse_datetime := fun s => option_map Z.of_int (NilZero.int_of_string s) |}.

(** a world whose clock stands still at [now] *)
Definition still_world (now : Z) : world sample_lib :=
  @mkWorld sample_lib 1 (fun _ => now) O.

(** a world whose clock advances by a second at each reading *)
Definition ticking_world (now : Z) : world sample_lib :=
  @mkWorld sample_lib 1 (fun k => now + Z.of_nat k) O.

(** the content of a market-data file: [n] rows five minutes apart, the
    last one at [last] *)
Definition csv_rows (n : nat) (last : Z) : DataFrame :=
  pd_DataFrame
    (map (fun k =>
            [("timestamp", Str (str_of_int (last - 300 * Z.of_nat (n - 1 - k))));
             ("energy_price", Num (inject_Z (Z.of_nat k) / 10)%Q);
             ("hash_price", Num 4); ("token_price", Num 0.5%Q)])
         (seq 0 n)).

(** a client whose point estimate, for each of the [h] steps, is the number
    of rows of the series it was given, with no bound column; its anomaly
    call raises *)
Definition counting_client : NixtlaClient :=
  {| forecast := fun df h _ _ =>
       if h <? 0 then Raise ProviderError
       else Ok {| columns := ["ds"; "TimeGPT"];
                  rows := map (fun k => [("ds", Time (300 * Z.of_nat k));
                                         ("TimeGPT", Num (inject_Z (len df)))])
                              (seq 0 (Z.to_nat h)) |};
     client_detect_anomalies := fun _ => Raise ProviderError |}.

(** a client whose point estimate is [-1] at every step, with no bound
    column *)
Definition falling_client : NixtlaClient :=
  {| forecast := fun df h _ _ =>
       if h <? 0 then Raise ProviderError
       else Ok {| columns := ["ds"; "TimeGPT"];
                  rows := map (fun k => [("ds", Time (300 * Z.of_nat k));
                                         ("TimeGPT", Num (-1))])
                              (seq 0 (Z.to_nat h)) |};
     client_detect_anomalies := fun _ => Raise ProviderError |}.

(** a request of three points, for two steps of five minutes at the levels
    80 and 95 *)
Definition sample_request : ForecastRequest.t :=
  ForecastRequest.mk
    [MarketDataPoint.mk "1000" 2.5%Q None None;
     MarketDataPoint.mk "1300" 2.75%Q None None;
     MarketDataPoint.mk "1600" 3 None None]
    2 5 [80; 95].

Definition no_response : ForecastResponse :=
  {| forecasts := []; arbitrage_opportunities := 0; generated_at := 0;
     model := ""; statistics := []; interval_minutes := 0 |}.

Definition answer (run : result ForecastResponse * world sample_lib)
  : ForecastResponse :=
  match fst run with
  | Ok r => r
  | Raise _ => no_response
  end.

(** the file holds fifty rows of the last hours and the client answers *)
Notation provider_run :=
  (generate_forecast sample_lib (Ok (csv_rows 50 1000000)) (Some counting_client)
                    (Raise ConnectionError) sample_request (ticking_world 1000000)).

Definition provider_response : ForecastResponse :=
  Eval vm_compute in answer provider_run.

(** the same with the client of negative estimates *)
Notation falling_run :=
  (generate_forecast sample_lib (Ok (csv_rows 50 1000000)) (Some falling_client)
                    (Raise ConnectionError) sample_request (ticking_world 1000000)).


(** the file holds only rows older than a week, no client is configured
    and the market-data API is down: the request itself is the last resort *)
Notation last_resort_run :=
  (generate_forecast sample_lib (Ok (csv_rows 50 10)) None
                    (Raise ConnectionError) sample_request (ticking_world 1000000)).


(** the frame of the last resort: the request in the ds/y shape *)
Definition request_series : DataFrame :=
  Eval vm_compute in
    match request_frame sample_lib sample_request with
    | Ok df => df
    | Raise _ => pd_DataFrame []
    end.

Notation series_run :=
  (generate_synthetic_forecast_all_types sample_lib request_series 2 5 [80; 95]
                                        (ticking_world 1000000)).

Definition series_response : ForecastResponse :=
  Eval vm_compute in answer series_run.

(** the frame of the anomaly operation on the sample request *)
Definition sample_anomaly_frame : DataFrame :=
  Eval vm_compute in
    match anomaly_frame sample_lib sample_request with
    | Ok df => df
    | Raise _ => pd_DataFrame []
    end.

(** a frame of thirteen rows whose energy price climbs by one a step *)
Definition climbing_frame : DataFrame :=
  pd_DataFrame
    (map (fun k => data_point (300 * Z.of_nat k) (inject_Z (Z.of_nat k)) 4 0.5%Q)
         (seq 0 13)).

(** the same series in the single-series shape *)
Definition climbing_series : DataFrame :=
  pd_DataFrame
    (map (fun k => [("ds", Time (300 * Z.of_nat k)); ("y", Num (inject_Z (Z.of_nat k)))])
         (seq 0 13)).

(** the sample request with no step to forecast *)
Definition idle_request : ForecastRequest.t :=
  ForecastRequest.mk (ForecastRequest.market_data sample_request) 0 5 [80; 95].

(** a client whose anomaly call flags the rows whose value is at least 3 *)
Definition flagging_client : NixtlaClient :=
  {| forecast := fun _ _ _ _ => Raise ProviderError;
     client_detect_anomalies := fun df =>
       Ok (set_col "anomaly"
                   (map (fun r => match row_get "y" r with
                                  | Num q => if Qle_bool 3 q then Num 1 else Num 0
                                  | _ => Num 0
                                  end) (rows df))
                   df) |}.

Definition flagged_anomalies : AnomalyResponse :=
  Eval vm_compute in
    match detect_anomalies sample_lib (Some flagging_client) sample_request with
    | Ok r => r
    | Raise _ => no_anomalies
    end.

(** a file of five rows of the last half hour, read for a week *)
Notation file_run :=
  (read_market_data sample_lib (Ok (csv_rows 5 1000000)) 7 (ticking_world 1000000)).

Definition file_points : list record :=
  Eval vm_compute in match fst file_run with Ok pts => pts | Raise _ => [] end.

(** the three series prepared from these points *)
Notation frames_run :=
  (prepare_series sample_lib (Ok (csv_rows 5 1000000)) file_points 5
                  (ticking_world 1000001)).

Definition sample_frames : DataFrame * DataFrame * DataFrame :=
  Eval vm_compute in
    match fst frames_run with
    | Ok x => x
    | Raise _ => (pd_DataFrame [], pd_DataFrame [], pd_DataFrame [])
    end.

(** a day of synthetic history, two hours apart *)
Notation history_run :=
  (generate_synthetic_data_fallback sample_lib 1 120 (ticking_world 1000000)).

Definition history_points : list record :=
  Eval vm_compute in match fst history_run with Ok pts => pts | Raise _ => [] end.

(** the same day when the file cannot be read *)
Notation missing_file_run :=
  (generate_energy_market_data sample_lib (Raise FileNotFoundError) 1 120
                               (ticking_world 1000000)).

Definition missing_file_points : list record :=
  Eval vm_compute in
    match fst missing_file_run with Ok pts => pts | Raise _ => [] end.

(** an hour of the single-series generator, twenty minutes apart *)
Notation single_data_run :=
  (generate_synthetic_data sample_lib 1 20 (ticking_world 1000000)).

Definition single_data : DataFrame :=
  Eval vm_compute in
    match fst single_data_run with Ok df => df | Raise _ => pd_DataFrame [] end.

(** the single-series forecaster on the climbing series *)
Notation single_forecast_run :=
  (generate_synthetic_forecast sample_lib climbing_series 2 5 [80; 95]
                               (ticking_world 4000)).

Definition single_forecast : DataFrame :=
  Eval vm_compute in
    match fst single_forecast_run with Ok df => df | Raise _ => pd_DataFrame [] end.

(** ** Vocabulary of the properties *)

(** the forecast-only segment and the historical tail of a response *)
Definition forecast_only (fs : list ForecastPoint) : list ForecastPoint :=
  filter (fun f => negb (is_historical f)) fs.

Definition historical_tail (fs : list ForecastPoint) : list ForecastPoint :=
  filter is_historical fs.

(** the value a point carries under [<quantity><side><level>] *)
Definition emitted (quantity side : string) (level : Z) (p : ForecastPoint)
  : option (option Q) :=
  dict_get (bound_key quantity side level) (bounds p).

Definition quantities : list string := ["energy_price"; "hash_price"; "token_price"].

Definition sides : list string := ["_lo_"; "_hi_"].

(** the component of a triple that belongs to a quantity *)
Definition pick {A : Type} (quantity : string) (e h t : A) : A :=
  if String.eqb quantity "energy_price" then e
  else if String.eqb quantity "hash_price" then h else t.

(** the price of a point for one of the three quantities *)
Definition price_of (quantity : string) (p : ForecastPoint) : Q :=
  pick quantity (energy_price p) (hash_price p) (token_price p).

(** [u = (100 - level) / 100 * 0.5] *)
Definition uncertainty_of (level : Z) : Q := (inject_Z (100 - level) / 100 * 0.5)%Q.

(** [value * (1 - u)] on the low side, [value * (1 + u)] on the high side *)
Definition synthetic_bound (side : string) (value : Q) (level : Z) : Q :=
  if String.eqb side "_lo_" then (value * (1 - uncertainty_of level))%Q
  else (value * (1 + uncertainty_of level))%Q.

(** the column names tried, and the factor of the substitute bound, on
    each side *)
Definition names_of (side : string) (level : Z) : list string :=
  if String.eqb side "_lo_" then lo_col_names level else hi_col_names level.

Definition proxy_of (side : string) : Q :=
  if String.eqb side "_lo_" then 0.9%Q else 1.1%Q.


(** the statistics of a synthetic response over the points [fs] *)
Definition synthetic_statistics (np : Lib) (energy_trend : Q)
    (fs : list ForecastPoint) (energy_min energy_max : Q) : dict pyfloat :=
  [("mean", np_mean (map energy_price (forecast_only fs)));
   ("std", np_std np (map energy_price (forecast_only fs)));
   ("min", F energy_min); ("max", F energy_max); ("trend", F energy_trend);
   ("hash_mean", np_mean (map hash_price (forecast_only fs)));
   ("token_mean", np_mean (map token_price (forecast_only fs)))].

(** the width of the interval a point carries for a quantity and a level *)
Definition width (quantity : string) (level : Z) (p : ForecastPoint) : option Q :=
  match emitted quantity "_hi_" level p, emitted quantity "_lo_" level p with
  | Some (Some hi), Some (Some lo) => Some (hi - lo)%Q
  | _, _ => None
  end.

(** the heuristic in the words of its description: the mean and the
    population standard deviation of the values, and the number of values
    strictly beyond one and a half deviations on either side *)
Definition arithmetic_mean (values : list Q) : Q := (q_sum values / q_len values)%Q.

Definition population_std (np : Lib) (values : list Q) : Q :=
  let m := arithmetic_mean values in
  sqrt np (q_sum (map (fun x => (x - m) * (x - m))%Q values) / q_len values)%Q.

Definition outliers (np : Lib) (values : list Q) : Z :=
  let m := arithmetic_mean values in
  let s := population_std np values in
  Z.of_nat (List.length (filter (fun p => Qlt_bool (m + 1.5 * s) p)%Q values))
  + Z.of_nat (List.length (filter (fun p => Qlt_bool p (m - 1.5 * s))%Q values)).

(** the synthetic forecaster on the climbing frame *)
Notation synthetic_run :=
  (generate_synthetic_forecast_all_types sample_lib climbing_frame 2 5 [80; 95]
                                        (ticking_world 4000)).

Definition synthetic_response : ForecastResponse :=
  Eval vm_compute in answer synthetic_run.

(** the first forecast point of a response that holds [n] historical ones *)
Definition point_at (n : nat) (resp : ForecastResponse) : ForecastPoint :=
  nth n (forecasts resp)
      {| timestamp := 0; energy_price := 0; hash_price := 0; token_price := 0;
         is_historical := true; bounds := [] |}.

(** the three price arrays of the historical generator all have [n]
    entries *)
Definition three_lengths (n : nat) (prices : list Q * list Q * list Q) : Prop :=
  List.length (fst (fst prices)) = n /\
  List.length (snd (fst prices)) = n /\
  List.length (snd prices) = n.

(** the row of the single-series forecast after the body of the loop over
    the levels has run for [level] *)
Definition row_interval (v : Q) (r : record) (level : Z) : record :=
  dict_set ("forecast-hi-" ++ str_of_int level)%string
           (Num (v + v * (1 - inject_Z level / 100) * 0.5)%Q)
           (dict_set ("forecast-lo-" ++ str_of_int level)%string
                     (Num (v - v * (1 - inject_Z level / 100) * 0.5)%Q) r).

(** two runs in a row, in the same process *)
Definition twice {np : Lib} {A : Type} (m : M np A) : M np (A * A) :=
  bind m (fun a => bind m (fun b => ret (a, b))).

(** the synthetic forecaster run twice on the climbing frame, while the
    clock stands still *)
Notation repeated_forecast_run :=
  (twice (generate_synthetic_forecast_all_types sample_lib climbing_frame 2 5 [80; 95])
         (still_world 4000)).

Definition repeated_forecast : ForecastResponse * ForecastResponse :=
  Eval vm_compute in
    match fst repeated_forecast_run with
    | Ok p => p
    | Raise _ => (no_response, no_response)
    end.

(** the historical generator run twice, a second apart *)
Notation repeated_history_run :=
  (twice (generate_synthetic_data_fallback sample_lib 1 120) (ticking_world 1000000)).

Definition repeated_history : list record * list record :=
  Eval vm_compute in
    match fst repeated_history_run with
    | Ok p => p
    | Raise _ => ([], [])
    end.

(** * Properties *)

(** ** Reasoning about results and about the monad *)

Section Properties.

Variable np : Lib.

Lemma rbind_Ok {A B : Type} (r : result A) (f : A -> result B) (b : B) :
  rbind r f = Ok b -> exists a, r = Ok a /\ f a = Ok b.
Proof.
  destruct r as [a|e]; simpl; intros H; [eauto | discriminate].
Qed.

Lemma rmap_Forall2 {A B : Type} (f : A -> result B) (l : list A) (bs : list B) :
  rmap f l = Ok bs -> Forall2 (fun a b => f a = Ok b) l bs.
Proof.
  revert bs. induction l as [|a l IH]; simpl; intros bs H.
  - injection H as <-. constructor.
  - apply rbind_Ok in H. destruct H as (b & Hb & H).
    apply rbind_Ok in H. destruct H as (bs' & Hbs & H).
    injection H as <-. constructor; auto.
Qed.

Lemma Forall2_length_eq {A B : Type} (R : A -> B -> Prop) l bs :
  Forall2 R l bs -> List.length bs = List.length l.
Proof.
  induction 1; simpl; congruence.
Qed.

Lemma Forall2_In_r {A B : Type} (R : A -> B -> Prop) l bs :
  Forall2 R l bs -> forall b, In b bs -> exists a, In a l /\ R a b.
Proof.
  induction 1 as [|a b l bs HR _ IH]; simpl; intros c Hc; [contradiction|].
  destruct Hc as [<-|Hc]; [eauto|].
  destruct (IH c Hc) as (a' & Ha & HR'). eauto.
Qed.

Lemma rmap_length {A B : Type} (f : A -> result B) l bs :
  rmap f l = Ok bs -> List.length bs = List.length l.
Proof.
  intros H. eapply Forall2_length_eq, rmap_Forall2, H.
Qed.

Lemma rmap_In {A B : Type} (f : A -> result B) l bs :
  rmap f l = Ok bs -> forall b, In b bs -> exists a, In a l /\ f a = Ok b.
Proof.
  intros H. eapply Forall2_In_r, rmap_Forall2, H.
Qed.

Lemma bind_Ok {A B : Type} (m : M np A) (f : A -> M np B) w b w' :
  bind m f w = (Ok b, w') ->
  exists a w1, m w = (Ok a, w1) /\ f a w1 = (Ok b, w').
Proof.
  unfold bind. destruct (m w) as [[a|e] w1]; intros H; [eauto | discriminate].
Qed.

Lemma lift_Ok {A : Type} (r : result A) (w : world np) a w' :
  lift r w = (Ok a, w') -> r = Ok a /\ w' = w.
Proof.
  unfold lift. intros H. injection H as -> ->. auto.
Qed.

Lemma ret_Ok {A : Type} (x : A) (w : world np) a w' :
  ret x w = (Ok a, w') -> a = x /\ w' = w.
Proof.
  unfold ret. intros H. injection H as -> ->. auto.
Qed.

Lemma run_Ok {A W : Type} (x : result A * W) (r : A) :
  fst x = Ok r -> x = (Ok r, snd x).
Proof.
  destruct x as [a w]. simpl. intros ->. reflexivity.
Qed.

Lemma try_except_Ok {A : Type} (m : M np A) h w a w' :
  try_except m h w = (Ok a, w') ->
  m w = (Ok a, w') \/ exists e w1, m w = (Raise e, w1) /\ h e w1 = (Ok a, w').
Proof.
  unfold try_except. destruct (m w) as [[x|e] w1]; intros H.
  - left. exact H.
  - right. eauto.
Qed.

Lemma mapM_Ok {A B : Type} (f : A -> M np B) l w bs w' :
  mapM f l w = (Ok bs, w') ->
  List.length bs = List.length l /\
  forall b, In b bs -> exists a w1 w2, In a l /\ f a w1 = (Ok b, w2).
Proof.
  revert w bs w'. induction l as [|a l IH]; simpl; intros w bs w' H.
  - apply ret_Ok in H. destruct H as [-> _]. split; [reflexivity|].
    intros b [].
  - apply bind_Ok in H. destruct H as (b & w1 & Hb & H).
    apply bind_Ok in H. destruct H as (bs' & w2 & Hbs & H).
    apply ret_Ok in H. destruct H as [-> _].
    destruct (IH _ _ _ Hbs) as [Hlen Hin]. split; [simpl; congruence|].
    intros c [<-|Hc].
    + exists a, w, w1. auto.
    + destruct (Hin c Hc) as (a' & u1 & u2 & Ha & Hf).
      exists a', u1, u2. auto.
Qed.

(** ** The shape of a synthetic response *)

Lemma set_bound_fields k v p :
  timestamp (set_bound k v p) = timestamp p /\
  energy_price (set_bound k v p) = energy_price p /\
  hash_price (set_bound k v p) = hash_price p /\
  token_price (set_bound k v p) = token_price p /\
  is_historical (set_bound k v p) = is_historical p.
Proof.
  repeat split.
Qed.

Lemma synthetic_bounds_fields e h t levels p :
  let p' := fold_left (synthetic_bounds e h t) levels p in
  energy_price p' = energy_price p /\
  hash_price p' = hash_price p /\
  token_price p' = token_price p /\
  is_historical p' = is_historical p.
Proof.
  revert p. induction levels as [|L levels IH]; simpl; intros p; [auto|].
  specialize (IH (synthetic_bounds e h t p L)). simpl in IH.
  destruct IH as (He & Hh & Ht & Hi). rewrite He, Hh, Ht, Hi.
  repeat split.
Qed.

Lemma historical_point_is_historical tc ec hc kc row p :
  historical_point np tc ec hc kc row = Ok p -> is_historical p = true.
Proof.
  unfold historical_point. intros H.
  repeat (apply rbind_Ok in H; destruct H as (? & _ & H)).
  injection H as <-. reflexivity.
Qed.

(** what [forecast_step] returns, whatever the noise drawn *)
Lemma forecast_step_Ok le lh lt et ht tt levels it w p w' :
  forecast_step np le lh lt et ht tt levels it w = (Ok p, w') ->
  exists e h t,
    (0.01 <= e)%Q /\ (0.1 <= h)%Q /\ (0.01 <= t)%Q /\
    p = fold_left (synthetic_bounds e h t) levels
                  {| timestamp := snd it; energy_price := e; hash_price := h;
                     token_price := t; is_historical := false; bounds := [] |}.
Proof.
  unfold forecast_step. destruct it as [n ts]. intros H.
  apply bind_Ok in H. destruct H as (u1 & w1 & _ & H).
  apply bind_Ok in H. destruct H as (u2 & w2 & _ & H).
  apply bind_Ok in H. destruct H as (u3 & w3 & _ & H).
  apply ret_Ok in H. destruct H as [-> _].
  do 3 eexists. split; [|split; [|split; [|reflexivity]]].
  all: unfold py_max, Qlt_bool;
    match goal with |- context [Qle_bool ?x ?y] =>
      destruct (Qle_bool x y) eqn:E; simpl; [apply Qle_refl|]
    end;
    apply Qnot_lt_le; intro Hlt; apply Qlt_le_weak in Hlt;
    apply Qle_bool_iff in Hlt; congruence.
Qed.

Lemma forecast_step_not_historical le lh lt et ht tt levels it w p w' :
  forecast_step np le lh lt et ht tt levels it w = (Ok p, w') ->
  is_historical p = false.
Proof.
  intros H. apply forecast_step_Ok in H.
  destruct H as (e & h & t & _ & _ & _ & ->).
  apply synthetic_bounds_fields.
Qed.

Lemma filter_all {A : Type} (f : A -> bool) l :
  (forall a, In a l -> f a = true) -> filter f l = l.
Proof.
  induction l as [|a l IH]; simpl; intros H; [reflexivity|].
  rewrite (H a (or_introl eq_refl)). f_equal. apply IH. auto.
Qed.

Lemma filter_none {A : Type} (f : A -> bool) l :
  (forall a, In a l -> f a = false) -> filter f l = [].
Proof.
  induction l as [|a l IH]; simpl; intros H; [reflexivity|].
  rewrite (H a (or_introl eq_refl)). apply IH. auto.
Qed.

Lemma date_range_periods_length s n k dates :
  pd_date_range_periods s n k = Ok dates -> Z.of_nat (List.length dates) = n.
Proof.
  unfold pd_date_range_periods.
  destruct (n <? 0) eqn:En; [discriminate|].
  destruct (k =? 0); [discriminate|].
  intros H. injection H as <-. rewrite length_map, length_seq. lia.
Qed.

Lemma enumerate_length {A : Type} (l : list A) :
  List.length (enumerate l) = List.length l.
Proof.
  unfold enumerate. rewrite length_combine, length_seq. lia.
Qed.

Lemma synthetic_inv df h iv levels w resp w' :
  generate_synthetic_forecast_all_types np df h iv levels w = (Ok resp, w') ->
  exists le lh lt et ht tt historical future emin emax now,
    recent_trend (snd (fst (fst (column_names df)))) df = Ok et /\
    (let '(tc, ec, hc, kc) := column_names df in
     if forallb (fun c => has_col c df) [tc; ec; hc; kc]
     then rmap (historical_point np tc ec hc kc) (tail (py_min_int 50 (len df)) df)
     else Ok []) = Ok historical /\
    Z.of_nat (List.length future) = h /\
    (forall p, In p future ->
       exists it w1 w2,
         forecast_step np le lh lt et ht tt levels it w1 = (Ok p, w2)) /\
    np_min (map energy_price (forecast_only (historical ++ future))) = Ok emin /\
    np_max (map energy_price (forecast_only (historical ++ future))) = Ok emax /\
    resp = {| forecasts := historical ++ future;
              arbitrage_opportunities :=
                detect_arbitrage_opportunities np
                  (map energy_price (forecast_only (historical ++ future)));
              generated_at := now;
              model := "synthetic";
              statistics :=
                synthetic_statistics np et (historical ++ future) emin emax;
              interval_minutes := iv |}.
Proof.
  unfold generate_synthetic_forecast_all_types.
  destruct (column_names df) as [[[tc ec] hc] kc]. simpl. intros H.
  apply bind_Ok in H. destruct H as (last_date & w1 & _ & H).
  apply bind_Ok in H. destruct H as (le & w2 & _ & H).
  apply bind_Ok in H. destruct H as (lh & w3 & _ & H).
  apply bind_Ok in H. destruct H as (lt & w4 & _ & H).
  apply bind_Ok in H. destruct H as (et & w5 & Het & H).
  apply bind_Ok in H. destruct H as (ht & w6 & _ & H).
  apply bind_Ok in H. destruct H as (tt & w7 & _ & H).
  apply bind_Ok in H. destruct H as (historical & w8 & Hhist & H).
  apply bind_Ok in H. destruct H as (dates & w9 & Hdates & H).
  apply bind_Ok in H. destruct H as (future & w10 & Hfut & H).
  apply bind_Ok in H. destruct H as (emin & w11 & Hmin & H).
  apply bind_Ok in H. destruct H as (emax & w12 & Hmax & H).
  apply bind_Ok in H. destruct H as (now & w13 & _ & H).
  apply ret_Ok in H. destruct H as [-> _].
  apply lift_Ok in Het, Hhist, Hdates, Hmin, Hmax.
  destruct Het as [Het _], Hhist as [Hhist _], Hdates as [Hdates _],
           Hmin as [Hmin _], Hmax as [Hmax _].
  apply mapM_Ok in Hfut. destruct Hfut as [Hlen Hin].
  exists le, lh, lt, et, ht, tt, historical, future, emin, emax, now.
  repeat split; auto.
  - rewrite Hlen, enumerate_length.
    destruct last_date as [d|]; [|discriminate].
    eapply date_range_periods_length, Hdates.
  - intros p Hp. destruct (Hin p Hp) as (it & u1 & u2 & _ & Hstep). eauto.
Qed.

Lemma synthetic_segments df h iv levels w resp w' :
  generate_synthetic_forecast_all_types np df h iv levels w = (Ok resp, w') ->
  exists le lh lt et ht tt historical future,
    forecasts resp = historical ++ future /\
    forecast_only (forecasts resp) = future /\
    historical_tail (forecasts resp) = historical /\
    Z.of_nat (List.length future) = h /\
    (let '(tc, ec, hc, kc) := column_names df in
     if forallb (fun c => has_col c df) [tc; ec; hc; kc]
     then rmap (historical_point np tc ec hc kc) (tail (py_min_int 50 (len df)) df)
     else Ok []) = Ok historical /\
    (forall p, In p future ->
       exists it w1 w2,
         forecast_step np le lh lt et ht tt levels it w1 = (Ok p, w2)).
Proof.
  intros H. apply synthetic_inv in H.
  destruct H as (le & lh & lt & et & ht & tt & historical & future & emin & emax
                 & now & _ & Hhist & Hlen & Hfut & _ & _ & ->).
  exists le, lh, lt, et, ht, tt, historical, future. simpl.
  assert (Hh : forall p, In p historical -> is_historical p = true).
  { intros p Hp. destruct (column_names df) as [[[tc ec] hc] kc].
    destruct (forallb _ _).
    - destruct (rmap_In _ _ _ Hhist p Hp) as (row & _ & Hrow).
      eapply historical_point_is_historical, Hrow.
    - injection Hhist as <-. destruct Hp. }
  assert (Hf : forall p, In p future -> is_historical p = false).
  { intros p Hp. destruct (Hfut p Hp) as (it & w1 & w2 & Hstep).
    eapply forecast_step_not_historical, Hstep. }
  unfold forecast_only, historical_tail. rewrite !filter_app.
  rewrite (filter_none _ historical), (filter_all _ future).
  rewrite (filter_all _ historical), (filter_none _ future).
  - rewrite app_nil_r. repeat split; auto.
  - exact Hf.
  - exact Hh.
  - intros p Hp. rewrite (Hf p Hp). reflexivity.
  - intros p Hp. rewrite (Hh p Hp). reflexivity.
Qed.

(** ** Keys of the bounds *)

Lemma str_of_int_inj a b : str_of_int a = str_of_int b -> a = b.
Proof.
  unfold str_of_int. intros H. apply to_int_inj.
  assert (Hnz : forall n, Z.to_int n <> Decimal.Pos Decimal.Nil /\
                          Z.to_int n <> Decimal.Neg Decimal.Nil).
  { intros [|p|p]; simpl; split; try discriminate; intros E; injection E;
      apply DecimalPos.Unsigned.to_uint_nonnil. }
  pose proof (NilZero.isi _ (proj1 (Hnz a)) (proj2 (Hnz a))) as Ha.
  pose proof (NilZero.isi _ (proj1 (Hnz b)) (proj2 (Hnz b))) as Hb.
  rewrite H in Ha. congruence.
Qed.

Lemma str_of_int_eqb a b : String.eqb (str_of_int a) (str_of_int b) = (a =? b).
Proof.
  destruct (Z.eqb_spec a b) as [->|Hne].
  - apply String.eqb_refl.
  - apply String.eqb_neq. intros H. apply Hne, str_of_int_inj, H.
Qed.

Lemma dict_get_set {V : Type} k k' (v : V) d :
  dict_get k (dict_set k' v d) = if String.eqb k k' then Some v else dict_get k d.
Proof.
  induction d as [|[k0 v0] d IH]; simpl.
  - destruct (String.eqb k k'); reflexivity.
  - destruct (String.eqb_spec k' k0) as [->|Hne]; simpl.
    + destruct (String.eqb k k0); reflexivity.
    + rewrite IH. destruct (String.eqb_spec k k0) as [->|Hne'].
      * rewrite (proj2 (String.eqb_neq k0 k')); [reflexivity|congruence].
      * reflexivity.
Qed.

Lemma key_eqb q s L q' s' L' :
  In q quantities -> In s sides -> In q' quantities -> In s' sides ->
  String.eqb (bound_key q s L) (bound_key q' s' L')
  = String.eqb q q' && String.eqb s s' && (L =? L').
Proof.
  unfold quantities, sides. simpl.
  intros Hq Hs Hq' Hs'.
  repeat match goal with H : _ \/ _ |- _ => destruct H as [<-|H] end;
    try contradiction; unfold bound_key; cbn; try reflexivity; apply str_of_int_eqb.
Qed.

Lemma emitted_synthetic_bounds e h t p L' q s L :
  In q quantities -> In s sides ->
  emitted q s L (synthetic_bounds e h t p L')
  = if L =? L' then Some (Some (synthetic_bound s (pick q e h t) L))
    else emitted q s L p.
Proof.
  intros Hq Hs. unfold emitted, synthetic_bounds, set_bound. simpl bounds.
  rewrite !dict_get_set.
  rewrite !key_eqb by (try assumption; simpl; auto).
  destruct (Z.eqb_spec L L') as [->|Hne].
  - unfold quantities, sides in *. simpl in Hq, Hs.
    repeat match goal with H : _ \/ _ |- _ => destruct H as [<-|H] end;
      try contradiction; reflexivity.
  - rewrite !andb_false_r. reflexivity.
Qed.

Lemma emitted_fold_synthetic e h t levels p q s L :
  In q quantities -> In s sides ->
  In L levels \/ emitted q s L p = Some (Some (synthetic_bound s (pick q e h t) L)) ->
  emitted q s L (fold_left (synthetic_bounds e h t) levels p)
  = Some (Some (synthetic_bound s (pick q e h t) L)).
Proof.
  intros Hq Hs. revert p. induction levels as [|L' levels IH]; simpl; intros p H.
  - destruct H as [[]|H]. exact H.
  - apply IH. rewrite emitted_synthetic_bounds by assumption.
    destruct (Z.eqb_spec L L') as [->|Hne]; [right; reflexivity|].
    destruct H as [[H|H]|H]; [congruence|left; exact H|right; exact H].
Qed.

(** ** Arithmetic of the placeholder interval *)

Lemma uncertainty_of_eq (L : Z) :
  (uncertainty_of L == inject_Z (100 - L) * (1 # 200))%Q.
Proof.
  unfold uncertainty_of. field.
Qed.

Lemma width_order (v : Q) (L L2 : Z) :
  (0 <= v)%Q -> L < L2 ->
  (v * (1 + uncertainty_of L2) - v * (1 - uncertainty_of L2)
   <= v * (1 + uncertainty_of L) - v * (1 - uncertainty_of L))%Q.
Proof.
  intros Hv HL. rewrite !uncertainty_of_eq.
  assert (H : (inject_Z (100 - L2) <= inject_Z (100 - L))%Q).
  { rewrite <- Zle_Qle. lia. }
  set (a := inject_Z (100 - L)) in *. set (b := inject_Z (100 - L2)) in *.
  assert (Hp : (0 <= v * (a - b))%Q) by (apply Qmult_le_0_compat; lra).
  lra.
Qed.


(** a forecast point of a synthetic response, opened *)
Lemma synthetic_future_point df h iv levels w resp w' p :
  generate_synthetic_forecast_all_types np df h iv levels w = (Ok resp, w') ->
  In p (forecasts resp) -> is_historical p = false ->
  exists e h0 t ts,
    (0.01 <= e)%Q /\ (0.1 <= h0)%Q /\ (0.01 <= t)%Q /\
    energy_price p = e /\ hash_price p = h0 /\ token_price p = t /\
    p = fold_left (synthetic_bounds e h0 t) levels
          {| timestamp := ts; energy_price := e; hash_price := h0;
             token_price := t; is_historical := false; bounds := [] |}.
Proof.
  intros H Hp Hnh. apply synthetic_segments in H.
  destruct H as (le & lh & lt & et & ht & tt & historical & future
                 & _ & Hfo & _ & _ & _ & Hfut).
  assert (Hin : In p future).
  { rewrite <- Hfo. unfold forecast_only. apply filter_In. rewrite Hnh. auto. }
  destruct (Hfut p Hin) as (it & w1 & w2 & Hstep).
  apply forecast_step_Ok in Hstep.
  destruct Hstep as (e & h0 & t & He & Hh & Ht & Heq).
  exists e, h0, t, (snd it).
  pose proof (synthetic_bounds_fields e h0 t levels
                {| timestamp := snd it; energy_price := e; hash_price := h0;
                   token_price := t; is_historical := false; bounds := [] |}) as Hf.
  simpl in Hf. rewrite <- Heq in Hf. destruct Hf as (Hf1 & Hf2 & Hf3 & _).
  repeat split; auto.
Qed.

Lemma pick_nonneg q (e h t : Q) :
  (0.01 <= e)%Q -> (0.1 <= h)%Q -> (0.01 <= t)%Q -> (0 <= pick q e h t)%Q.
Proof.
  intros He Hh Ht. unfold pick.
  destruct (String.eqb q "energy_price"); [lra|].
  destruct (String.eqb q "hash_price"); lra.
Qed.

Lemma synthetic_emitted df h iv levels w resp w' p q s L :
  generate_synthetic_forecast_all_types np df h iv levels w = (Ok resp, w') ->
  In p (forecasts resp) -> is_historical p = false ->
  In q quantities -> In s sides -> In L levels ->
  emitted q s L p = Some (Some (synthetic_bound s (price_of q p) L)) /\
  (0 <= price_of q p)%Q.
Proof.
  intros H Hp Hnh Hq Hs HL.
  destruct (synthetic_future_point _ _ _ _ _ _ _ _ H Hp Hnh)
    as (e & h0 & t & ts & He & Hh & Ht & Ee & Eh & Et & Heq).
  assert (Hprice : price_of q p = pick q e h0 t).
  { unfold price_of. rewrite Ee, Eh, Et. reflexivity. }
  rewrite Hprice. split; [|apply pick_nonneg; assumption].
  rewrite Heq. apply emitted_fold_synthetic; auto.
Qed.

Lemma provider_bounds_Raise efc hfc tfc i levels e :
  fold_left (provider_bounds efc hfc tfc i) levels (Raise e) = Raise e.
Proof.
  induction levels as [|L levels IH]; simpl; auto.
Qed.

Lemma provider_bounds_Ok efc hfc tfc i p L p' :
  provider_bounds efc hfc tfc i (Ok p) L = Ok p' ->
  exists elo ehi hlo hhi tlo thi,
    provider_bound efc i (lo_col_names L) 0.9%Q = Ok elo /\
    provider_bound efc i (hi_col_names L) 1.1%Q = Ok ehi /\
    provider_bound hfc i (lo_col_names L) 0.9%Q = Ok hlo /\
    provider_bound hfc i (hi_col_names L) 1.1%Q = Ok hhi /\
    provider_bound tfc i (lo_col_names L) 0.9%Q = Ok tlo /\
    provider_bound tfc i (hi_col_names L) 1.1%Q = Ok thi /\
    p' = set_bound (bound_key "token_price" "_hi_" L) (Some thi)
          (set_bound (bound_key "token_price" "_lo_" L) (Some tlo)
          (set_bound (bound_key "hash_price" "_hi_" L) (Some hhi)
          (set_bound (bound_key "hash_price" "_lo_" L) (Some hlo)
          (set_bound (bound_key "energy_price" "_hi_" L) (Some ehi)
          (set_bound (bound_key "energy_price" "_lo_" L) (Some elo) p))))).
Proof.
  unfold provider_bounds. simpl rbind. intros H.
  apply rbind_Ok in H. destruct H as (elo & H1 & H).
  apply rbind_Ok in H. destruct H as (ehi & H2 & H).
  apply rbind_Ok in H. destruct H as (hlo & H3 & H).
  apply rbind_Ok in H. destruct H as (hhi & H4 & H).
  apply rbind_Ok in H. destruct H as (tlo & H5 & H).
  apply rbind_Ok in H. destruct H as (thi & H6 & H).
  injection H as <-.
  exists elo, ehi, hlo, hhi, tlo, thi. repeat split; assumption.
Qed.

Lemma provider_bounds_emitted efc hfc tfc i p L p' q s L' :
  provider_bounds efc hfc tfc i (Ok p) L = Ok p' ->
  In q quantities -> In s sides ->
  if L' =? L
  then exists v, emitted q s L' p' = Some (Some v) /\
                 provider_bound (pick q efc hfc tfc) i (names_of s L') (proxy_of s) = Ok v
  else emitted q s L' p' = emitted q s L' p.
Proof.
  intros H Hq Hs. apply provider_bounds_Ok in H.
  destruct H as (elo & ehi & hlo & hhi & tlo & thi
                 & H1 & H2 & H3 & H4 & H5 & H6 & ->).
  unfold emitted, set_bound. simpl bounds.
  rewrite !dict_get_set.
  rewrite !key_eqb by (try assumption; simpl; auto).
  destruct (Z.eqb_spec L' L) as [->|Hne].
  - unfold quantities, sides in *. simpl in Hq, Hs.
    repeat match goal with H : _ \/ _ |- _ => destruct H as [<-|H] end;
      try contradiction; simpl; eexists; (split; [reflexivity|]); assumption.
  - rewrite !andb_false_r. reflexivity.
Qed.

Lemma provider_bounds_fields efc hfc tfc i levels p p' :
  fold_left (provider_bounds efc hfc tfc i) levels (Ok p) = Ok p' ->
  timestamp p' = timestamp p /\
  energy_price p' = energy_price p /\
  hash_price p' = hash_price p /\
  token_price p' = token_price p /\
  is_historical p' = is_historical p.
Proof.
  revert p. induction levels as [|L levels IH]; cbn [fold_left]; intros p H.
  - injection H as <-. repeat split.
  - destruct (provider_bounds efc hfc tfc i (Ok p) L) as [p1|e] eqn:E.
    + apply IH in H. apply provider_bounds_Ok in E.
      destruct E as (? & ? & ? & ? & ? & ? & _ & _ & _ & _ & _ & _ & ->).
      exact H.
    + rewrite provider_bounds_Raise in H. discriminate.
Qed.




Lemma provider_point_Ok efc hfc tfc levels i p :
  provider_point efc hfc tfc levels i = Ok p ->
  exists ts e h t,
    float_at efc i "TimeGPT" = Ok e /\
    float_at hfc i "TimeGPT" = Ok h /\
    float_at tfc i "TimeGPT" = Ok t /\
    fold_left (provider_bounds efc hfc tfc i) levels
              (Ok {| timestamp := ts; energy_price := e; hash_price := h;
                     token_price := t; is_historical := false; bounds := [] |})
    = Ok p /\
    energy_price p = e /\ hash_price p = h /\ token_price p = t /\
    is_historical p = false.
Proof.
  unfold provider_point. intros H.
  apply rbind_Ok in H. destruct H as (ts & _ & H).
  apply rbind_Ok in H. destruct H as (e & He & H).
  apply rbind_Ok in H. destruct H as (h & Hh & H).
  apply rbind_Ok in H. destruct H as (t & Ht & H).
  exists ts, e, h, t.
  destruct (provider_bounds_fields _ _ _ _ _ _ _ H) as (_ & F1 & F2 & F3 & F4).
  repeat split; (eassumption || reflexivity).
Qed.

Lemma empty_bounds_fields levels p :
  is_historical (fold_left empty_bounds levels p) = is_historical p.
Proof.
  revert p. induction levels as [|L levels IH]; cbn [fold_left]; intros p; [reflexivity|].
  rewrite IH. reflexivity.
Qed.

Lemma provider_hist_point_is_historical edf hdf tdf levels i p :
  provider_hist_point edf hdf tdf levels i = Ok p -> is_historical p = true.
Proof.
  unfold provider_hist_point. intros H.
  repeat (apply rbind_Ok in H; destruct H as (? & _ & H)).
  injection H as <-. apply empty_bounds_fields.
Qed.

Lemma py_range_length a b : Z.of_nat (List.length (py_range a b)) = Z.max 0 (b - a).
Proof.
  unfold py_range. rewrite length_map, length_seq. lia.
Qed.

Lemma provider_forecast_inv client edf0 hdf0 tdf0 request w resp w' :
  provider_forecast np client edf0 hdf0 tdf0 request w = (Ok resp, w') ->
  exists edf hdf tdf freq level efc hfc tfc historical future timegpt now,
    forecast client edf (ForecastRequest.horizon request) freq level = Ok efc /\
    forecast client hdf (ForecastRequest.horizon request) freq level = Ok hfc /\
    forecast client tdf (ForecastRequest.horizon request) freq level = Ok tfc /\
    rmap (provider_hist_point edf hdf tdf (ForecastRequest.confidence_levels request))
         (py_range (len edf - py_min_int 50 (len edf)) (len edf)) = Ok historical /\
    rmap (provider_point efc hfc tfc (ForecastRequest.confidence_levels request))
         (py_range 0 (len efc)) = Ok future /\
    (col <-? column "TimeGPT" efc ;; rmap as_float col) = Ok timegpt /\
    resp = {| forecasts := historical ++ future;
              arbitrage_opportunities := detect_arbitrage_opportunities np timegpt;
              generated_at := now;
              model := "timegpt-1";
              statistics := [("mean", pd_mean timegpt); ("std", pd_std np timegpt);
                             ("min", pd_min timegpt); ("max", pd_max timegpt)];
              interval_minutes := ForecastRequest.interval_minutes request |}.
Proof.
  unfold provider_forecast. intros H.
  apply bind_Ok in H. destruct H as (edf & w1 & _ & H).
  apply bind_Ok in H. destruct H as (hdf & w2 & _ & H).
  apply bind_Ok in H. destruct H as (tdf & w3 & _ & H).
  apply bind_Ok in H. destruct H as (efc & w4 & He & H).
  apply bind_Ok in H. destruct H as (hfc & w5 & Hh & H).
  apply bind_Ok in H. destruct H as (tfc & w6 & Ht & H).
  apply bind_Ok in H. destruct H as (historical & w7 & Hhist & H).
  apply bind_Ok in H. destruct H as (future & w8 & Hfut & H).
  apply bind_Ok in H. destruct H as (timegpt & w9 & Htg & H).
  apply bind_Ok in H. destruct H as (now & w10 & _ & H).
  apply ret_Ok in H. destruct H as [-> _].
  apply lift_Ok in He, Hh, Ht, Hhist, Hfut, Htg.
  destruct He as [He _], Hh as [Hh _], Ht as [Ht _], Hhist as [Hhist _],
           Hfut as [Hfut _], Htg as [Htg _].
  exists edf, hdf, tdf. do 2 eexists.
  exists efc, hfc, tfc, historical, future, timegpt, now.
  repeat split; (eassumption || reflexivity).
Qed.

Lemma provider_segments client edf0 hdf0 tdf0 request w resp w' :
  provider_forecast np client edf0 hdf0 tdf0 request w = (Ok resp, w') ->
  exists edf freq level efc hfc tfc future,
    forecast client edf (ForecastRequest.horizon request) freq level = Ok efc /\
    forecast_only (forecasts resp) = future /\
    rmap (provider_point efc hfc tfc (ForecastRequest.confidence_levels request))
         (py_range 0 (len efc)) = Ok future.
Proof.
  intros H. apply provider_forecast_inv in H.
  destruct H as (edf & hdf & tdf & freq & level & efc & hfc & tfc & historical
                 & future & timegpt & now & He & _ & _ & Hhist & Hfut & _ & ->).
  exists edf, freq, level, efc, hfc, tfc, future. simpl.
  split; [exact He|]. split; [|exact Hfut].
  unfold forecast_only. rewrite filter_app.
  rewrite (filter_none _ historical), (filter_all _ future); [reflexivity| |].
  - intros p Hp. destruct (rmap_In _ _ _ Hfut p Hp) as (i & _ & Hi).
    apply provider_point_Ok in Hi.
    destruct Hi as (? & ? & ? & ? & _ & _ & _ & _ & _ & _ & _ & ->). reflexivity.
  - intros p Hp. destruct (rmap_In _ _ _ Hhist p Hp) as (i & _ & Hi).
    apply provider_hist_point_is_historical in Hi. rewrite Hi. reflexivity.
Qed.

Lemma rmap_map {A B C : Type} (g : A -> B) (f : B -> result C) l :
  rmap f (map g l) = rmap (fun a => f (g a)) l.
Proof.
  induction l as [|a l IH]; simpl; [reflexivity|]. rewrite IH. reflexivity.
Qed.

Lemma Forall2_map_l {A B C : Type} (g : A -> B) (R : B -> C -> Prop) l cs :
  Forall2 R (map g l) cs -> Forall2 (fun a c => R (g a) c) l cs.
Proof.
  revert cs. induction l as [|a l IH]; simpl; intros cs H; inversion H; subst;
    constructor; auto.
Qed.

Lemma Forall2_functional {A B C : Type} (f : A -> result C) (g : B -> C) l bs cs :
  Forall2 (fun a b => f a = Ok (g b)) l bs ->
  Forall2 (fun a c => f a = Ok c) l cs ->
  map g bs = cs.
Proof.
  intros H. revert cs. induction H as [|a b l bs Hab _ IH]; intros cs Hc;
    inversion Hc; subst; simpl; [reflexivity|].
  f_equal; [congruence|auto].
Qed.

(** the value of column [c] at position [k], read row by row *)
Lemma column_by_rows (c : string) (rs : list record) :
  rmap as_float (map (row_get c) rs)
  = rmap (fun k => match nth_error rs k with
                   | Some r => as_float (row_get c r)
                   | None => Raise IndexError
                   end) (seq 0 (List.length rs)).
Proof.
  rewrite rmap_map.
  induction rs as [|r rs IH]; [reflexivity|].
  cbn [List.length seq]. rewrite <- seq_shift.
  cbn [rmap nth_error]. rewrite rmap_map. cbn [nth_error].
  rewrite IH. reflexivity.
Qed.

Lemma float_at_nat fc (k : nat) c :
  has_col c fc = true ->
  float_at fc (0 + Z.of_nat k) c
  = match nth_error (rows fc) k with
    | Some r => as_float (row_get c r)
    | None => Raise IndexError
    end.
Proof.
  intros Hc. unfold float_at, iloc_col, py_index. rewrite Hc.
  replace (0 <=? 0 + Z.of_nat k) with true by (symmetry; apply Z.leb_le; lia).
  replace (0 + Z.of_nat k <? 0) with false by (symmetry; apply Z.ltb_ge; lia).
  replace (Z.to_nat (0 + Z.of_nat k)) with k by lia.
  destruct (nth_error (rows fc) k); reflexivity.
Qed.

Lemma provider_energy_values efc hfc tfc levels future timegpt :
  rmap (provider_point efc hfc tfc levels) (py_range 0 (len efc)) = Ok future ->
  (col <-? column "TimeGPT" efc ;; rmap as_float col) = Ok timegpt ->
  map energy_price future = timegpt.
Proof.
  intros Hfut Htg.
  apply rbind_Ok in Htg. destruct Htg as (col & Hcol & Htg).
  unfold column in Hcol. destruct (has_col "TimeGPT" efc) eqn:Hc; [|discriminate].
  injection Hcol as <-. rewrite column_by_rows in Htg.
  apply rmap_Forall2 in Htg.
  unfold py_range, len in Hfut.
  replace (Z.to_nat (Z.of_nat (List.length (rows efc)) - 0))
    with (List.length (rows efc)) in Hfut by lia.
  apply rmap_Forall2, Forall2_map_l in Hfut.
  eapply Forall2_functional; [|exact Htg].
  eapply Forall2_impl; [|exact Hfut]. cbv beta.
  intros k p Hp. apply provider_point_Ok in Hp.
  destruct Hp as (ts & e & h & t & He & _ & _ & _ & Ee & _).
  rewrite float_at_nat in He by exact Hc. rewrite Ee. exact He.
Qed.

Variable read_csv : result DataFrame.
Variable nixtla_client : option NixtlaClient.
Variable mara_prices : result (Z * result (list record)).

Lemma generate_forecast_inv request w resp w' :
  generate_forecast np read_csv nixtla_client mara_prices request w = (Ok resp, w') ->
  (exists client edf hdf tdf w1,
     nixtla_client = Some client /\
     provider_forecast np client edf hdf tdf request w1 = (Ok resp, w')) \/
  (exists df w1,
     generate_synthetic_forecast_all_types np df
       (ForecastRequest.horizon request) (ForecastRequest.interval_minutes request)
       (ForecastRequest.confidence_levels request) w1 = (Ok resp, w')).
Proof.
  unfold generate_forecast. intros H.
  apply try_except_Ok in H. destruct H as [H|(e & w1 & _ & H)].
  - apply bind_Ok in H. destruct H as (hd & w1 & _ & H).
    apply bind_Ok in H. destruct H as ([[edf hdf] tdf] & w2 & _ & H).
    destruct nixtla_client as [client|]; [|right; eauto].
    destruct (0 <? len edf); [|right; eauto].
    apply try_except_Ok in H. destruct H as [H|(e & w3 & _ & H)].
    + left. exists client, edf, hdf, tdf, w2. auto.
    + right. eauto.
  - apply bind_Ok in H. destruct H as (df & w2 & _ & H). right. eauto.
Qed.


Lemma count_if_filter test values :
  count_if test values = Z.of_nat (List.length (filter test values)).
Proof.
  unfold count_if.
  assert (H : forall acc, fold_left (fun a p => if test p then a + 1 else a) values acc
                          = acc + Z.of_nat (List.length (filter test values))).
  { induction values as [|p values IH]; simpl; intros acc; [lia|].
    rewrite IH. destruct (test p); simpl; lia. }
  rewrite H. lia.
Qed.

Lemma q_len_map (f : Q -> Q) l : q_len (map f l) = q_len l.
Proof.
  unfold q_len. rewrite length_map. reflexivity.
Qed.

Lemma bind_lift {A B : Type} (r : result A) (f : A -> M np B) w :
  bind (lift r) f w = match r with Ok a => f a w | Raise e => (Raise e, w) end.
Proof.
  destruct r; reflexivity.
Qed.

Lemma bind_now {B : Type} (f : Z -> M np B) w :
  bind datetime_now f w
  = f (w_clock np w (w_tick np w))
      (mkWorld np (w_rng np w) (w_clock np w) (S (w_tick np w))).
Proof.
  reflexivity.
Qed.

Lemma bind_seed {B : Type} k (f : unit -> M np B) w :
  bind (np_random_seed np k) f w
  = f tt (mkWorld np (seed np k) (w_clock np w) (w_tick np w)).
Proof.
  reflexivity.
Qed.

(** ** C1: as many forecast points as the horizon *)


(** ** C2: the bounds bracket the point estimate *)


(** ** C3: the synthetic bounds follow the documented formula *)

(** C3: on the synthetic path, every forecast point carries, for each
    quantity and each requested level [L], the bounds
    [lo = value * (1 - u)] and [hi = value * (1 + u)] with
    [u = (100 - L) / 100 * 0.5]; and of two requested levels the lower one
    has the interval at least as wide. *)
Theorem synthetic_bounds_follow_formula df h iv levels w resp p q L :
  fst (generate_synthetic_forecast_all_types np df h iv levels w) = Ok resp ->
  In p (forecasts resp) -> is_historical p = false ->
  In q quantities -> In L levels ->
  emitted q "_lo_" L p = Some (Some (price_of q p * (1 - uncertainty_of L))%Q) /\
  emitted q "_hi_" L p = Some (Some (price_of q p * (1 + uncertainty_of L))%Q) /\
  forall L2, In L2 levels -> L < L2 ->
    exists w1 w2,
      width q L p = Some w1 /\ width q L2 p = Some w2 /\ (w2 <= w1)%Q.
Proof.
  intros H Hp Hnh Hq HL. apply run_Ok in H.
  assert (Hem : forall s L', In s sides -> In L' levels ->
            emitted q s L' p = Some (Some (synthetic_bound s (price_of q p) L'))).
  { intros s L' Hs HL'.
    apply (synthetic_emitted _ _ _ _ _ _ _ p q s L' H Hp Hnh Hq Hs HL'). }
  assert (Hpos : (0 <= price_of q p)%Q).
  { apply (synthetic_emitted _ _ _ _ _ _ _ p q "_lo_" L H Hp Hnh Hq); simpl; auto. }
  split; [|split].
  - apply (Hem "_lo_" L); simpl; auto.
  - apply (Hem "_hi_" L); simpl; auto.
  - intros L2 HL2 Hlt. unfold width.
    rewrite (Hem "_hi_" L), (Hem "_lo_" L), (Hem "_hi_" L2), (Hem "_lo_" L2);
      simpl; auto.
    do 2 eexists. split; [reflexivity|]. split; [reflexivity|].
    apply width_order; assumption.
Qed.

(** ** C6: the arbitrage heuristic counts the outliers *)

(** C6: [detect_arbitrage_opportunities] returns 0 on fewer than two
    values, and otherwise the number of values strictly above
    [mean + 1.5 * std] plus the number strictly below [mean - 1.5 * std],
    the mean and the population standard deviation being those of the same
    values. *)
Theorem arbitrage_count_is_outlier_count values :
  detect_arbitrage_opportunities np values
  = if (List.length values <? 2)%nat then 0 else outliers np values.
Proof.
  unfold detect_arbitrage_opportunities.
  destruct (Nat.ltb_spec (List.length values) 2) as [Hlt|Hge].
  - replace (Z.of_nat (List.length values) <? 2) with true; [reflexivity|].
    symmetry. apply Z.ltb_lt. lia.
  - replace (Z.of_nat (List.length values) <? 2) with false
      by (symmetry; apply Z.ltb_ge; lia).
    rewrite !count_if_filter. unfold outliers, population_std, arithmetic_mean, std_of, mean_of.
    rewrite q_len_map. reflexivity.
Qed.

(** ** C7: the statistics of a response *)

(** C7 (amended): on the synthetic path the statistics are computed over
    the forecast-only segment: mean, population standard deviation, minimum
    and maximum of the energy price, a trend value, and the means of the
    hash and token prices.  On the provider path the statistics hold four
    entries only, [mean], [std], [min] and [max], the mean, minimum and
    maximum being those of the energy price over the forecast-only
    segment. *)
Theorem statistics_by_path request w resp :
  fst (generate_forecast np read_csv nixtla_client mara_prices request w) = Ok resp ->
  (model resp = "synthetic" /\
   exists trend emin emax,
     np_min (map energy_price (forecast_only (forecasts resp))) = Ok emin /\
     np_max (map energy_price (forecast_only (forecasts resp))) = Ok emax /\
     statistics resp = synthetic_statistics np trend (forecasts resp) emin emax) \/
  (model resp = "timegpt-1" /\
   exists std,
     statistics resp
     = [("mean", pd_mean (map energy_price (forecast_only (forecasts resp))));
        ("std", std);
        ("min", pd_min (map energy_price (forecast_only (forecasts resp))));
        ("max", pd_max (map energy_price (forecast_only (forecasts resp))))]).
Proof.
  intros H. apply run_Ok, generate_forecast_inv in H.
  destruct H as [(client & edf & hdf & tdf & w1 & Hc & H)|(df & w1 & H)].
  - right. pose proof (provider_segments _ _ _ _ _ _ _ _ H) as Hseg.
    apply provider_forecast_inv in H.
    destruct H as (edf' & hdf' & tdf' & freq & level & efc & hfc & tfc & historical
                   & future & timegpt & now & He & Hh & Ht & Hhist & Hfut & Htg & ->).
    destruct Hseg as (? & ? & ? & efc' & hfc' & tfc' & future' & _ & Hfo & _).
    simpl in *. split; [reflexivity|].
    assert (Hfo' : forecast_only (historical ++ future) = future).
    { unfold forecast_only. rewrite filter_app.
      rewrite (filter_none _ historical), (filter_all _ future); [reflexivity| |].
      - intros p Hp. destruct (rmap_In _ _ _ Hfut p Hp) as (i & _ & Hi).
        apply provider_point_Ok in Hi.
        destruct Hi as (? & ? & ? & ? & _ & _ & _ & _ & _ & _ & _ & ->). reflexivity.
      - intros p Hp. destruct (rmap_In _ _ _ Hhist p Hp) as (i & _ & Hi).
        apply provider_hist_point_is_historical in Hi. rewrite Hi. reflexivity. }
    rewrite Hfo'. rewrite (provider_energy_values _ _ _ _ _ _ Hfut Htg).
    eexists. reflexivity.
  - left. apply synthetic_inv in H.
    destruct H as (le & lh & lt & et & ht & tt & historical & future & emin & emax
                   & now & _ & _ & _ & _ & Hmin & Hmax & ->).
    simpl. split; [reflexivity|]. exists et, emin, emax. auto.
Qed.


(** ** C8: what the synthetic generators reproduce *)

Lemma fallback_seeds days iv g1 g2 clock tick :
  iv <> 0 ->
  generate_synthetic_data_fallback np days iv (mkWorld np g1 clock tick)
  = generate_synthetic_data_fallback np days iv (mkWorld np g2 clock tick).
Proof.
  intros Hiv. unfold generate_synthetic_data_fallback.
  rewrite !bind_lift. unfold py_floordiv.
  destruct (Z.eqb_spec iv 0) as [E|_]; [contradiction|].
  rewrite !bind_now. cbn [w_rng w_clock w_tick]. rewrite !bind_lift.
  unfold pd_date_range. destruct (Z.eqb_spec iv 0) as [E|_]; [contradiction|].
  destruct (iv <? 0).
  - rewrite !bind_seed. cbn [w_rng w_clock w_tick]. reflexivity.
  - destruct (_ <? _); rewrite !bind_seed; cbn [w_rng w_clock w_tick]; reflexivity.
Qed.

Lemma fallback_no_interval days w :
  generate_synthetic_data_fallback np days 0 w = (Raise ZeroDivisionError, w).
Proof.
  unfold generate_synthetic_data_fallback. rewrite bind_lift. reflexivity.
Qed.

Lemma market_data_without_file e days iv w :
  generate_energy_market_data np (Raise e) days iv w
  = generate_synthetic_data_fallback np days iv w.
Proof.
  unfold generate_energy_market_data, try_except, read_market_data.
  rewrite bind_lift. reflexivity.
Qed.

(** with an interval of zero the forecaster raises before its first draw *)
Lemma forecaster_no_interval df h levels g1 g2 clock tick :
  fst (generate_synthetic_forecast_all_types np df h 0 levels (mkWorld np g1 clock tick))
  = fst (generate_synthetic_forecast_all_types np df h 0 levels (mkWorld np g2 clock tick)).
Proof.
  unfold generate_synthetic_forecast_all_types.
  destruct (column_names df) as [[[tc ec] hc] kc].
  set (k := fun last_date : option Z => _).
  assert (Hk : forall ld g1 g2 clock tick,
             fst (k ld (mkWorld np g1 clock tick)) = fst (k ld (mkWorld np g2 clock tick))).
  { intros ld a b c t. unfold k.
    do 7 (rewrite !bind_lift;
          match goal with
          | |- context [match ?r with Ok _ => _ | Raise _ => _ end] =>
              destruct r; [|reflexivity]
          end).
    rewrite !bind_lift.
    assert (E : match ld with
                | Some d => pd_date_range_periods (d + 0 * 60) h 0
                | None => Raise ValueError
                end = Raise ValueError).
    { destruct ld; [|reflexivity]. unfold pd_date_range_periods.
      destruct (h <? 0); reflexivity. }
    rewrite E. reflexivity. }
  destruct (has_col tc df).
  - rewrite !bind_lift. destruct (last_timestamp np tc df); [apply Hk|reflexivity].
  - unfold bind at 1 3. unfold bind at 1 2. unfold datetime_now, ret.
    cbn [w_rng w_clock w_tick]. apply Hk.
Qed.

Lemma try_except_bind {A B : Type} (m : M np A) (k : A -> M np B)
    (h : exn -> M np B) w :
  try_except (bind m k) h w
  = match m w with
    | (Ok a, w') => try_except (k a) h w'
    | (Raise e, w') => h e w'
    end.
Proof.
  unfold try_except, bind. destruct (m w) as [[a|e] w']; reflexivity.
Qed.

(** C8: the historical generator seeds the numpy generator with 42 before
    its first draw: with the same parameters and the same clock readings
    it returns the same sequence whatever state that generator was in.
    The forecast continuation has no seed of its own; it is reproducible
    where it follows the historical generator: when the market-data file
    cannot be read, the response of the forecast operation, with the same
    request and the same clock readings, is the same whatever state the
    generator was in. *)
Theorem synthetic_generators_reproducible :
  (forall days iv g1 g2 clock tick,
     fst (generate_synthetic_data_fallback np days iv (mkWorld np g1 clock tick))
     = fst (generate_synthetic_data_fallback np days iv (mkWorld np g2 clock tick))) /\
  (forall e request g1 g2 clock tick,
     fst (generate_forecast np (Raise e) nixtla_client mara_prices request
            (mkWorld np g1 clock tick))
     = fst (generate_forecast np (Raise e) nixtla_client mara_prices request
              (mkWorld np g2 clock tick))).
Proof.
  split.
  - intros days iv g1 g2 clock tick.
    destruct (Z.eq_dec iv 0) as [->|Hne].
    + rewrite !fallback_no_interval. reflexivity.
    + rewrite (fallback_seeds days iv g1 g2 clock tick Hne). reflexivity.
  - intros e request g1 g2 clock tick.
    unfold generate_forecast. rewrite !try_except_bind, !market_data_without_file.
    destruct (Z.eq_dec (ForecastRequest.interval_minutes request) 0) as [E|Hne].
    + rewrite E, !fallback_no_interval, !bind_lift.
      destruct (fallback_frame np mara_prices request); [|reflexivity].
      apply forecaster_no_interval.
    + rewrite (fallback_seeds 7 _ g1 g2 clock tick Hne). reflexivity.
Qed.

(** ** C9: the anomaly operation answers with the empty result *)

(** C9: when the market data of the request can be assembled into a frame,
    and the client is not configured or its anomaly call raises, the
    operation returns [{anomalies: [], total_anomalies: 0, anomaly_rate: 0}]
    and no error. *)
Theorem anomalies_empty_without_provider request df :
  anomaly_frame np request = Ok df ->
  (nixtla_client = None \/
   exists client e, nixtla_client = Some client /\
                    client_detect_anomalies client df = Raise e) ->
  detect_anomalies np nixtla_client request = Ok no_anomalies.
Proof.
  intros Hdf Hc. unfold detect_anomalies. rewrite Hdf. simpl.
  destruct Hc as [->|(client & e & -> & He)]; [reflexivity|].
  rewrite He. reflexivity.
Qed.

(** ** C10: the historical tail of a frame in the ds/y shape *)


End Properties.

(** * Evaluations on the sample inputs *)




(** ** C1, on the run where the client answers *)


(** ** C2: a negative point estimate escapes the substitute bounds *)



(** ** C3, on the climbing frame *)

Lemma synthetic_bounds_witness :
  fst synthetic_run = Ok synthetic_response /\
  In (point_at 13 synthetic_response) (forecasts synthetic_response) /\
  is_historical (point_at 13 synthetic_response) = false /\
  In "hash_price" quantities /\ In 80 [80; 95] /\
  emitted "hash_price" "_lo_" 80 (point_at 13 synthetic_response)
  = Some (Some (price_of "hash_price" (point_at 13 synthetic_response)
                * (1 - uncertainty_of 80))%Q) /\
  emitted "hash_price" "_hi_" 80 (point_at 13 synthetic_response)
  = Some (Some (price_of "hash_price" (point_at 13 synthetic_response)
                * (1 + uncertainty_of 80))%Q) /\
  forall L2, In L2 [80; 95] -> 80 < L2 ->
    exists w1 w2,
      width "hash_price" 80 (point_at 13 synthetic_response) = Some w1 /\
      width "hash_price" L2 (point_at 13 synthetic_response) = Some w2 /\
      (w2 <= w1)%Q.
Proof.
  assert (Hrun : fst synthetic_run = Ok synthetic_response)
    by (vm_compute; reflexivity).
  assert (Hin : In (point_at 13 synthetic_response) (forecasts synthetic_response))
    by (apply nth_In; vm_compute; lia).
  assert (Hnh : is_historical (point_at 13 synthetic_response) = false)
    by reflexivity.
  assert (Hq : In "hash_price" quantities) by (simpl; auto).
  assert (HL : In 80 [80; 95]) by (simpl; auto).
  repeat (split; [assumption|]).
  exact (synthetic_bounds_follow_formula sample_lib climbing_frame 2 5 [80; 95]
           (ticking_world 4000) synthetic_response
           (point_at 13 synthetic_response) "hash_price" 80
           Hrun Hin Hnh Hq HL).
Defined.

(** ** C4: the single backfill pass can leave fewer than 100 rows *)

(** C4 (evaluation at the failing input): the market-data file holds fifty
    rows, all of the last day.  The first read returns fifty rows; the
    backfill reads one more day of the same file, prepends the same fifty
    rows, and the removal of duplicates leaves fifty.  The client, which
    reports as its point estimate the number of rows it was given, is
    called with fifty rows. *)
Lemma backfill_leaves_fifty_rows :
  fst provider_run = Ok provider_response /\
  model provider_response = "timegpt-1" /\
  map energy_price (forecast_only (forecasts provider_response)) = [50; 50]%Q /\
  exists historical_data energy_df hash_df token_df,
    fst (generate_energy_market_data sample_lib (Ok (csv_rows 50 1000000)) 7 5
           (ticking_world 1000000)) = Ok historical_data /\
    fst (prepare_series sample_lib (Ok (csv_rows 50 1000000)) historical_data 5
           (ticking_world 1000001)) = Ok (energy_df, hash_df, token_df) /\
    len energy_df = 50 /\ len hash_df = 50 /\ len token_df = 50.
Proof.
  split; [vm_compute; reflexivity|]. split; [reflexivity|].
  split; [vm_compute; reflexivity|].
  match eval vm_compute in
        (fst (generate_energy_market_data sample_lib (Ok (csv_rows 50 1000000)) 7 5
                (ticking_world 1000000))) with
  | Ok ?hd =>
      exists hd;
      match eval vm_compute in
            (fst (prepare_series sample_lib (Ok (csv_rows 50 1000000)) hd 5
                    (ticking_world 1000001))) with
      | Ok (?e, ?h, ?t) => exists e, h, t
      end
  end.
  repeat split; vm_compute; reflexivity.
Qed.

(** ** C5: the trend looks eleven steps back *)

(** C5 (evaluation at the failing input): on a thirteen-point series whose
    energy price is 0, 1, ..., 12, the difference between the last value and
    the value twelve steps before it is 12, so the stated estimate is 1; the
    code reads [iloc[-12]], the value eleven steps before the last, and
    returns 11/12.  Both forecasters do so. *)
Lemma trend_reads_eleven_steps_back :
  exists q,
    recent_trend "energy_price" climbing_frame = Ok q /\
    recent_trend_single climbing_series = Ok q /\
    (q == 11 # 12)%Q /\
    ~ (q == (12 - 0) / 12)%Q.
Proof.
  match eval vm_compute in (recent_trend "energy_price" climbing_frame) with
  | Ok ?q => exists q
  end.
  repeat split; try (vm_compute; reflexivity).
  intro H. vm_compute in H. discriminate H.
Qed.


(** ** C7: the provider path has no trend and no secondary means *)

(** C7 (counterexample): on the run where the client answers, the
    statistics of the response hold no [trend], no [hash_mean] and no
    [token_mean]. *)
Lemma provider_statistics_counterexample :
  fst provider_run = Ok provider_response /\
  model provider_response = "timegpt-1" /\
  dict_keys (statistics provider_response) = ["mean"; "std"; "min"; "max"] /\
  dict_get "trend" (statistics provider_response) = None /\
  dict_get "hash_mean" (statistics provider_response) = None /\
  dict_get "token_mean" (statistics provider_response) = None.
Proof.
  repeat split; vm_compute; reflexivity.
Qed.

Lemma statistics_by_path_witness :
  fst provider_run = Ok provider_response /\
  ((model provider_response = "synthetic" /\
    exists trend emin emax,
      np_min (map energy_price (forecast_only (forecasts provider_response)))
      = Ok emin /\
      np_max (map energy_price (forecast_only (forecasts provider_response)))
      = Ok emax /\
      statistics provider_response
      = synthetic_statistics sample_lib trend (forecasts provider_response)
                             emin emax) \/
   (model provider_response = "timegpt-1" /\
    exists std,
      statistics provider_response
      = [("mean", pd_mean (map energy_price
                             (forecast_only (forecasts provider_response))));
         ("std", std);
         ("min", pd_min (map energy_price
                           (forecast_only (forecasts provider_response))));
         ("max", pd_max (map energy_price
                           (forecast_only (forecasts provider_response))))])).
Proof.
  assert (Hrun : fst provider_run = Ok provider_response)
    by (vm_compute; reflexivity).
  split; [exact Hrun|].
  exact (statistics_by_path sample_lib (Ok (csv_rows 50 1000000))
           (Some counting_client) (Raise ConnectionError) sample_request
           (ticking_world 1000000) provider_response Hrun).
Defined.

(** ** C8: two runs with the same parameters differ *)

(** C8 (counterexample): the synthetic forecaster is run twice in a row on
    the climbing frame with the same arguments, while the clock stands
    still.  Both responses carry the same time of generation and the same
    timestamps, but the first forecast point has the energy price 11.99501
    in the first run and 12.00399 in the second: the noise is drawn from
    the global generator, which the first run has advanced.  The historical
    generator, which seeds the generator itself, is run twice with the same
    parameters a second apart: its timestamps start at 913600 in the first
    run and at 913601 in the second. *)
Lemma repeated_runs_differ_counterexample :
  fst repeated_forecast_run = Ok repeated_forecast /\
  generated_at (fst repeated_forecast) = generated_at (snd repeated_forecast) /\
  map timestamp (forecasts (fst repeated_forecast))
  = map timestamp (forecasts (snd repeated_forecast)) /\
  (energy_price (point_at 13 (fst repeated_forecast)) == 11.99501)%Q /\
  (energy_price (point_at 13 (snd repeated_forecast)) == 12.00399)%Q /\
  forecasts (fst repeated_forecast) <> forecasts (snd repeated_forecast) /\
  fst repeated_history_run = Ok repeated_history /\
  row_get "timestamp" (nth 0 (fst repeated_history) []) = Time 913600 /\
  row_get "timestamp" (nth 0 (snd repeated_history) []) = Time 913601 /\
  fst repeated_history <> snd repeated_history.
Proof.
  split; [vm_compute; reflexivity|]. split; [reflexivity|].
  split; [vm_compute; reflexivity|]. split; [vm_compute; reflexivity|].
  split; [vm_compute; reflexivity|].
  split.
  { intros H.
    assert (E : energy_price (point_at 13 (fst repeated_forecast))
                = energy_price (point_at 13 (snd repeated_forecast)))
      by (unfold point_at; rewrite H; reflexivity).
    vm_compute in E. discriminate E. }
  split; [vm_compute; reflexivity|]. split; [vm_compute; reflexivity|].
  split; [vm_compute; reflexivity|].
  intros H.
  assert (E : row_get "timestamp" (nth 0 (fst repeated_history) [])
              = row_get "timestamp" (nth 0 (snd repeated_history) []))
    by (rewrite H; reflexivity).
  vm_compute in E. discriminate E.
Qed.

(** ** C9, on a client whose anomaly call raises *)

Lemma anomalies_empty_witness :
  anomaly_frame sample_lib sample_request = Ok sample_anomaly_frame /\
  (Some counting_client = None \/
   exists client e,
     Some counting_client = Some client /\
     client_detect_anomalies client sample_anomaly_frame = Raise e) /\
  detect_anomalies sample_lib (Some counting_client) sample_request
  = Ok no_anomalies.
Proof.
  assert (Hdf : anomaly_frame sample_lib sample_request = Ok sample_anomaly_frame)
    by (vm_compute; reflexivity).
  assert (Hc : Some counting_client = None \/
               exists client e,
                 Some counting_client = Some client /\
                 client_detect_anomalies client sample_anomaly_frame = Raise e).
  { right. exists counting_client, ProviderError. split; reflexivity. }
  split; [exact Hdf|]. split; [exact Hc|].
  exact (anomalies_empty_without_provider sample_lib (Some counting_client)
           sample_request sample_anomaly_frame Hdf Hc).
Defined.

(** ** C10: the last resort keeps the request as the historical tail *)



(** * Further properties of the code *)

Section Coverage.

Variable np : Lib.
Variable read_csv : result DataFrame.
Variable nixtla_client : option NixtlaClient.
Variable mara_prices : result (Z * result (list record)).

Lemma tail_length n df :
  (List.length (tail (py_min_int 50 n) df) <= 50)%nat.
Proof.
  unfold tail, py_min_int. rewrite length_skipn.
  destruct (Z.ltb_spec n 50); lia.
Qed.

Lemma synthetic_history_length df h iv levels w resp w' :
  generate_synthetic_forecast_all_types np df h iv levels w = (Ok resp, w') ->
  (List.length (historical_tail (forecasts resp)) <= 50)%nat.
Proof.
  intros H. apply synthetic_segments in H.
  destruct H as (le & lh & lt & et & ht & tt & historical & future
                 & _ & _ & -> & _ & Hhist & _).
  destruct (column_names df) as [[[tc ec] hc] kc].
  destruct (forallb _ _).
  - apply rmap_length in Hhist. rewrite Hhist.
    unfold len. apply tail_length.
  - injection Hhist as <-. simpl. lia.
Qed.

(** the response of the provider branch, split *)
Lemma provider_split client edf0 hdf0 tdf0 request w resp w' :
  provider_forecast np client edf0 hdf0 tdf0 request w = (Ok resp, w') ->
  exists edf hdf tdf efc hfc tfc historical future,
    forecasts resp = historical ++ future /\
    rmap (provider_hist_point edf hdf tdf (ForecastRequest.confidence_levels request))
         (py_range (len edf - py_min_int 50 (len edf)) (len edf)) = Ok historical /\
    rmap (provider_point efc hfc tfc (ForecastRequest.confidence_levels request))
         (py_range 0 (len efc)) = Ok future /\
    model resp = "timegpt-1" /\
    interval_minutes resp = ForecastRequest.interval_minutes request.
Proof.
  intros H. apply provider_forecast_inv in H.
  destruct H as (edf & hdf & tdf & freq & level & efc & hfc & tfc & historical
                 & future & timegpt & now & _ & _ & _ & Hhist & Hfut & _ & ->).
  exists edf, hdf, tdf, efc, hfc, tfc, historical, future. simpl. auto.
Qed.

Lemma provider_point_not_historical efc hfc tfc levels i p :
  provider_point efc hfc tfc levels i = Ok p -> is_historical p = false.
Proof.
  intros H. apply provider_point_Ok in H.
  destruct H as (? & ? & ? & ? & _ & _ & _ & _ & _ & _ & _ & H). exact H.
Qed.

(** X1: in every response of the forecast operation the points
    marked historical come first and the forecast points after them, and
    there are at most fifty historical points. *)
Theorem history_precedes_forecast request w resp :
  fst (generate_forecast np read_csv nixtla_client mara_prices request w) = Ok resp ->
  exists historical future,
    forecasts resp = historical ++ future /\
    (forall p, In p historical -> is_historical p = true) /\
    (forall p, In p future -> is_historical p = false) /\
    (List.length historical <= 50)%nat.
Proof.
  intros H. apply run_Ok, generate_forecast_inv in H.
  destruct H as [(client & edf & hdf & tdf & w1 & Hc & H)|(df & w1 & H)].
  - apply provider_split in H.
    destruct H as (edf' & hdf' & tdf' & efc & hfc & tfc & historical & future
                   & Hf & Hhist & Hfut & _).
    exists historical, future. split; [exact Hf|]. split; [|split].
    + intros p Hp. destruct (rmap_In _ _ _ Hhist p Hp) as (i & _ & Hi).
      eapply provider_hist_point_is_historical, Hi.
    + intros p Hp. destruct (rmap_In _ _ _ Hfut p Hp) as (i & _ & Hi).
      eapply provider_point_not_historical, Hi.
    + apply rmap_length in Hhist. rewrite Hhist.
      unfold py_range. rewrite length_map, length_seq. unfold py_min_int.
      destruct (Z.ltb_spec (len edf') 50); lia.
  - pose proof (synthetic_history_length _ _ _ _ _ _ _ H) as Hlen.
    apply synthetic_segments in H.
    destruct H as (le & lh & lt & et & ht & tt & historical & future
                   & Hf & Hfo & Hht & _ & _ & Hfut).
    exists historical, future. rewrite Hht in Hlen.
    split; [exact Hf|]. split; [|split; [|exact Hlen]].
    + intros p Hp. rewrite <- Hht in Hp. unfold historical_tail in Hp.
      apply filter_In in Hp. tauto.
    + intros p Hp. destruct (Hfut p Hp) as (it & u1 & u2 & Hstep).
      eapply forecast_step_not_historical, Hstep.
Qed.

(** X2: a response of the forecast operation is tagged "synthetic" or
    "timegpt-1", the latter only when a client is configured, and it
    repeats the interval of the request. *)
Theorem response_tag request w resp :
  fst (generate_forecast np read_csv nixtla_client mara_prices request w) = Ok resp ->
  (model resp = "synthetic" \/ (model resp = "timegpt-1" /\ nixtla_client <> None)) /\
  interval_minutes resp = ForecastRequest.interval_minutes request.
Proof.
  intros H. apply run_Ok, generate_forecast_inv in H.
  destruct H as [(client & edf & hdf & tdf & w1 & Hc & H)|(df & w1 & H)].
  - apply provider_split in H.
    destruct H as (? & ? & ? & ? & ? & ? & ? & ? & _ & _ & _ & Hm & Hi).
    split; [right; split; [exact Hm|congruence]|exact Hi].
  - apply synthetic_inv in H.
    destruct H as (? & ? & ? & ? & ? & ? & ? & ? & ? & ? & ? & _ & _ & _ & _ & _ & _ & ->).
    simpl. auto.
Qed.

Lemma synthetic_needs_horizon df h iv levels w :
  h <= 0 -> exists e, fst (generate_synthetic_forecast_all_types np df h iv levels w) = Raise e.
Proof.
  intros Hh.
  destruct (generate_synthetic_forecast_all_types np df h iv levels w) as [[resp|e] w'] eqn:E;
    [|simpl; eauto].
  exfalso. pose proof (synthetic_segments np _ _ _ _ _ _ _ E) as Hs.
  apply synthetic_inv in E.
  destruct E as (? & ? & ? & ? & ? & ? & h1 & f1 & emin & ? & ? & _ & _ & _ & _ & Hmin & _ & ->).
  destruct Hs as (? & ? & ? & ? & ? & ? & h2 & f2 & _ & Hfo & _ & Hlen & _).
  simpl in Hfo. rewrite Hfo in Hmin.
  destruct f2; [discriminate Hmin|simpl in Hlen; lia].
Qed.

(** X3: with no client configured and a horizon of zero or less,
    the forecast operation raises: the synthetic forecaster has no value to
    take the minimum of, in the first attempt and in the fallback. *)
Theorem no_forecast_without_horizon request w :
  nixtla_client = None -> ForecastRequest.horizon request <= 0 ->
  exists e,
    fst (generate_forecast np read_csv nixtla_client mara_prices request w) = Raise e.
Proof.
  intros Hnone Hh.
  destruct (generate_forecast np read_csv nixtla_client mara_prices request w)
    as [[resp|e] w'] eqn:E; [|simpl; eauto].
  exfalso. apply generate_forecast_inv in E.
  destruct E as [(client & edf & hdf & tdf & w1 & Hc & H)|(df & w1 & H)]; [congruence|].
  destruct (synthetic_needs_horizon df _ (ForecastRequest.interval_minutes request)
              (ForecastRequest.confidence_levels request) w1 Hh) as (e & He).
  rewrite H in He. discriminate He.
Qed.

(** X4: every forecast point of the synthetic forecaster has an
    energy price of at least 0.01, a hash price of at least 0.1 and a
    token price of at least 0.01. *)
Theorem synthetic_prices_floored df h iv levels w resp p :
  fst (generate_synthetic_forecast_all_types np df h iv levels w) = Ok resp ->
  In p (forecasts resp) -> is_historical p = false ->
  (0.01 <= energy_price p)%Q /\ (0.1 <= hash_price p)%Q /\ (0.01 <= token_price p)%Q.
Proof.
  intros H Hp Hnh. apply run_Ok in H.
  destruct (synthetic_future_point np _ _ _ _ _ _ _ _ H Hp Hnh)
    as (e & h0 & t & ts & He & Hh & Ht & Ee & Eh & Et & _).
  rewrite Ee, Eh, Et. auto.
Qed.

(** ** Levels that were not requested *)

Lemma emitted_fold_synthetic_other e h t levels p q s L :
  In q quantities -> In s sides -> ~ In L levels ->
  emitted q s L (fold_left (synthetic_bounds e h t) levels p) = emitted q s L p.
Proof.
  intros Hq Hs. revert p. induction levels as [|L' levels IH]; cbn [fold_left]; intros p Hn;
    [reflexivity|].
  rewrite IH by (intros Hin; apply Hn; right; exact Hin).
  rewrite emitted_synthetic_bounds by assumption.
  destruct (Z.eqb_spec L L') as [->|Hne]; [|reflexivity].
  exfalso. apply Hn. left. reflexivity.
Qed.

Lemma emitted_fold_provider_other efc hfc tfc i levels p p' q s L :
  fold_left (provider_bounds efc hfc tfc i) levels (Ok p) = Ok p' ->
  In q quantities -> In s sides -> ~ In L levels ->
  emitted q s L p' = emitted q s L p.
Proof.
  intros H Hq Hs. revert p H.
  induction levels as [|L' levels IH]; cbn [fold_left]; intros p H Hn.
  - injection H as <-. reflexivity.
  - destruct (provider_bounds efc hfc tfc i (Ok p) L') as [p1|e] eqn:E.
    + rewrite (IH p1 H) by (intros Hin; apply Hn; right; exact Hin).
      pose proof (provider_bounds_emitted _ _ _ _ _ _ _ q s L E Hq Hs) as Hstep.
      destruct (Z.eqb_spec L L') as [->|Hne]; [|exact Hstep].
      exfalso. apply Hn. left. reflexivity.
    + rewrite provider_bounds_Raise in H. discriminate.
Qed.

Lemma emitted_empty_bounds p L' q s L :
  In q quantities -> In s sides ->
  emitted q s L (empty_bounds p L')
  = if L =? L' then Some None else emitted q s L p.
Proof.
  intros Hq Hs. unfold emitted, empty_bounds, set_bound. simpl bounds.
  rewrite !dict_get_set.
  rewrite !key_eqb by (try assumption; simpl; auto).
  destruct (Z.eqb_spec L L') as [->|Hne].
  - unfold quantities, sides in *. simpl in Hq, Hs.
    repeat match goal with H : _ \/ _ |- _ => destruct H as [<-|H] end;
      try contradiction; reflexivity.
  - rewrite !andb_false_r. reflexivity.
Qed.

Lemma emitted_fold_empty levels p q s L :
  In q quantities -> In s sides ->
  emitted q s L (fold_left empty_bounds levels p)
  = if existsb (Z.eqb L) levels then Some None else emitted q s L p.
Proof.
  intros Hq Hs. revert p. induction levels as [|L' levels IH]; cbn [fold_left existsb];
    intros p; [reflexivity|].
  rewrite IH, emitted_empty_bounds by assumption.
  destruct (L =? L'); simpl; destruct (existsb (Z.eqb L) levels); reflexivity.
Qed.

Lemma existsb_eqb_In L levels : existsb (Z.eqb L) levels = true <-> In L levels.
Proof.
  rewrite existsb_exists. split.
  - intros (x & Hx & E). apply Z.eqb_eq in E. subst. exact Hx.
  - intros H. exists L. split; [exact H|apply Z.eqb_refl].
Qed.

Lemma historical_point_bounds tc ec hc kc row p :
  historical_point np tc ec hc kc row = Ok p -> bounds p = [].
Proof.
  unfold historical_point. intros H.
  repeat (apply rbind_Ok in H; destruct H as (? & _ & H)).
  injection H as <-. reflexivity.
Qed.

Lemma provider_hist_point_Ok edf hdf tdf levels i p :
  provider_hist_point edf hdf tdf levels i = Ok p ->
  exists p0, bounds p0 = [] /\ p = fold_left empty_bounds levels p0.
Proof.
  unfold provider_hist_point. intros H.
  apply rbind_Ok in H. destruct H as (ts & _ & H).
  apply rbind_Ok in H. destruct H as (e & _ & H).
  apply rbind_Ok in H. destruct H as (h & _ & H).
  apply rbind_Ok in H. destruct H as (t & _ & H).
  injection H as <-. eexists. split; [|reflexivity]. reflexivity.
Qed.

(** X5: no point of a response carries a bound for a level that
    the request did not ask for. *)
Theorem no_bounds_for_other_levels request w resp p q s L :
  fst (generate_forecast np read_csv nixtla_client mara_prices request w) = Ok resp ->
  In p (forecasts resp) -> In q quantities -> In s sides ->
  ~ In L (ForecastRequest.confidence_levels request) ->
  emitted q s L p = None.
Proof.
  intros H Hp Hq Hs Hn. apply run_Ok, generate_forecast_inv in H.
  destruct H as [(client & edf & hdf & tdf & w1 & Hc & H)|(df & w1 & H)].
  - apply provider_split in H.
    destruct H as (edf' & hdf' & tdf' & efc & hfc & tfc & historical & future
                   & Hf & Hhist & Hfut & _).
    rewrite Hf in Hp. apply in_app_or in Hp. destruct Hp as [Hp|Hp].
    + destruct (rmap_In _ _ _ Hhist p Hp) as (i & _ & Hi).
      apply provider_hist_point_Ok in Hi. destruct Hi as (p0 & Hb & ->).
      rewrite emitted_fold_empty by assumption.
      destruct (existsb (Z.eqb L) _) eqn:E.
      * apply existsb_eqb_In in E. contradiction.
      * unfold emitted. rewrite Hb. reflexivity.
    + destruct (rmap_In _ _ _ Hfut p Hp) as (i & _ & Hi).
      apply provider_point_Ok in Hi.
      destruct Hi as (ts & e & h & t & _ & _ & _ & Hfold & _).
      rewrite (emitted_fold_provider_other _ _ _ _ _ _ _ q s L Hfold Hq Hs Hn).
      reflexivity.
  - destruct (is_historical p) eqn:Hh.
    + apply synthetic_segments in H.
      destruct H as (le & lh & lt & et & ht & tt & historical & future
                     & Hf & _ & Hht & _ & Hhist & _).
      assert (Hin : In p historical).
      { rewrite <- Hht. unfold historical_tail. apply filter_In. auto. }
      assert (Hb : bounds p = []).
      { destruct (column_names df) as [[[tc ec] hc] kc].
        destruct (forallb _ _).
        - destruct (rmap_In _ _ _ Hhist p Hin) as (row & _ & Hrow).
          eapply historical_point_bounds, Hrow.
        - injection Hhist as <-. destruct Hin. }
      unfold emitted. rewrite Hb. reflexivity.
    + destruct (synthetic_future_point np _ _ _ _ _ _ _ _ H Hp Hh)
        as (e & h0 & t & ts & _ & _ & _ & _ & _ & _ & ->).
      rewrite emitted_fold_synthetic_other by assumption. reflexivity.
Qed.

(** X6: a historical point of a synthetic response carries no
    bound at all; a historical point of a provider response carries, for
    every requested level, quantity and side, the bound [None]. *)
Theorem historical_points_bounds request w resp p :
  fst (generate_forecast np read_csv nixtla_client mara_prices request w) = Ok resp ->
  In p (forecasts resp) -> is_historical p = true ->
  (model resp = "synthetic" /\ bounds p = []) \/
  (model resp = "timegpt-1" /\
   forall q s L, In q quantities -> In s sides ->
     In L (ForecastRequest.confidence_levels request) ->
     emitted q s L p = Some None).
Proof.
  intros H Hp Hh. apply run_Ok, generate_forecast_inv in H.
  destruct H as [(client & edf & hdf & tdf & w1 & Hc & H)|(df & w1 & H)].
  - right. apply provider_split in H.
    destruct H as (edf' & hdf' & tdf' & efc & hfc & tfc & historical & future
                   & Hf & Hhist & Hfut & Hm & _).
    split; [exact Hm|]. intros q s L Hq Hs HL.
    rewrite Hf in Hp. apply in_app_or in Hp. destruct Hp as [Hp|Hp].
    + destruct (rmap_In _ _ _ Hhist p Hp) as (i & _ & Hi).
      apply provider_hist_point_Ok in Hi. destruct Hi as (p0 & Hb & ->).
      rewrite emitted_fold_empty by assumption.
      apply existsb_eqb_In in HL. rewrite HL. reflexivity.
    + destruct (rmap_In _ _ _ Hfut p Hp) as (i & _ & Hi).
      apply provider_point_not_historical in Hi. congruence.
  - left. pose proof (synthetic_segments np _ _ _ _ _ _ _ H) as Hs.
    apply synthetic_inv in H.
    destruct H as (? & ? & ? & ? & ? & ? & h1 & f1 & ? & ? & ? & _ & _ & _ & _ & _ & _ & ->).
    split; [reflexivity|].
    destruct Hs as (le & lh & lt & et & ht & tt & historical & future
                     & Hf & _ & Hht & _ & Hhist & _).
    assert (Hin : In p historical).
    { rewrite <- Hht. unfold historical_tail. apply filter_In. auto. }
    destruct (column_names df) as [[[tc ec] hc] kc].
    destruct (forallb _ _).
    + destruct (rmap_In _ _ _ Hhist p Hin) as (row & _ & Hrow).
      eapply historical_point_bounds, Hrow.
    + injection Hhist as <-. destruct Hin.
Qed.

(** ** Frames in the ds/y shape *)

(** X7: on a frame with neither a [timestamp] nor an
    [energyPrice] column, every historical point of the synthetic response
    repeats its energy price as hash price and as token price: all three
    are read from the column [y]. *)
Theorem ds_y_history_repeats_energy df h iv levels w resp p :
  fst (generate_synthetic_forecast_all_types np df h iv levels w) = Ok resp ->
  has_col "timestamp" df = false -> has_col "energyPrice" df = false ->
  In p (forecasts resp) -> is_historical p = true ->
  hash_price p = energy_price p /\ token_price p = energy_price p.
Proof.
  intros H Hts Hep Hp Hh. apply run_Ok, synthetic_segments in H.
  destruct H as (le & lh & lt & et & ht & tt & historical & future
                 & Hf & _ & Hht & _ & Hhist & _).
  assert (Hin : In p historical).
  { rewrite <- Hht. unfold historical_tail. apply filter_In. auto. }
  unfold column_names in Hhist. rewrite Hts, Hep in Hhist.
  destruct (forallb _ _).
  - destruct (rmap_In _ _ _ Hhist p Hin) as (row & _ & Hrow).
    unfold historical_point in Hrow.
    apply rbind_Ok in Hrow. destruct Hrow as (ts & _ & Hrow).
    apply rbind_Ok in Hrow. destruct Hrow as (ts' & _ & Hrow).
    apply rbind_Ok in Hrow. destruct Hrow as (e & He & Hrow).
    apply rbind_Ok in Hrow. destruct Hrow as (h' & Hh' & Hrow).
    apply rbind_Ok in Hrow. destruct Hrow as (t' & Ht' & Hrow).
    injection Hrow as <-. simpl. split; congruence.
  - injection Hhist as <-. destruct Hin.
Qed.

(** ** The anomaly operation *)

Lemma rmap_Raise {A B : Type} (f : A -> result B) l e :
  rmap f l = Raise e -> exists a, In a l /\ f a = Raise e.
Proof.
  induction l as [|a l IH]; simpl; [discriminate|].
  destruct (f a) as [b|e'] eqn:Ea; simpl.
  - destruct (rmap f l) as [bs|e'] eqn:El; simpl; [discriminate|].
    intros H. injection H as ->. destruct (IH eq_refl) as (a' & Ha & Hf). eauto.
  - intros H. injection H as ->. eauto.
Qed.

Lemma rmap_total {A B : Type} (f : A -> result B) l :
  (forall a, In a l -> exists b, f a = Ok b) -> exists bs, rmap f l = Ok bs.
Proof.
  induction l as [|a l IH]; simpl; intros H; [eauto|].
  destruct (H a (or_introl eq_refl)) as (b & ->).
  destruct IH as (bs & ->); [intros a' Ha'; apply H; right; exact Ha'|].
  simpl. eauto.
Qed.

Lemma Forall2_In_l {A B : Type} (R : A -> B -> Prop) l bs :
  Forall2 R l bs -> forall a, In a l -> exists b, In b bs /\ R a b.
Proof.
  induction 1 as [|a b l bs HR _ IH]; simpl; intros c Hc; [contradiction|].
  destruct Hc as [<-|Hc]; [eauto|].
  destruct (IH c Hc) as (b' & Hb & HR'). eauto.
Qed.

(** X8: the anomaly operation either answers or raises the HTTP
    error 500, and it raises exactly when a timestamp of the request cannot
    be parsed; no failure of the client reaches the caller. *)
Theorem anomaly_fails_only_on_bad_timestamp request :
  ((exists r, detect_anomalies np nixtla_client request = Ok r) \/
   detect_anomalies np nixtla_client request = Raise (HTTPException 500)) /\
  (detect_anomalies np nixtla_client request = Raise (HTTPException 500) <->
   exists item, In item (ForecastRequest.market_data request) /\
                parse_datetime np (MarketDataPoint.timestamp item) = None).
Proof.
  unfold detect_anomalies, anomaly_frame.
  destruct (rmap _ (ForecastRequest.market_data request)) as [df_data|e] eqn:E;
    cbn [rbind].
  - assert (Hgood : ~ exists item,
              In item (ForecastRequest.market_data request) /\
              parse_datetime np (MarketDataPoint.timestamp item) = None).
    { intros (item & Hin & Hp). apply rmap_Forall2 in E.
      destruct (Forall2_In_l _ _ _ E item Hin) as (b & _ & Hb).
      cbn in Hb. rewrite Hp in Hb. discriminate. }
    destruct nixtla_client as [client|].
    + destruct (rbind (client_detect_anomalies client _) _).
      * split; [left; eauto|]. split; [discriminate|]. intros H. contradiction.
      * split; [left; eauto|]. split; [discriminate|]. intros H. contradiction.
    + split; [left; eauto|]. split; [discriminate|]. intros H. contradiction.
  - split; [right; reflexivity|]. split; [|reflexivity].
    intros _. apply rmap_Raise in E. destruct E as (item & Hin & Hf).
    exists item. split; [exact Hin|].
    cbn in Hf. destruct (parse_datetime np _); [discriminate|reflexivity].
Qed.

Lemma anomaly_of_score anomalies_df row a :
  anomaly_of anomalies_df row = Ok a -> anomaly_score a = 1.0%Q.
Proof.
  unfold anomaly_of. intros H.
  apply rbind_Ok in H. destruct H as (ts & _ & H).
  apply rbind_Ok in H. destruct H as (v & _ & H).
  injection H as <-. reflexivity.
Qed.

(** X9: in an answer of the anomaly operation the count is the
    number of anomalies listed, every score is 1, and the rate is the count
    over the number of points of the request (0 for an empty request). *)
Theorem anomaly_response_is_consistent request r :
  detect_anomalies np nixtla_client request = Ok r ->
  total_anomalies r = Z.of_nat (List.length (anomalies r)) /\
  (forall a, In a (anomalies r) -> anomaly_score a = 1.0%Q) /\
  (anomaly_rate r ==
   match ForecastRequest.market_data request with
   | [] => 0
   | _ => inject_Z (total_anomalies r)
          / inject_Z (Z.of_nat (List.length (ForecastRequest.market_data request)))
   end)%Q.
Proof.
  unfold detect_anomalies.
  destruct (anomaly_frame np request) as [df|e] eqn:Edf; cbn [rbind]; [|discriminate].
  assert (Hlen : len df = Z.of_nat (List.length (ForecastRequest.market_data request))).
  { unfold anomaly_frame in Edf. apply rbind_Ok in Edf.
    destruct Edf as (df_data & Hd & Edf). injection Edf as <-.
    apply rmap_length in Hd. unfold len, pd_DataFrame. cbn [rows]. f_equal. exact Hd. }
  assert (Hnone : total_anomalies no_anomalies
                  = Z.of_nat (List.length (anomalies no_anomalies)) /\
                  (forall a, In a (anomalies no_anomalies) -> anomaly_score a = 1.0%Q) /\
                  (anomaly_rate no_anomalies ==
                   match ForecastRequest.market_data request with
                   | [] => 0
                   | _ => inject_Z (total_anomalies no_anomalies)
                          / inject_Z (Z.of_nat (List.length
                                                  (ForecastRequest.market_data request)))
                   end)%Q).
  { split; [reflexivity|]. split; [intros a []|]. simpl.
    destruct (ForecastRequest.market_data request); [reflexivity|].
    unfold Qdiv. rewrite Qmult_0_l. reflexivity. }
  destruct nixtla_client as [client|]; [|intros H; injection H as <-; exact Hnone].
  destruct (client_detect_anomalies client df) as [adf|e] eqn:Ec; cbn [rbind];
    [|intros H; injection H as <-; exact Hnone].
  destruct (rmap (anomaly_of adf) _) as [found|e] eqn:Ef; cbn [rbind];
    [|intros H; injection H as <-; exact Hnone].
  intros H. injection H as <-. cbn [total_anomalies anomalies anomaly_rate].
  split; [reflexivity|]. split.
  - intros a Ha. destruct (rmap_In _ _ _ Ef a Ha) as (row & _ & Hrow).
    eapply anomaly_of_score, Hrow.
  - rewrite Hlen. destruct (ForecastRequest.market_data request) as [|item md].
    + reflexivity.
    + replace (0 <? Z.of_nat (List.length (item :: md))) with true; [reflexivity|].
      symmetry. apply Z.ltb_lt. simpl. lia.
Qed.

(** ** The arbitrage heuristic *)

Lemma Qlt_bool_true x y : Qlt_bool x y = true -> (x < y)%Q.
Proof.
  unfold Qlt_bool. intros H. apply negb_true_iff in H.
  apply Qnot_le_lt. intros Hle. apply Qle_bool_iff in Hle. congruence.
Qed.

Lemma filter_disjoint_length {A : Type} (f g : A -> bool) l :
  (forall a, f a = true -> g a = false) ->
  (List.length (filter f l) + List.length (filter g l) <= List.length l)%nat.
Proof.
  intros H. induction l as [|a l IH]; simpl; [lia|].
  destruct (f a) eqn:Ef.
  - rewrite (H a Ef). simpl. lia.
  - destruct (g a); simpl; lia.
Qed.

(** X10: when the square root is not negative, the arbitrage count
    lies between 0 and the number of values: no value is counted both as
    high and as low. *)
Theorem arbitrage_count_bounded values :
  (forall x, (0 <= sqrt np x)%Q) ->
  0 <= detect_arbitrage_opportunities np values <= Z.of_nat (List.length values).
Proof.
  intros Hsqrt. unfold detect_arbitrage_opportunities.
  destruct (Z.of_nat (List.length values) <? 2); [lia|].
  rewrite !count_if_filter.
  pose proof (filter_disjoint_length
                (fun p => Qlt_bool (mean_of values + 1.5 * std_of np values) p)
                (fun p => Qlt_bool p (mean_of values - 1.5 * std_of np values))
                values) as Hd.
  cbv beta in Hd. 
  assert (Hdis : forall a,
            Qlt_bool (mean_of values + 1.5 * std_of np values) a = true ->
            Qlt_bool a (mean_of values - 1.5 * std_of np values) = false).
  { intros a Ha. apply Qlt_bool_true in Ha.
    destruct (Qlt_bool a _) eqn:Eb; [|reflexivity].
    apply Qlt_bool_true in Eb. exfalso.
    pose proof (Hsqrt (mean_of (map (fun x => (x - mean_of values) * (x - mean_of values))%Q
                                    values))) as Hs.
    fold (std_of np values) in Hs. lra. }
  specialize (Hd Hdis). lia.
Qed.

(** ** The timestamps of the forecast *)

Lemma mapM_Forall2 {A B : Type} (f : A -> M np B) l w bs w' :
  mapM f l w = (Ok bs, w') ->
  Forall2 (fun a b => exists w1 w2, f a w1 = (Ok b, w2)) l bs.
Proof.
  revert w bs w'. induction l as [|a l IH]; simpl; intros w bs w' H.
  - apply ret_Ok in H. destruct H as [-> _]. constructor.
  - apply bind_Ok in H. destruct H as (b & w1 & Hb & H).
    apply bind_Ok in H. destruct H as (bs' & w2 & Hbs & H).
    apply ret_Ok in H. destruct H as [-> _].
    constructor; [eauto|]. eapply IH, Hbs.
Qed.

Lemma synthetic_bounds_timestamp e h t levels p :
  timestamp (fold_left (synthetic_bounds e h t) levels p) = timestamp p.
Proof.
  revert p. induction levels as [|L levels IH]; cbn [fold_left]; intros p; [reflexivity|].
  rewrite IH. reflexivity.
Qed.

Lemma forecast_step_timestamp le lh lt et ht tt levels it w p w' :
  forecast_step np le lh lt et ht tt levels it w = (Ok p, w') ->
  timestamp p = snd it.
Proof.
  intros H. apply forecast_step_Ok in H.
  destruct H as (e & h & t & _ & _ & _ & ->).
  apply synthetic_bounds_timestamp.
Qed.

Lemma enumerate_snd {A : Type} (l : list A) : map snd (enumerate l) = l.
Proof.
  unfold enumerate. generalize 0%nat.
  induction l as [|a l IH]; intros n; simpl; [reflexivity|]. rewrite IH. reflexivity.
Qed.

Lemma Forall2_map_eq {A B C : Type} (f : A -> C) (g : B -> C) l bs :
  Forall2 (fun a b => g b = f a) l bs -> map g bs = map f l.
Proof.
  induction 1; simpl; congruence.
Qed.

(** X11: the forecast points of the synthetic forecaster are one
    interval apart, the first one interval after the last timestamp of the
    frame, or after the current time when the frame has no time column. *)
Theorem forecast_timestamps_follow_grid df h iv levels w resp :
  fst (generate_synthetic_forecast_all_types np df h iv levels w) = Ok resp ->
  exists d,
    (if has_col (fst (fst (fst (column_names df)))) df
     then last_timestamp np (fst (fst (fst (column_names df)))) df = Ok (Some d)
     else d = w_clock np w (w_tick np w)) /\
    map timestamp (forecast_only (forecasts resp))
    = map (fun i => d + iv * 60 + Z.of_nat i * (iv * 60)) (seq 0 (Z.to_nat h)).
Proof.
  intros H. apply run_Ok in H.
  pose proof (synthetic_segments np _ _ _ _ _ _ _ H) as Hseg.
  destruct Hseg as (le0 & lh0 & lt0 & et0 & ht0 & tt0 & hist0 & fut0 & Hf0 & Hfo & _).
  revert H. unfold generate_synthetic_forecast_all_types.
  destruct (column_names df) as [[[tc ec] hc] kc]. cbn [fst]. intros H.
  apply bind_Ok in H. destruct H as (last_date & w1 & Hld & H).
  apply bind_Ok in H. destruct H as (le & w2 & _ & H).
  apply bind_Ok in H. destruct H as (lh & w3 & _ & H).
  apply bind_Ok in H. destruct H as (lt & w4 & _ & H).
  apply bind_Ok in H. destruct H as (et & w5 & _ & H).
  apply bind_Ok in H. destruct H as (ht & w6 & _ & H).
  apply bind_Ok in H. destruct H as (tt & w7 & _ & H).
  apply bind_Ok in H. destruct H as (historical & w8 & Hhist & H).
  apply bind_Ok in H. destruct H as (dates & w9 & Hdates & H).
  apply bind_Ok in H. destruct H as (future & w10 & Hfut & H).
  apply bind_Ok in H. destruct H as (emin & w11 & _ & H).
  apply bind_Ok in H. destruct H as (emax & w12 & _ & H).
  apply bind_Ok in H. destruct H as (now & w13 & _ & H).
  apply ret_Ok in H. destruct H as [E _].
  apply lift_Ok in Hdates. destruct Hdates as [Hdates _].
  destruct last_date as [d|]; [|discriminate].
  exists d. split.
  - destruct (has_col tc df).
    + apply lift_Ok in Hld. tauto.
    + apply bind_Ok in Hld. destruct Hld as (n0 & u & Hn & Hr).
      apply ret_Ok in Hr. destruct Hr as [Hr _]. injection Hr as ->.
      unfold datetime_now in Hn. injection Hn as <- _. reflexivity.
  - assert (Hfuture : forecast_only (forecasts resp) = future).
    { apply lift_Ok in Hhist. destruct Hhist as [Hhist _].
      rewrite E. cbn [forecasts]. unfold forecast_only. rewrite filter_app.
      rewrite (filter_none _ historical), (filter_all _ future); [reflexivity| |].
      - intros p Hp. apply mapM_Ok in Hfut. destruct Hfut as [_ Hin].
        destruct (Hin p Hp) as (it & u1 & u2 & _ & Hstep).
        apply forecast_step_not_historical in Hstep. rewrite Hstep. reflexivity.
      - intros p Hp.
        assert (Hh : is_historical p = true).
        { destruct (forallb _ _).
          - destruct (rmap_In _ _ _ Hhist p Hp) as (row & _ & Hrow).
            eapply historical_point_is_historical, Hrow.
          - injection Hhist as <-. destruct Hp. }
        rewrite Hh. reflexivity. }
    rewrite Hfuture. apply mapM_Forall2 in Hfut.
    assert (Hts : map timestamp future = map snd (enumerate dates)).
    { apply Forall2_map_eq. eapply Forall2_impl; [|exact Hfut]. cbv beta.
      intros it p (u1 & u2 & Hstep). eapply forecast_step_timestamp, Hstep. }
    rewrite Hts, enumerate_snd.
    unfold pd_date_range_periods in Hdates.
    destruct (h <? 0); [discriminate|]. destruct (iv =? 0); [discriminate|].
    injection Hdates as <-. reflexivity.
Qed.

(** ** The three series of the orchestrator *)

Lemma keep_last_incl c rs r : In r (keep_last c rs) -> In r rs.
Proof.
  induction rs as [|r0 rs IH]; simpl; [tauto|].
  destruct (existsb _ rs); simpl; intros H; [right; auto|].
  destruct H as [H|H]; [left; exact H|right; auto].
Qed.

Lemma keep_last_unique c rs :
  ForallOrdPairs (fun x y => cell_eqb x y = false)
                 (map (row_get c) (keep_last c rs)).
Proof.
  induction rs as [|r rs IH]; simpl; [constructor|].
  destruct (existsb _ rs) eqn:E; [exact IH|].
  simpl. constructor; [|exact IH].
  apply Forall_forall. intros y Hy. apply in_map_iff in Hy.
  destruct Hy as (r' & <- & Hr'). apply keep_last_incl in Hr'.
  destruct (cell_eqb (row_get c r) (row_get c r')) eqn:Eb; [|reflexivity].
  assert (Hex : existsb (fun r' => cell_eqb (row_get c r) (row_get c r')) rs = true).
  { apply existsb_exists. exists r'. auto. }
  congruence.
Qed.

Lemma keep_last_ext c rs1 rs2 :
  map (row_get c) rs1 = map (row_get c) rs2 ->
  map (row_get c) (keep_last c rs1) = map (row_get c) (keep_last c rs2).
Proof.
  revert rs2. induction rs1 as [|r1 rs1 IH]; intros [|r2 rs2] H; simpl in H;
    try discriminate; [reflexivity|].
  injection H as Hr Hrs. cbn [keep_last].
  assert (Hex : existsb (fun r' => cell_eqb (row_get c r1) (row_get c r')) rs1
                = existsb (fun r' => cell_eqb (row_get c r2) (row_get c r')) rs2).
  { rewrite Hr.
    transitivity (existsb (cell_eqb (row_get c r2)) (map (row_get c) rs1)).
    - clear. induction rs1 as [|a l IHl]; simpl; [reflexivity|]. rewrite IHl. reflexivity.
    - rewrite Hrs. clear. induction rs2 as [|a l IHl]; simpl; [reflexivity|].
      rewrite IHl. reflexivity. }
  rewrite Hex. destruct (existsb _ rs2); simpl; [auto|].
  rewrite Hr. f_equal. auto.
Qed.

Lemma ds_of_series field hd :
  map (row_get "ds") (map (ds_y field) hd) = map (row_get "timestamp") hd.
Proof.
  rewrite map_map. reflexivity.
Qed.

Lemma ds_of_prepend field additional data :
  map (row_get "ds") (prepend_all field additional data)
  = rev (map (row_get "timestamp") additional) ++ map (row_get "ds") data.
Proof.
  unfold prepend_all. revert data.
  induction additional as [|p additional IH]; intros data; simpl; [reflexivity|].
  rewrite IH. simpl. rewrite <- app_assoc. reflexivity.
Qed.

Lemma unique_frame_rows data df :
  unique_frame data = Ok df -> rows df = keep_last "ds" data.
Proof.
  unfold unique_frame, drop_duplicates.
  destruct (has_col "ds" _); [|discriminate].
  intros H. injection H as <-. reflexivity.
Qed.

(** X12: the three series prepared by the forecast operation have
    the same timestamps row by row, and no timestamp occurs twice. *)
Theorem series_share_unique_timestamps historical_data iv w e h t :
  fst (prepare_series np read_csv historical_data iv w) = Ok (e, h, t) ->
  map (row_get "ds") (rows h) = map (row_get "ds") (rows e) /\
  map (row_get "ds") (rows t) = map (row_get "ds") (rows e) /\
  ForallOrdPairs (fun x y => cell_eqb x y = false) (map (row_get "ds") (rows e)).
Proof.
  intros H. apply run_Ok in H. revert H. unfold prepare_series. intros H.
  apply bind_Ok in H. destruct H as (e0 & w1 & He0 & H).
  apply bind_Ok in H. destruct H as (h0 & w2 & Hh0 & H).
  apply bind_Ok in H. destruct H as (t0 & w3 & Ht0 & H).
  apply lift_Ok in He0, Hh0, Ht0.
  destruct He0 as [He0 _], Hh0 as [Hh0 _], Ht0 as [Ht0 _].
  destruct (len e0 <? 100).
  - apply bind_Ok in H. destruct H as (per_day & w4 & _ & H).
    apply bind_Ok in H. destruct H as (q & w5 & _ & H).
    apply bind_Ok in H. destruct H as (additional & w6 & _ & H).
    apply bind_Ok in H. destruct H as (e1 & w7 & He1 & H).
    apply bind_Ok in H. destruct H as (h1 & w8 & Hh1 & H).
    apply bind_Ok in H. destruct H as (t1 & w9 & Ht1 & H).
    apply ret_Ok in H. destruct H as [H _]. injection H as <- <- <-.
    apply lift_Ok in He1, Hh1, Ht1.
    destruct He1 as [He1 _], Hh1 as [Hh1 _], Ht1 as [Ht1 _].
    apply unique_frame_rows in He1, Hh1, Ht1. rewrite He1, Hh1, Ht1.
    split; [|split; [|apply keep_last_unique]];
      apply keep_last_ext; rewrite !ds_of_prepend, !ds_of_series; reflexivity.
  - apply ret_Ok in H. destruct H as [H _]. injection H as <- <- <-.
    apply unique_frame_rows in He0, Hh0, Ht0. rewrite He0, Hh0, Ht0.
    split; [|split; [|apply keep_last_unique]];
      apply keep_last_ext; rewrite !ds_of_series; reflexivity.
Qed.

(** ** Reading the market-data file *)

Lemma time_le_total x y : time_le x y = false -> time_le y x = true.
Proof.
  destruct x, y; simpl; try discriminate; try reflexivity.
  intros H. apply Z.leb_gt in H. apply Z.leb_le. lia.
Qed.

Lemma time_le_trans x y z :
  time_le x y = true -> time_le y z = true -> time_le x z = true.
Proof.
  destruct x, y, z; simpl; try discriminate; try reflexivity.
  intros H1 H2. apply Z.leb_le in H1, H2. apply Z.leb_le. lia.
Qed.

Lemma insert_sorted_In c r rs x :
  In x (insert_sorted c r rs) -> x = r \/ In x rs.
Proof.
  induction rs as [|r' rs IH]; simpl; [intuition auto|].
  destruct (time_le _ _); simpl; [|intuition auto].
  intros [H|H]; [auto|]. destruct (IH H); auto.
Qed.

Lemma insert_sorted_sorted c r rs :
  StronglySorted (fun r1 r2 => time_le (row_get c r1) (row_get c r2) = true) rs ->
  StronglySorted (fun r1 r2 => time_le (row_get c r1) (row_get c r2) = true)
                 (insert_sorted c r rs).
Proof.
  induction 1 as [|r' rs Hs IH Hall]; simpl; [repeat constructor|].
  destruct (time_le (row_get c r') (row_get c r)) eqn:E.
  - constructor; [exact IH|]. apply Forall_forall. intros x Hx.
    apply insert_sorted_In in Hx. destruct Hx as [->|Hx]; [exact E|].
    rewrite Forall_forall in Hall. auto.
  - apply time_le_total in E. constructor; [constructor; assumption|].
    constructor; [exact E|]. rewrite Forall_forall in *. intros x Hx.
    eapply time_le_trans; [exact E|auto].
Qed.

Lemma sort_values_sorted c df :
  StronglySorted (fun r1 r2 => time_le (row_get c r1) (row_get c r2) = true)
                 (rows (sort_values c df)).
Proof.
  unfold sort_values. cbn [rows].
  assert (H : forall rs acc,
            StronglySorted (fun r1 r2 => time_le (row_get c r1) (row_get c r2) = true) acc ->
            StronglySorted (fun r1 r2 => time_le (row_get c r1) (row_get c r2) = true)
                           (fold_left (fun acc r => insert_sorted c r acc) rs acc)).
  { induction rs as [|r rs IH]; simpl; intros acc Hacc; [exact Hacc|].
    apply IH, insert_sorted_sorted, Hacc. }
  apply H. constructor.
Qed.

Lemma StronglySorted_filter {A : Type} (R : A -> A -> Prop) (f : A -> bool) l :
  StronglySorted R l -> StronglySorted R (filter f l).
Proof.
  induction 1 as [|a l Hs IH Hall]; simpl; [constructor|].
  destruct (f a); [|exact IH]. constructor; [exact IH|].
  rewrite Forall_forall in *. intros x Hx. apply filter_In in Hx. apply Hall. tauto.
Qed.

Lemma StronglySorted_Forall2 {A B : Type} (R : A -> A -> Prop) (S : B -> B -> Prop)
    (T : A -> B -> Prop) l l' :
  (forall a1 a2 b1 b2, T a1 b1 -> T a2 b2 -> R a1 a2 -> S b1 b2) ->
  Forall2 T l l' -> StronglySorted R l -> StronglySorted S l'.
Proof.
  intros HT H. induction H as [|a b l l' Hab Hl IH]; intros Hs; [constructor|].
  inversion Hs as [|? ? Hs' Hall]; subst. constructor; [auto|].
  rewrite Forall_forall in *. intros b' Hb'.
  destruct (Forall2_In_r _ _ _ Hl b' Hb') as (a' & Ha' & Hab').
  eapply HT; eauto.
Qed.

Lemma Forall2_and_Forall_l {A B : Type} (T : A -> B -> Prop) (P : A -> Prop) l l' :
  Forall2 T l l' -> Forall P l -> Forall2 (fun a b => P a /\ T a b) l l'.
Proof.
  induction 1; intros Hall; constructor; inversion Hall; subst; auto.
Qed.

Lemma csv_data_point_Ok df r p lo hi :
  in_window lo hi r = true -> csv_data_point np df r = Ok p ->
  exists t e h k,
    p = data_point t e h k /\ row_get "timestamp" r = Time t /\ lo <= t <= hi.
Proof.
  unfold in_window, csv_data_point, row_field. intros Hw H.
  destruct (row_get "timestamp" r) as [|t| |] eqn:Ets; try discriminate.
  destruct (has_col "timestamp" df); [|discriminate]. cbn in H.
  apply rbind_Ok in H. destruct H as (e & _ & H).
  apply rbind_Ok in H. destruct H as (h & _ & H).
  apply rbind_Ok in H. destruct H as (k & _ & H).
  injection H as <-. exists t, e, h, k.
  apply andb_true_iff in Hw. destruct Hw as [H1 H2].
  apply Z.leb_le in H1, H2. auto.
Qed.

(** X13: the points read from the market-data file all lie in the
    window of the requested days that ends at the current time, each has
    the four fields, and they are in ascending order of time. *)
Theorem market_data_in_window_sorted days w pts :
  fst (read_market_data np read_csv days w) = Ok pts ->
  (forall p, In p pts ->
     exists t e h k,
       p = data_point t e h k /\
       w_clock np w (w_tick np w) - days * 86400 <= t <= w_clock np w (w_tick np w)) /\
  StronglySorted
    (fun p1 p2 => time_le (row_get "timestamp" p1) (row_get "timestamp" p2) = true) pts.
Proof.
  intros H. apply run_Ok in H. revert H. unfold read_market_data. intros H.
  apply bind_Ok in H. destruct H as (df0 & w1 & H0 & H).
  apply bind_Ok in H. destruct H as (df1 & w2 & H1 & H).
  apply bind_Ok in H. destruct H as (end_date & w3 & Hnow & H).
  apply lift_Ok in H0, H1, H. destruct H0 as [_ ->], H1 as [_ ->], H as [H _].
  unfold datetime_now in Hnow. injection Hnow as <- _.
  cbn [rows columns] in H. apply rmap_Forall2 in H.
  set (now := w_clock np w (w_tick np w)) in *.
  split.
  - intros p Hp. destruct (Forall2_In_r _ _ _ H p Hp) as (r & Hr & Hrp).
    apply filter_In in Hr. destruct Hr as [_ Hw].
    destruct (csv_data_point_Ok _ _ _ _ _ Hw Hrp) as (t & e & h & k & -> & _ & Ht).
    exists t, e, h, k. auto.
  - assert (Hall : Forall (fun r => in_window (now - days * 86400) now r = true)
                          (filter (in_window (now - days * 86400) now)
                                  (rows (sort_values "timestamp" df1)))).
    { apply Forall_forall. intros r Hr. apply filter_In in Hr. tauto. }
    pose proof (Forall2_and_Forall_l _ _ _ _ H Hall) as H'.
    eapply StronglySorted_Forall2
      with (R := fun r1 r2 => time_le (row_get "timestamp" r1)
                                      (row_get "timestamp" r2) = true);
      [|exact H'|].
    + cbv beta. intros r1 r2 p1 p2 [Hw1 Hp1] [Hw2 Hp2] Hle.
      destruct (csv_data_point_Ok _ _ _ _ _ Hw1 Hp1) as (t1 & ? & ? & ? & -> & E1 & _).
      destruct (csv_data_point_Ok _ _ _ _ _ Hw2 Hp2) as (t2 & ? & ? & ? & -> & E2 & _).
      rewrite E1, E2 in Hle. exact Hle.
    + apply StronglySorted_filter, sort_values_sorted.
Qed.

(** ** The synthetic historical data *)

Lemma zipWith_length {A B C : Type} (f : A -> B -> C) l1 l2 :
  List.length (zipWith f l1 l2) = Nat.min (List.length l1) (List.length l2).
Proof.
  revert l2. induction l1 as [|a l1 IH]; intros [|b l2]; simpl; auto.
Qed.

Lemma list_update_length {A : Type} i (f : A -> A) l :
  List.length (list_update i f l) = List.length l.
Proof.
  revert i. induction l as [|a l IH]; intros [|i]; simpl; auto.
Qed.

Lemma foldM_invariant {A B : Type} (P : A -> Prop) (f : A -> B -> M np A) l :
  (forall a b w a' w', P a -> f a b w = (Ok a', w') -> P a') ->
  forall a w a' w', P a -> foldM f l a w = (Ok a', w') -> P a'.
Proof.
  intros Hf. induction l as [|b l IH]; simpl; intros a w a' w' Ha H.
  - apply ret_Ok in H. destruct H as [-> _]. exact Ha.
  - apply bind_Ok in H. destruct H as (a1 & w1 & H1 & H).
    eapply IH; [|exact H]. eapply Hf; eauto.
Qed.

Lemma shock_step_lengths n shock idx m prices i w prices' w' :
  three_lengths n prices ->
  shock_step np shock idx m prices i w = (Ok prices', w') ->
  three_lengths n prices'.
Proof.
  unfold shock_step. destruct prices as [[e h] t]. intros (He & Hh & Ht) H.
  cbn [fst snd] in *. destruct (idx + i <? m).
  - apply bind_Ok in H. destruct H as (r1 & w1 & _ & H).
    apply bind_Ok in H. destruct H as (r2 & w2 & _ & H).
    apply bind_Ok in H. destruct H as (r3 & w3 & _ & H).
    apply ret_Ok in H. destruct H as [-> _].
    unfold three_lengths. cbn [fst snd]. rewrite !list_update_length. auto.
  - apply ret_Ok in H. destruct H as [-> _]. unfold three_lengths. auto.
Qed.

Lemma market_event_lengths n m prices et w prices' w' :
  three_lengths n prices ->
  market_event np m prices et w = (Ok prices', w') ->
  three_lengths n prices'.
Proof.
  unfold market_event. intros HP H. destruct (_ <? m - 20).
  - apply bind_Ok in H. destruct H as (shock & w1 & _ & H).
    eapply foldM_invariant; [|exact HP|exact H].
    intros a b u a' u' Ha Hs. eapply shock_step_lengths; eauto.
  - apply ret_Ok in H. destruct H as [-> _]. exact HP.
Qed.

Lemma draws_length n sampler w xs w' :
  draws np n sampler w = (Ok xs, w') -> List.length xs = n.
Proof.
  unfold draws. intros H. apply mapM_Ok in H. destruct H as [H _].
  rewrite H. apply length_seq.
Qed.

Lemma data_points_length dates e h t :
  List.length e = List.length dates -> List.length h = List.length dates ->
  List.length t = List.length dates ->
  List.length (data_points dates e h t) = List.length dates /\
  map (row_get "timestamp") (data_points dates e h t) = map Time dates.
Proof.
  revert e h t. induction dates as [|d dates IH]; intros [|x e] [|y h] [|z t];
    simpl; intros He Hh Ht; try discriminate; [auto|].
  destruct (IH e h t) as [Hl Hm]; try lia.
  split; [lia|]. rewrite Hm. reflexivity.
Qed.

Lemma data_points_In dates e h t p :
  In p (data_points dates e h t) ->
  exists d x y z, p = data_point d x y z /\ In x e /\ In y h /\ In z t.
Proof.
  revert e h t. induction dates as [|d dates IH]; intros [|x e] [|y h] [|z t];
    simpl; try contradiction.
  intros [<-|Hp].
  - exists d, x, y, z. auto.
  - destruct (IH _ _ _ Hp) as (d' & x' & y' & z' & -> & Hx & Hy & Hz).
    exists d', x', y', z'. auto.
Qed.

Lemma py_max_floor x a : (a <= py_max x a)%Q.
Proof.
  unfold py_max. destruct (Qlt_bool x a) eqn:E; [apply Qle_refl|].
  unfold Qlt_bool in E. apply negb_false_iff, Qle_bool_iff in E. exact E.
Qed.

Lemma firstn_seq_min n a m : firstn n (seq a m) = seq a (Nat.min n m).
Proof.
  revert a m. induction n as [|n IH]; intros a [|m]; simpl; try reflexivity.
  rewrite IH. reflexivity.
Qed.

Lemma fallback_inv days iv w pts w' :
  generate_synthetic_data_fallback np days iv w = (Ok pts, w') ->
  exists ipd all_dates e h t,
    py_floordiv (24 * 60) iv = Ok ipd /\
    pd_date_range (w_clock np w (w_tick np w) - days * 86400)
                  (w_clock np w (w_tick np w)) iv = Ok all_dates /\
    three_lengths (List.length (py_slice_to (days * ipd) all_dates)) (e, h, t) /\
    pts = data_points (py_slice_to (days * ipd) all_dates)
                      (map (fun x => py_max x 0.1%Q) e)
                      (map (fun x => py_max x 0.1%Q) h)
                      (map (fun x => py_max x 0.1%Q) t).
Proof.
  unfold generate_synthetic_data_fallback. intros H.
  apply bind_Ok in H. destruct H as (ipd & w1 & Hipd & H).
  apply bind_Ok in H. destruct H as (end_date & w2 & Hnow & H).
  apply bind_Ok in H. destruct H as (all_dates & w3 & Hdates & H).
  apply bind_Ok in H. destruct H as (u & w4 & _ & H).
  apply bind_Ok in H. destruct H as (ev & w5 & Hev & H).
  apply bind_Ok in H. destruct H as (sd & w6 & Hsd & H).
  apply bind_Ok in H. destruct H as (ea & w7 & Hea & H).
  apply bind_Ok in H. destruct H as (hv & w8 & Hhv & H).
  apply bind_Ok in H. destruct H as (ha & w9 & Hha & H).
  apply bind_Ok in H. destruct H as (tv & w10 & Htv & H).
  apply bind_Ok in H. destruct H as (jd & w11 & Hjd & H).
  apply bind_Ok in H. destruct H as (ja & w12 & Hja & H).
  apply bind_Ok in H. destruct H as ([[e h] t] & w13 & Hfold & H).
  apply ret_Ok in H. destruct H as [-> _].
  apply lift_Ok in Hipd, Hdates. destruct Hipd as [Hipd ->], Hdates as [Hdates _].
  unfold datetime_now in Hnow. injection Hnow as <- _.
  apply draws_length in Hev, Hsd, Hea, Hhv, Hha, Htv, Hjd, Hja.
  exists ipd, all_dates, e, h, t. split; [exact Hipd|]. split; [exact Hdates|].
  split; [|reflexivity].
  eapply foldM_invariant; [| |exact Hfold].
  - intros a b u1 a' u2 Ha Hs. eapply market_event_lengths; eauto.
  - unfold three_lengths, np_arange. cbn [fst snd].
    repeat (progress (rewrite ?zipWith_length, ?length_map, ?length_seq)).
    rewrite Hev, Hsd, Hea, Hhv, Hha, Htv, Hjd, Hja. lia.
Qed.

(** X14: every point of the synthetic history has the four fields
    and its three prices are at least 0.1. *)
Theorem synthetic_history_is_floored days iv w pts p :
  fst (generate_synthetic_data_fallback np days iv w) = Ok pts -> In p pts ->
  exists ts e h t,
    p = data_point ts e h t /\ (0.1 <= e)%Q /\ (0.1 <= h)%Q /\ (0.1 <= t)%Q.
Proof.
  intros H Hp. apply run_Ok, fallback_inv in H.
  destruct H as (ipd & all_dates & e & h & t & _ & _ & _ & ->).
  apply data_points_In in Hp. destruct Hp as (d & x & y & z & -> & Hx & Hy & Hz).
  exists d, x, y, z. split; [reflexivity|].
  apply in_map_iff in Hx, Hy, Hz.
  destruct Hx as (? & <- & _), Hy as (? & <- & _), Hz as (? & <- & _).
  repeat split; apply py_max_floor.
Qed.

(** X15: for a number of days that is not negative and a positive
    interval, the synthetic history starts that many days before the
    current time, its points are one interval apart, and their number is
    the smaller of [days * (1440 // interval)] and the number of grid
    points up to the current time. *)
Theorem synthetic_history_follows_grid days iv w pts :
  0 <= days -> 0 < iv ->
  fst (generate_synthetic_data_fallback np days iv w) = Ok pts ->
  List.length pts
  = Nat.min (Z.to_nat (days * (1440 / iv))) (Z.to_nat (days * 86400 / (iv * 60)) + 1) /\
  map (row_get "timestamp") pts
  = map (fun i => Time (w_clock np w (w_tick np w) - days * 86400
                        + Z.of_nat i * (iv * 60)))
        (seq 0 (List.length pts)).
Proof.
  intros Hdays Hiv H. apply run_Ok, fallback_inv in H.
  destruct H as (ipd & all_dates & e & h & t & Hipd & Hdates & (He & Hh & Ht) & ->).
  cbn [fst snd] in He, Hh, Ht.
  destruct (data_points_length (py_slice_to (days * ipd) all_dates)
              (map (fun x => py_max x 0.1%Q) e) (map (fun x => py_max x 0.1%Q) h)
              (map (fun x => py_max x 0.1%Q) t)) as [Hlen Hts];
    try (rewrite length_map; assumption).
  unfold py_floordiv in Hipd. destruct (Z.eqb_spec iv 0) as [|_]; [lia|].
  injection Hipd as <-. change (24 * 60) with 1440 in *.
  unfold pd_date_range in Hdates. destruct (Z.eqb_spec iv 0) as [|_]; [lia|].
  destruct (Z.ltb_spec iv 0) as [|_]; [lia|].
  destruct (Z.ltb_spec (w_clock np w (w_tick np w))
                       (w_clock np w (w_tick np w) - days * 86400)) as [|_]; [lia|].
  injection Hdates as <-.
  replace (w_clock np w (w_tick np w) - (w_clock np w (w_tick np w) - days * 86400))
    with (days * 86400) in * by lia.
  assert (Htot : 0 <= days * (1440 / iv)).
  { apply Z.mul_nonneg_nonneg; [lia|]. apply Z.div_pos; lia. }
  unfold py_slice_to in *.
  destruct (Z.leb_spec 0 (days * (1440 / iv))) as [_|]; [|lia].
  rewrite firstn_map, firstn_seq_min in *. rewrite length_map, length_seq in Hlen.
  rewrite Hlen, Hts. split; [reflexivity|]. rewrite map_map. reflexivity.
Qed.

(** ** Either source gives complete points *)

Lemma read_market_data_shape days w pts w' p :
  read_market_data np read_csv days w = (Ok pts, w') -> In p pts ->
  exists ts e h t, p = data_point ts e h t.
Proof.
  unfold read_market_data. intros H Hp.
  apply bind_Ok in H. destruct H as (df0 & w1 & _ & H).
  apply bind_Ok in H. destruct H as (df1 & w2 & _ & H).
  apply bind_Ok in H. destruct H as (end_date & w3 & _ & H).
  apply lift_Ok in H. destruct H as [H _]. cbn [rows columns] in H.
  destruct (rmap_In _ _ _ H p Hp) as (r & Hr & Hrp).
  apply filter_In in Hr. destruct Hr as [_ Hw].
  destruct (csv_data_point_Ok _ _ _ _ _ Hw Hrp) as (t & e & h & k & -> & _).
  eauto.
Qed.

(** X17: whether the points come from the file or from the
    synthetic history, every one of them has exactly the fields
    [timestamp], [energy_price], [hash_price] and [token_price]. *)
Theorem market_data_points_are_complete days iv w pts p :
  fst (generate_energy_market_data np read_csv days iv w) = Ok pts -> In p pts ->
  exists ts e h t, p = data_point ts e h t.
Proof.
  intros H Hp. apply run_Ok in H. unfold generate_energy_market_data in H.
  apply try_except_Ok in H. destruct H as [H|(e & w1 & _ & H)].
  - eapply read_market_data_shape; eauto.
  - apply fallback_inv in H.
    destruct H as (ipd & all_dates & es & hs & ts & _ & _ & _ & ->).
    apply data_points_In in Hp. destruct Hp as (d & x & y & z & -> & _). eauto.
Qed.

(** ** The single-series generators *)

Lemma zipWith_map {A B C D : Type} (f : B -> C -> D) (g : A -> B) (h : A -> C) l :
  zipWith f (map g l) (map h l) = map (fun x => f (g x) (h x)) l.
Proof.
  induction l as [|a l IH]; simpl; [reflexivity|]. rewrite IH. reflexivity.
Qed.

Lemma zipWith_combine {A B C : Type} (f : A -> B -> C) l1 l2 :
  zipWith f l1 l2 = map (fun ab => f (fst ab) (snd ab)) (combine l1 l2).
Proof.
  revert l2. induction l1 as [|a l1 IH]; intros [|b l2]; simpl; try reflexivity.
  rewrite IH. reflexivity.
Qed.

Lemma zipWith_In {A B C : Type} (f : A -> B -> C) l1 l2 c :
  In c (zipWith f l1 l2) -> exists a b, c = f a b /\ In a l1 /\ In b l2.
Proof.
  revert l2. induction l1 as [|a l1 IH]; intros [|b l2]; simpl; try contradiction.
  intros Hc. destruct Hc as [Hc|Hc].
  - subst c. exists a, b. auto.
  - destruct (IH _ Hc) as (a' & b' & Hab & Ha & Hb). exists a', b'. auto.
Qed.

Lemma zipWith_fst_map {A B C D : Type} (F : A -> B -> C) (g : C -> D) (h : A -> D)
    l1 l2 :
  (forall a b, g (F a b) = h a) -> List.length l1 = List.length l2 ->
  map g (zipWith F l1 l2) = map h l1.
Proof.
  intros Hg. revert l2. induction l1 as [|a l1 IH]; intros [|b l2]; simpl;
    intros Hl; try discriminate; [reflexivity|].
  rewrite Hg, IH by lia. reflexivity.
Qed.

(** X18: for a number of hours that is not negative and a positive
    interval, the single-series generator returns a frame with the columns
    [ds], [y] and [unique_id], whose rows start that many hours before the
    current time, one interval apart, tagged [energy_price], with a price of
    at least 0.01. *)
Theorem synthetic_data_is_floored_grid hours iv w df :
  0 <= hours -> 0 < iv ->
  fst (generate_synthetic_data np hours iv w) = Ok df ->
  columns df = ["ds"; "y"; "unique_id"] /\
  List.length (rows df)
  = Nat.min (Z.to_nat (hours * (60 / iv))) (Z.to_nat (hours * 3600 / (iv * 60)) + 1) /\
  map (row_get "ds") (rows df)
  = map (fun i => Time (w_clock np w (w_tick np w) - hours * 3600
                        + Z.of_nat i * (iv * 60)))
        (seq 0 (List.length (rows df))) /\
  forall r, In r (rows df) ->
    exists d y, r = [("ds", Time d); ("y", Num y); ("unique_id", Str "energy_price")] /\
                (0.01 <= y)%Q.
Proof.
  intros Hh Hiv H. apply run_Ok in H. revert H. unfold generate_synthetic_data. intros H.
  apply bind_Ok in H. destruct H as (pph & w1 & Hpph & H).
  apply bind_Ok in H. destruct H as (now & w2 & Hnow & H).
  apply bind_Ok in H. destruct H as (all_dates & w3 & Hdates & H).
  apply bind_Ok in H. destruct H as (noise & w4 & Hnoise & H).
  apply ret_Ok in H. destruct H as [-> _].
  apply lift_Ok in Hpph, Hdates. destruct Hpph as [Hpph ->], Hdates as [Hdates _].
  unfold datetime_now in Hnow. injection Hnow as <- _.
  apply draws_length in Hnoise. cbn [columns rows].
  unfold py_floordiv in Hpph. destruct (Z.eqb_spec iv 0) as [|_]; [lia|].
  injection Hpph as <-.
  unfold pd_date_range in Hdates. destruct (Z.eqb_spec iv 0) as [|_]; [lia|].
  destruct (Z.ltb_spec iv 0) as [|_]; [lia|].
  destruct (Z.ltb_spec (w_clock np w (w_tick np w))
                       (w_clock np w (w_tick np w) - hours * 3600)) as [|_]; [lia|].
  injection Hdates as <-.
  replace (w_clock np w (w_tick np w) - (w_clock np w (w_tick np w) - hours * 3600))
    with (hours * 3600) in * by lia.
  assert (Htot : 0 <= hours * (60 / iv)).
  { apply Z.mul_nonneg_nonneg; [lia|]. apply Z.div_pos; lia. }
  unfold py_slice_to in *.
  destruct (Z.leb_spec 0 (hours * (60 / iv))) as [_|]; [|lia].
  rewrite firstn_map, firstn_seq_min in *.
  set (n := Nat.min (Z.to_nat (hours * (60 / iv)))
                    (Z.to_nat (hours * 3600 / (iv * 60)) + 1)) in *.
  rewrite length_map, length_seq in Hnoise.
  split; [reflexivity|].
  match goal with |- context [map hour_of_day ?ds] => set (dates := ds) in * end.
  match goal with |- context [zipWith _ dates ?ps] => set (prices := ps) in * end.
  assert (Hld : List.length dates = n)
    by (unfold dates; rewrite length_map, length_seq; reflexivity).
  assert (Hlp : List.length prices = n).
  { unfold prices.
    repeat (progress (rewrite ?zipWith_length, ?length_map, ?length_seq)).
    fold dates. rewrite Hnoise, ?Hld. lia. }
  assert (Hlen : List.length
                   (zipWith (fun d y => [("ds", Time d); ("y", Num y);
                                         ("unique_id", Str "energy_price")])
                            dates prices) = n)
    by (rewrite zipWith_length; lia).
  split; [exact Hlen|]. split.
  - rewrite zipWith_length, Hld, Hlp, Nat.min_id.
    rewrite (zipWith_fst_map _ (row_get "ds") Time); [|reflexivity|lia].
    unfold dates. rewrite map_map. reflexivity.
  - intros r Hr. apply zipWith_In in Hr. destruct Hr as (d & y & -> & _ & Hy).
    exists d, y. split; [reflexivity|].
    unfold prices in Hy. apply in_map_iff in Hy. destruct Hy as (x & <- & _).
    apply py_max_floor.
Qed.

Lemma add_interval_rows {A : Type} (dvs : list A) (val : A -> Q) (F : A -> record)
    df L :
  rows df = map F dvs ->
  rows (add_interval (map val dvs) df L)
  = map (fun dv => row_interval (val dv) (F dv) L) dvs.
Proof.
  intros Hrows. unfold add_interval, set_col. cbn [rows]. rewrite Hrows.
  rewrite !map_map.
  rewrite (zipWith_map Qminus val (fun x => (val x * (1 - inject_Z L / 100) * 0.5)%Q)).
  rewrite (zipWith_map Qplus val (fun x => (val x * (1 - inject_Z L / 100) * 0.5)%Q)).
  rewrite !map_map.
  rewrite (zipWith_map (fun (r : record) (v : cell) =>
                          dict_set ("forecast-lo-" ++ str_of_int L)%string v r)).
  rewrite (zipWith_map (fun (r : record) (v : cell) =>
                          dict_set ("forecast-hi-" ++ str_of_int L)%string v r)).
  reflexivity.
Qed.

Lemma fold_add_interval_rows {A : Type} (dvs : list A) (val : A -> Q) levels :
  forall (F : A -> record) df,
    rows df = map F dvs ->
    rows (fold_left (add_interval (map val dvs)) levels df)
    = map (fun dv => fold_left (row_interval (val dv)) levels (F dv)) dvs.
Proof.
  induction levels as [|L levels IH]; cbn [fold_left]; intros F df Hrows; [exact Hrows|].
  rewrite (IH (fun dv => row_interval (val dv) (F dv) L)); [reflexivity|].
  apply add_interval_rows, Hrows.
Qed.

Lemma interval_key_eqb_lo a b :
  String.eqb ("forecast-lo-" ++ str_of_int a) ("forecast-lo-" ++ str_of_int b) = (a =? b).
Proof.
  cbn. apply str_of_int_eqb.
Qed.

Lemma interval_key_eqb_hi a b :
  String.eqb ("forecast-hi-" ++ str_of_int a) ("forecast-hi-" ++ str_of_int b) = (a =? b).
Proof.
  cbn. apply str_of_int_eqb.
Qed.

Lemma row_interval_forecast v r levels :
  dict_get "forecast" (fold_left (row_interval v) levels r) = dict_get "forecast" r.
Proof.
  revert r. induction levels as [|L levels IH]; cbn [fold_left]; intros r; [reflexivity|].
  rewrite IH. unfold row_interval. rewrite !dict_get_set. reflexivity.
Qed.

Lemma row_interval_get v levels L :
  forall r,
    In L levels \/
    (dict_get ("forecast-lo-" ++ str_of_int L)%string r
     = Some (Num (v - v * (1 - inject_Z L / 100) * 0.5)%Q) /\
     dict_get ("forecast-hi-" ++ str_of_int L)%string r
     = Some (Num (v + v * (1 - inject_Z L / 100) * 0.5)%Q)) ->
    dict_get ("forecast-lo-" ++ str_of_int L)%string (fold_left (row_interval v) levels r)
    = Some (Num (v - v * (1 - inject_Z L / 100) * 0.5)%Q) /\
    dict_get ("forecast-hi-" ++ str_of_int L)%string (fold_left (row_interval v) levels r)
    = Some (Num (v + v * (1 - inject_Z L / 100) * 0.5)%Q).
Proof.
  induction levels as [|L' levels IH]; cbn [fold_left]; intros r H.
  - destruct H as [[]|H]. exact H.
  - apply IH. unfold row_interval. rewrite !dict_get_set.
    rewrite interval_key_eqb_lo, interval_key_eqb_hi.
    replace (String.eqb ("forecast-lo-" ++ str_of_int L) ("forecast-hi-" ++ str_of_int L'))
      with false by reflexivity.
    replace (String.eqb ("forecast-hi-" ++ str_of_int L) ("forecast-lo-" ++ str_of_int L'))
      with false by reflexivity.
    destruct (Z.eqb_spec L L') as [->|Hne]; [right; auto|].
    destruct H as [[H|H]|H]; [congruence|left; exact H|right; exact H].
Qed.

Lemma interval_formula (v : Q) (L : Z) :
  (v - v * (1 - inject_Z L / 100) * 0.5 == v * (1 - uncertainty_of L))%Q /\
  (v + v * (1 - inject_Z L / 100) * 0.5 == v * (1 + uncertainty_of L))%Q.
Proof.
  unfold uncertainty_of. unfold Zminus. rewrite inject_Z_plus, inject_Z_opp.
  split; field.
Qed.

Lemma map_snd_combine_eq {A B : Type} (l1 : list A) (l2 : list B) :
  List.length l1 = List.length l2 -> map snd (combine l1 l2) = l2.
Proof.
  revert l2. induction l1 as [|a l1 IH]; intros [|b l2]; simpl; intros Hl;
    try discriminate; [reflexivity|].
  rewrite IH by lia. reflexivity.
Qed.

(** X19: the single-series forecaster returns as many rows as the
    horizon; each has a forecast of at least 0.01 and, for every requested
    level, the columns [forecast-lo-<level>] and [forecast-hi-<level>] at
    [forecast * (1 -/+ (100 - level) / 100 * 0.5)]. *)
Theorem single_series_forecast_intervals df h iv levels w fdf :
  fst (generate_synthetic_forecast np df h iv levels w) = Ok fdf ->
  Z.of_nat (List.length (rows fdf)) = h /\
  forall row, In row (rows fdf) ->
    exists v,
      row_get "forecast" row = Num v /\ (0.01 <= v)%Q /\
      forall L, In L levels ->
        exists lo hi,
          row_get ("forecast-lo-" ++ str_of_int L)%string row = Num lo /\
          row_get ("forecast-hi-" ++ str_of_int L)%string row = Num hi /\
          (lo == v * (1 - uncertainty_of L))%Q /\
          (hi == v * (1 + uncertainty_of L))%Q.
Proof.
  intros H. apply run_Ok in H. revert H. unfold generate_synthetic_forecast. intros H.
  apply bind_Ok in H. destruct H as (last_date & w1 & _ & H).
  apply bind_Ok in H. destruct H as (last_price & w2 & _ & H).
  apply bind_Ok in H. destruct H as (dates & w3 & Hdates & H).
  apply bind_Ok in H. destruct H as (trend & w4 & _ & H).
  apply bind_Ok in H. destruct H as (noise & w5 & Hnoise & H).
  apply ret_Ok in H. destruct H as [-> _].
  apply lift_Ok in Hdates. destruct Hdates as [Hdates _].
  apply draws_length in Hnoise.
  assert (Hd : List.length dates = Z.to_nat h /\ 0 <= h).
  { destruct last_date as [d|]; [|discriminate].
    unfold pd_date_range_periods in Hdates.
    destruct (Z.ltb_spec h 0); [discriminate|]. destruct (iv =? 0); [discriminate|].
    injection Hdates as <-. rewrite length_map, length_seq. auto. }
  destruct Hd as [Hd Hh].
  match goal with |- context [zipWith _ dates ?vs] => set (values := vs) in * end.
  assert (Hv : List.length values = List.length dates).
  { unfold values.
    repeat (progress (rewrite ?zipWith_length, ?length_map, ?length_seq)).
    rewrite Hnoise, Hd. lia. }
  assert (Hvals : values = map snd (combine dates values))
    by (symmetry; apply map_snd_combine_eq; lia).
  assert (Hrows : rows (fold_left (add_interval values) levels
                          {| columns := ["ds"; "forecast"];
                             rows := zipWith (fun d v => [("ds", Time d); ("forecast", Num v)])
                                             dates values |})
                  = map (fun dv => fold_left (row_interval (snd dv)) levels
                                     [("ds", Time (fst dv)); ("forecast", Num (snd dv))])
                        (combine dates values)).
  { rewrite Hvals at 1.
    apply (fold_add_interval_rows (combine dates values) snd levels
             (fun dv => [("ds", Time (fst dv)); ("forecast", Num (snd dv))])).
    cbn [rows].
    exact (zipWith_combine (fun d v => [("ds", Time d); ("forecast", Num v)])
                           dates values). }
  rewrite Hrows. split.
  - rewrite length_map, length_combine. lia.
  - intros row Hrow. apply in_map_iff in Hrow. destruct Hrow as ([d v] & <- & Hin).
    cbn [fst snd]. exists v. split; [|split].
    + unfold row_get. rewrite row_interval_forecast. reflexivity.
    + apply in_combine_r in Hin. unfold values in Hin.
      apply in_map_iff in Hin. destruct Hin as (x & <- & _). apply py_max_floor.
    + intros L HL.
      destruct (row_interval_get v levels L [("ds", Time d); ("forecast", Num v)]
                  (or_introl HL)) as [Hlo Hhi].
      do 2 eexists. unfold row_get. rewrite Hlo, Hhi.
      split; [reflexivity|]. split; [reflexivity|]. apply interval_formula.
Qed.

(** ** The provider branch *)

Lemma py_index_bound {A : Type} (i : Z) (l : list A) a :
  py_index i l = Ok a -> 0 <= i -> i < Z.of_nat (List.length l).
Proof.
  unfold py_index. intros H Hi.
  destruct (Z.leb_spec 0 i) as [_|]; [|lia].
  destruct (i <? 0); [discriminate|].
  destruct (nth_error l (Z.to_nat i)) eqn:E; [|discriminate].
  assert (Hlt : (Z.to_nat i < List.length l)%nat)
    by (apply nth_error_Some; congruence).
  lia.
Qed.

Lemma float_at_bound fc i c x :
  float_at fc i c = Ok x -> 0 <= i -> i < len fc.
Proof.
  unfold float_at, iloc_col. intros H Hi.
  apply rbind_Ok in H. destruct H as (cell0 & H & _).
  apply rbind_Ok in H. destruct H as (r & Hr & _).
  eapply py_index_bound; eauto.
Qed.

Lemma py_range_last a b : a < b -> In (b - 1) (py_range a b).
Proof.
  intros Hab. unfold py_range. apply in_map_iff.
  exists (Z.to_nat (b - 1 - a)). split; [lia|]. apply in_seq. lia.
Qed.

(** X20: a response tagged "timegpt-1" comes from three
    successful calls of the client at the horizon of the request; it has one
    forecast point for each row of the energy forecast, and the hash and
    token forecasts have at least as many rows. *)
Theorem provider_answer_covers_every_step request w resp :
  fst (generate_forecast np read_csv nixtla_client mara_prices request w) = Ok resp ->
  model resp = "timegpt-1" ->
  exists client edf hdf tdf freq level efc hfc tfc,
    nixtla_client = Some client /\
    forecast client edf (ForecastRequest.horizon request) freq level = Ok efc /\
    forecast client hdf (ForecastRequest.horizon request) freq level = Ok hfc /\
    forecast client tdf (ForecastRequest.horizon request) freq level = Ok tfc /\
    len efc <= len hfc /\ len efc <= len tfc /\
    Z.of_nat (List.length (forecast_only (forecasts resp))) = len efc.
Proof.
  intros H Hm. apply run_Ok, generate_forecast_inv in H.
  destruct H as [(client & edf0 & hdf0 & tdf0 & w1 & Hc & H)|(df & w1 & H)].
  - pose proof (provider_segments np _ _ _ _ _ _ _ _ H) as Hseg.
    apply provider_forecast_inv in H.
    destruct H as (edf & hdf & tdf & freq & level & efc & hfc & tfc & historical
                   & future & timegpt & now & He & Hh & Ht & Hhist & Hfut & _ & E).
    exists client, edf, hdf, tdf, freq, level, efc, hfc, tfc.
    repeat (split; [assumption|]).
    assert (Hcover : 0 < len efc -> len efc - 1 < len hfc /\ len efc - 1 < len tfc).
    { intros Hpos. pose proof (py_range_last 0 (len efc) Hpos) as Hin.
      apply rmap_Forall2 in Hfut.
      destruct (Forall2_In_l _ _ _ Hfut _ Hin) as (p & _ & Hp).
      apply provider_point_Ok in Hp.
      destruct Hp as (ts & e & h & t & _ & Fh & Ft & _).
      split; eapply float_at_bound; eauto; lia. }
    assert (Hnn : 0 <= len hfc /\ 0 <= len tfc) by (unfold len; lia).
    split; [|split].
    + destruct (Z.ltb_spec 0 (len efc)); [apply Hcover in H; lia|lia].
    + destruct (Z.ltb_spec 0 (len efc)); [apply Hcover in H; lia|lia].
    + destruct Hseg as (? & ? & ? & efc' & hfc' & tfc' & future' & _ & Hfo & _).
      rewrite E in Hfo |- *. cbn [forecasts] in *.
      assert (Hfo' : forecast_only (historical ++ future) = future).
      { unfold forecast_only. rewrite filter_app.
        rewrite (filter_none _ historical), (filter_all _ future); [reflexivity| |].
        - intros p Hp. destruct (rmap_In _ _ _ Hfut p Hp) as (i & _ & Hi).
          apply provider_point_not_historical in Hi. rewrite Hi. reflexivity.
        - intros p Hp. destruct (rmap_In _ _ _ Hhist p Hp) as (i & _ & Hi).
          apply provider_hist_point_is_historical in Hi. rewrite Hi. reflexivity. }
      rewrite Hfo'. apply rmap_length in Hfut. rewrite Hfut.
      rewrite py_range_length. unfold len. lia.
  - exfalso. apply synthetic_inv in H.
    destruct H as (? & ? & ? & ? & ? & ? & ? & ? & ? & ? & ? & _ & _ & _ & _ & _ & _ & ->).
    discriminate Hm.
Qed.

(** ** The frame of the outer fallback *)

Lemma mem_false c l : mem c l = false <-> ~ In c l.
Proof.
  unfold mem. split.
  - intros H Hin. assert (E : existsb (String.eqb c) l = true).
    { apply existsb_exists. exists c. split; [exact Hin|apply String.eqb_refl]. }
    congruence.
  - intros H. destruct (existsb (String.eqb c) l) eqn:E; [|reflexivity].
    apply existsb_exists in E. destruct E as (x & Hx & Ex).
    apply String.eqb_eq in Ex. subst. contradiction.
Qed.

Lemma add_keys_In seen ks c :
  In c (add_keys seen ks) -> In c seen \/ In c ks.
Proof.
  unfold add_keys. revert seen. induction ks as [|k ks IH]; simpl; intros seen H; [auto|].
  apply IH in H. destruct H as [H|H]; [|auto].
  destruct (mem k seen); [auto|]. apply in_app_or in H. simpl in H.
  destruct H as [H|[H|[]]]; auto.
Qed.

Lemma pd_DataFrame_columns_In rs c :
  In c (columns (pd_DataFrame rs)) -> exists r, In r rs /\ In c (dict_keys r).
Proof.
  unfold pd_DataFrame. cbn [columns].
  assert (H : forall acc, In c (fold_left (fun acc r => add_keys acc (dict_keys r)) rs acc) ->
                          In c acc \/ exists r, In r rs /\ In c (dict_keys r)).
  { induction rs as [|r rs IH]; simpl; intros acc Hin; [auto|].
    apply IH in Hin. destruct Hin as [Hin|(r' & Hr' & Hc)]; [|right; eauto].
    apply add_keys_In in Hin. destruct Hin as [Hin|Hin]; [auto|right; eauto]. }
  intros Hin. apply H in Hin. destruct Hin as [[]|Hin]. exact Hin.
Qed.

(** X21: the frame that the outer fallback hands to the synthetic
    forecaster never has a [timestamp] column, whether it comes from the
    market-data API or from the request. *)
Theorem outer_fallback_frame_has_no_timestamp request df :
  fallback_frame np mara_prices request = Ok df -> has_col "timestamp" df = false.
Proof.
  assert (Hreq : forall df', request_frame np request = Ok df' ->
                             has_col "timestamp" df' = false).
  { unfold request_frame. intros df' H.
    apply rbind_Ok in H. destruct H as (rs & Hrs & H). injection H as <-.
    apply mem_false. intros Hin. apply pd_DataFrame_columns_In in Hin.
    destruct Hin as (r & Hr & Hc).
    destruct (rmap_In _ _ _ Hrs r Hr) as (item & _ & Hitem).
    apply rbind_Ok in Hitem. destruct Hitem as (t & _ & Hitem). injection Hitem as <-.
    simpl in Hc. destruct Hc as [Hc|[Hc|[]]]; discriminate Hc. }
  assert (Hmara : forall df0,
            has_col "timestamp"
                    (rename_col "energy_price" "y" (rename_col "timestamp" "ds" df0))
            = false).
  { intros df0. apply mem_false. unfold rename_col. cbn [columns].
    rewrite map_map. intros Hin. apply in_map_iff in Hin.
    destruct Hin as (k & Hk & _).
    destruct (String.eqb_spec k "timestamp") as [E|Hne].
    - discriminate Hk.
    - destruct (String.eqb_spec k "energy_price") as [E'|Hne'];
        [discriminate Hk|congruence]. }
  unfold fallback_frame. destruct mara_prices as [[status body]|e]; cbn [rbind].
  - destruct (status =? 200).
    + destruct body as [mara_data|e]; cbn [rbind]; [|apply Hreq].
      destruct (to_datetime_col np "timestamp" (pd_DataFrame mara_data)) as [df1|e];
        cbn [rbind]; [|apply Hreq].
      intros H. injection H as <-. apply Hmara.
    + destruct (request_frame np request) as [df'|e].
      * intros H. injection H as <-. apply Hreq. reflexivity.
      * intros H. discriminate H.
  - apply Hreq.
Qed.

End Coverage.

(** * Evaluations of the further properties *)

Lemma sample_sqrt_nonneg x : (0 <= sqrt sample_lib x)%Q.
Proof.
  cbn [sqrt sample_lib]. unfold Qle, Qdiv, Qmult, Qinv. cbn.
  pose proof (Z.sqrt_nonneg (Qnum x * Zpos (Qden x))). lia.
Qed.

Lemma history_precedes_forecast_witness :
  fst provider_run = Ok provider_response /\
  exists historical future,
    forecasts provider_response = historical ++ future /\
    (forall p, In p historical -> is_historical p = true) /\
    (forall p, In p future -> is_historical p = false) /\
    (List.length historical <= 50)%nat.
Proof.
  assert (Hrun : fst provider_run = Ok provider_response)
    by (vm_compute; reflexivity).
  split; [exact Hrun|].
  exact (history_precedes_forecast sample_lib (Ok (csv_rows 50 1000000))
           (Some counting_client) (Raise ConnectionError) sample_request
           (ticking_world 1000000) provider_response Hrun).
Defined.

Lemma response_tag_witness :
  fst provider_run = Ok provider_response /\
  (model provider_response = "synthetic" \/
   (model provider_response = "timegpt-1" /\ Some counting_client <> None)) /\
  interval_minutes provider_response = ForecastRequest.interval_minutes sample_request.
Proof.
  assert (Hrun : fst provider_run = Ok provider_response)
    by (vm_compute; reflexivity).
  split; [exact Hrun|].
  exact (response_tag sample_lib (Ok (csv_rows 50 1000000))
           (Some counting_client) (Raise ConnectionError) sample_request
           (ticking_world 1000000) provider_response Hrun).
Defined.

Lemma no_forecast_without_horizon_witness :
  @None NixtlaClient = None /\ ForecastRequest.horizon idle_request <= 0 /\
  exists e,
    fst (generate_forecast sample_lib (Ok (csv_rows 50 1000000)) None
           (Raise ConnectionError) idle_request (ticking_world 1000000)) = Raise e.
Proof.
  assert (H1 : @None NixtlaClient = None) by reflexivity.
  assert (H2 : ForecastRequest.horizon idle_request <= 0) by (simpl; lia).
  split; [exact H1|]. split; [exact H2|].
  exact (no_forecast_without_horizon sample_lib (Ok (csv_rows 50 1000000)) None
           (Raise ConnectionError) idle_request (ticking_world 1000000) H1 H2).
Defined.

Lemma synthetic_prices_floored_witness :
  fst synthetic_run = Ok synthetic_response /\
  In (point_at 13 synthetic_response) (forecasts synthetic_response) /\
  is_historical (point_at 13 synthetic_response) = false /\
  (0.01 <= energy_price (point_at 13 synthetic_response))%Q /\
  (0.1 <= hash_price (point_at 13 synthetic_response))%Q /\
  (0.01 <= token_price (point_at 13 synthetic_response))%Q.
Proof.
  assert (Hrun : fst synthetic_run = Ok synthetic_response)
    by (vm_compute; reflexivity).
  assert (Hin : In (point_at 13 synthetic_response) (forecasts synthetic_response))
    by (apply nth_In; vm_compute; lia).
  assert (Hnh : is_historical (point_at 13 synthetic_response) = false)
    by reflexivity.
  repeat (split; [assumption|]).
  exact (synthetic_prices_floored sample_lib climbing_frame 2 5 [80; 95]
           (ticking_world 4000) synthetic_response (point_at 13 synthetic_response)
           Hrun Hin Hnh).
Defined.

Lemma no_bounds_for_other_levels_witness :
  fst provider_run = Ok provider_response /\
  In (point_at 50 provider_response) (forecasts provider_response) /\
  In "energy_price" quantities /\ In "_lo_" sides /\
  ~ In 50 (ForecastRequest.confidence_levels sample_request) /\
  emitted "energy_price" "_lo_" 50 (point_at 50 provider_response) = None.
Proof.
  assert (Hrun : fst provider_run = Ok provider_response)
    by (vm_compute; reflexivity).
  assert (Hin : In (point_at 50 provider_response) (forecasts provider_response))
    by (apply nth_In; vm_compute; lia).
  assert (Hq : In "energy_price" quantities) by (simpl; auto).
  assert (Hs : In "_lo_" sides) by (simpl; auto).
  assert (HL : ~ In 50 (ForecastRequest.confidence_levels sample_request))
    by (simpl; intros [H|[H|[]]]; discriminate H).
  repeat (split; [assumption|]).
  exact (no_bounds_for_other_levels sample_lib (Ok (csv_rows 50 1000000))
           (Some counting_client) (Raise ConnectionError) sample_request
           (ticking_world 1000000) provider_response
           (point_at 50 provider_response) "energy_price" "_lo_" 50
           Hrun Hin Hq Hs HL).
Defined.

Lemma historical_points_bounds_witness :
  fst provider_run = Ok provider_response /\
  In (point_at 0 provider_response) (forecasts provider_response) /\
  is_historical (point_at 0 provider_response) = true /\
  ((model provider_response = "synthetic" /\
    bounds (point_at 0 provider_response) = []) \/
   (model provider_response = "timegpt-1" /\
    forall q s L, In q quantities -> In s sides ->
      In L (ForecastRequest.confidence_levels sample_request) ->
      emitted q s L (point_at 0 provider_response) = Some None)).
Proof.
  assert (Hrun : fst provider_run = Ok provider_response)
    by (vm_compute; reflexivity).
  assert (Hin : In (point_at 0 provider_response) (forecasts provider_response))
    by (apply nth_In; vm_compute; lia).
  assert (Hh : is_historical (point_at 0 provider_response) = true)
    by reflexivity.
  repeat (split; [assumption|]).
  exact (historical_points_bounds sample_lib (Ok (csv_rows 50 1000000))
           (Some counting_client) (Raise ConnectionError) sample_request
           (ticking_world 1000000) provider_response
           (point_at 0 provider_response) Hrun Hin Hh).
Defined.

Lemma ds_y_history_repeats_energy_witness :
  fst series_run = Ok series_response /\
  has_col "timestamp" request_series = false /\
  has_col "energyPrice" request_series = false /\
  In (point_at 0 series_response) (forecasts series_response) /\
  is_historical (point_at 0 series_response) = true /\
  hash_price (point_at 0 series_response) = energy_price (point_at 0 series_response) /\
  token_price (point_at 0 series_response) = energy_price (point_at 0 series_response).
Proof.
  assert (Hrun : fst series_run = Ok series_response)
    by (vm_compute; reflexivity).
  assert (H1 : has_col "timestamp" request_series = false) by reflexivity.
  assert (H2 : has_col "energyPrice" request_series = false) by reflexivity.
  assert (Hin : In (point_at 0 series_response) (forecasts series_response))
    by (apply nth_In; vm_compute; lia).
  assert (Hh : is_historical (point_at 0 series_response) = true)
    by reflexivity.
  repeat (split; [assumption|]).
  exact (ds_y_history_repeats_energy sample_lib request_series 2 5 [80; 95]
           (ticking_world 1000000) series_response (point_at 0 series_response)
           Hrun H1 H2 Hin Hh).
Defined.

Lemma anomaly_response_is_consistent_witness :
  detect_anomalies sample_lib (Some flagging_client) sample_request
  = Ok flagged_anomalies /\
  total_anomalies flagged_anomalies = 1 /\
  total_anomalies flagged_anomalies
  = Z.of_nat (List.length (anomalies flagged_anomalies)) /\
  (forall a, In a (anomalies flagged_anomalies) -> anomaly_score a = 1.0%Q) /\
  (anomaly_rate flagged_anomalies ==
   match ForecastRequest.market_data sample_request with
   | [] => 0
   | _ => inject_Z (total_anomalies flagged_anomalies)
          / inject_Z (Z.of_nat (List.length (ForecastRequest.market_data sample_request)))
   end)%Q.
Proof.
  assert (Hrun : detect_anomalies sample_lib (Some flagging_client) sample_request
                 = Ok flagged_anomalies) by (vm_compute; reflexivity).
  split; [exact Hrun|]. split; [reflexivity|].
  exact (anomaly_response_is_consistent sample_lib (Some flagging_client)
           sample_request flagged_anomalies Hrun).
Defined.

Lemma arbitrage_count_bounded_witness :
  (forall x, (0 <= sqrt sample_lib x)%Q) /\
  0 <= detect_arbitrage_opportunities sample_lib [1; 2; 3; 40]%Q
    <= Z.of_nat (List.length [1; 2; 3; 40]%Q).
Proof.
  split; [exact sample_sqrt_nonneg|].
  exact (arbitrage_count_bounded sample_lib [1; 2; 3; 40]%Q sample_sqrt_nonneg).
Defined.

Lemma forecast_timestamps_follow_grid_witness :
  fst synthetic_run = Ok synthetic_response /\
  exists d,
    (if has_col (fst (fst (fst (column_names climbing_frame)))) climbing_frame
     then last_timestamp sample_lib (fst (fst (fst (column_names climbing_frame))))
                         climbing_frame = Ok (Some d)
     else d = w_clock sample_lib (ticking_world 4000)
                      (w_tick sample_lib (ticking_world 4000))) /\
    map timestamp (forecast_only (forecasts synthetic_response))
    = map (fun i => d + 5 * 60 + Z.of_nat i * (5 * 60)) (seq 0 (Z.to_nat 2)).
Proof.
  assert (Hrun : fst synthetic_run = Ok synthetic_response)
    by (vm_compute; reflexivity).
  split; [exact Hrun|].
  exact (forecast_timestamps_follow_grid sample_lib climbing_frame 2 5 [80; 95]
           (ticking_world 4000) synthetic_response Hrun).
Defined.

Lemma series_share_unique_timestamps_witness :
  fst frames_run
  = Ok (fst (fst sample_frames), snd (fst sample_frames), snd sample_frames) /\
  map (row_get "ds") (rows (snd (fst sample_frames)))
  = map (row_get "ds") (rows (fst (fst sample_frames))) /\
  map (row_get "ds") (rows (snd sample_frames))
  = map (row_get "ds") (rows (fst (fst sample_frames))) /\
  ForallOrdPairs (fun x y => cell_eqb x y = false)
                 (map (row_get "ds") (rows (fst (fst sample_frames)))).
Proof.
  assert (Hrun : fst frames_run
                 = Ok (fst (fst sample_frames), snd (fst sample_frames),
                       snd sample_frames)) by (vm_compute; reflexivity).
  split; [exact Hrun|].
  exact (series_share_unique_timestamps sample_lib (Ok (csv_rows 5 1000000))
           file_points 5 (ticking_world 1000001)
           (fst (fst sample_frames)) (snd (fst sample_frames)) (snd sample_frames)
           Hrun).
Defined.

Lemma market_data_in_window_sorted_witness :
  fst file_run = Ok file_points /\
  List.length file_points = 5%nat /\
  (forall p, In p file_points ->
     exists t e h k,
       p = data_point t e h k /\
       w_clock sample_lib (ticking_world 1000000)
               (w_tick sample_lib (ticking_world 1000000)) - 7 * 86400 <= t
       <= w_clock sample_lib (ticking_world 1000000)
                  (w_tick sample_lib (ticking_world 1000000))) /\
  StronglySorted
    (fun p1 p2 => time_le (row_get "timestamp" p1) (row_get "timestamp" p2) = true)
    file_points.
Proof.
  assert (Hrun : fst file_run = Ok file_points) by (vm_compute; reflexivity).
  split; [exact Hrun|]. split; [reflexivity|].
  exact (market_data_in_window_sorted sample_lib (Ok (csv_rows 5 1000000)) 7
           (ticking_world 1000000) file_points Hrun).
Defined.

Lemma synthetic_history_is_floored_witness :
  fst history_run = Ok history_points /\
  In (nth 0 history_points []) history_points /\
  exists ts e h t,
    nth 0 history_points [] = data_point ts e h t /\
    (0.1 <= e)%Q /\ (0.1 <= h)%Q /\ (0.1 <= t)%Q.
Proof.
  assert (Hrun : fst history_run = Ok history_points) by (vm_compute; reflexivity).
  assert (Hin : In (nth 0 history_points []) history_points)
    by (apply nth_In; vm_compute; lia).
  split; [exact Hrun|]. split; [exact Hin|].
  exact (synthetic_history_is_floored sample_lib 1 120 (ticking_world 1000000)
           history_points (nth 0 history_points []) Hrun Hin).
Defined.

Lemma synthetic_history_follows_grid_witness :
  0 <= 1 /\ 0 < 120 /\ fst history_run = Ok history_points /\
  List.length history_points
  = Nat.min (Z.to_nat (1 * (1440 / 120))) (Z.to_nat (1 * 86400 / (120 * 60)) + 1) /\
  map (row_get "timestamp") history_points
  = map (fun i => Time (w_clock sample_lib (ticking_world 1000000)
                                (w_tick sample_lib (ticking_world 1000000))
                        - 1 * 86400 + Z.of_nat i * (120 * 60)))
        (seq 0 (List.length history_points)).
Proof.
  assert (H1 : 0 <= 1) by lia.
  assert (H2 : 0 < 120) by lia.
  assert (Hrun : fst history_run = Ok history_points) by (vm_compute; reflexivity).
  repeat (split; [assumption|]).
  exact (synthetic_history_follows_grid sample_lib 1 120 (ticking_world 1000000)
           history_points H1 H2 Hrun).
Defined.

Lemma market_data_points_are_complete_witness :
  fst missing_file_run = Ok missing_file_points /\
  In (nth 0 missing_file_points []) missing_file_points /\
  exists ts e h t, nth 0 missing_file_points [] = data_point ts e h t.
Proof.
  assert (Hrun : fst missing_file_run = Ok missing_file_points)
    by (vm_compute; reflexivity).
  assert (Hin : In (nth 0 missing_file_points []) missing_file_points)
    by (apply nth_In; vm_compute; lia).
  split; [exact Hrun|]. split; [exact Hin|].
  exact (market_data_points_are_complete sample_lib (Raise FileNotFoundError) 1 120
           (ticking_world 1000000) missing_file_points
           (nth 0 missing_file_points []) Hrun Hin).
Defined.

Lemma synthetic_data_is_floored_grid_witness :
  0 <= 1 /\ 0 < 20 /\ fst single_data_run = Ok single_data /\
  columns single_data = ["ds"; "y"; "unique_id"] /\
  List.length (rows single_data)
  = Nat.min (Z.to_nat (1 * (60 / 20))) (Z.to_nat (1 * 3600 / (20 * 60)) + 1) /\
  map (row_get "ds") (rows single_data)
  = map (fun i => Time (w_clock sample_lib (ticking_world 1000000)
                                (w_tick sample_lib (ticking_world 1000000))
                        - 1 * 3600 + Z.of_nat i * (20 * 60)))
        (seq 0 (List.length (rows single_data))) /\
  forall r, In r (rows single_data) ->
    exists d y, r = [("ds", Time d); ("y", Num y); ("unique_id", Str "energy_price")] /\
                (0.01 <= y)%Q.
Proof.
  assert (H1 : 0 <= 1) by lia.
  assert (H2 : 0 < 20) by lia.
  assert (Hrun : fst single_data_run = Ok single_data) by (vm_compute; reflexivity).
  repeat (split; [assumption|]).
  exact (synthetic_data_is_floored_grid sample_lib 1 20 (ticking_world 1000000)
           single_data H1 H2 Hrun).
Defined.

Lemma single_series_forecast_intervals_witness :
  fst single_forecast_run = Ok single_forecast /\
  Z.of_nat (List.length (rows single_forecast)) = 2 /\
  forall row, In row (rows single_forecast) ->
    exists v,
      row_get "forecast" row = Num v /\ (0.01 <= v)%Q /\
      forall L, In L [80; 95] ->
        exists lo hi,
          row_get ("forecast-lo-" ++ str_of_int L)%string row = Num lo /\
          row_get ("forecast-hi-" ++ str_of_int L)%string row = Num hi /\
          (lo == v * (1 - uncertainty_of L))%Q /\
          (hi == v * (1 + uncertainty_of L))%Q.
Proof.
  assert (Hrun : fst single_forecast_run = Ok single_forecast)
    by (vm_compute; reflexivity).
  split; [exact Hrun|].
  exact (single_series_forecast_intervals sample_lib climbing_series 2 5 [80; 95]
           (ticking_world 4000) single_forecast Hrun).
Defined.

Lemma provider_answer_covers_every_step_witness :
  fst provider_run = Ok provider_response /\
  model provider_response = "timegpt-1" /\
  exists client edf hdf tdf freq level efc hfc tfc,
    Some counting_client = Some client /\
    forecast client edf (ForecastRequest.horizon sample_request) freq level = Ok efc /\
    forecast client hdf (ForecastRequest.horizon sample_request) freq level = Ok hfc /\
    forecast client tdf (ForecastRequest.horizon sample_request) freq level = Ok tfc /\
    len efc <= len hfc /\ len efc <= len tfc /\
    Z.of_nat (List.length (forecast_only (forecasts provider_response))) = len efc.
Proof.
  assert (Hrun : fst provider_run = Ok provider_response)
    by (vm_compute; reflexivity).
  assert (Hm : model provider_response = "timegpt-1") by reflexivity.
  split; [exact Hrun|]. split; [exact Hm|].
  exact (provider_answer_covers_every_step sample_lib (Ok (csv_rows 50 1000000))
           (Some counting_client) (Raise ConnectionError) sample_request
           (ticking_world 1000000) provider_response Hrun Hm).
Defined.

Lemma outer_fallback_frame_has_no_timestamp_witness :
  fallback_frame sample_lib (Raise ConnectionError) sample_request
  = Ok request_series /\
  has_col "timestamp" request_series = false.
Proof.
  assert (Hrun : fallback_frame sample_lib (Raise ConnectionError) sample_request
                 = Ok request_series) by (vm_compute; reflexivity).
  split; [exact Hrun|].
  exact (outer_fallback_frame_has_no_timestamp sample_lib (Raise ConnectionError)
           sample_request request_series Hrun).
Defined.
